(** * agenttools: the tool plugins as state-passing programs

    Every tool function of the repository (FileIOTools, ShellTool,
    ExcelTools, WordTools, PowerPointTools, PDFTools, CSVTools, WebTools)
    is embedded as a computation in a small Python-like monad: a state made
    of the tool object's attribute dictionary and the external world, and a
    result that is either a returned value or a raised exception.  The
    wrapped libraries (os, subprocess, openpyxl, python-docx, python-pptx,
    PyPDF2, reportlab, pandas, requests, bs4) are an interface record: a
    tool is defined once, for every behaviour of the libraries. *)

From Stdlib Require Import ZArith String Ascii List Bool Lia DecimalString.
From stdpp Require Import base option list gmap strings.

Open Scope string_scope.
Open Scope Z_scope.

(* ===================================================================== *)
(** ** Python strings *)
(* ===================================================================== *)

(** A Python [str] is modelled by a Rocq [string]; a character is a code
    point below 256. *)
Module PyStr.

Definition code (c : ascii) : N := N_of_ascii c.

(** [str.isspace] on the code points below 256. *)
Definition isspace (c : ascii) : bool :=
  let n := code c in
  ((9 <=? n) && (n <=? 13) || (28 <=? n) && (n <=? 32)
   || (n =? 133) || (n =? 160))%N.

(** [str.lower] on one code point below 256: A-Z, and the Latin-1
    capitals 192..222 without the multiplication sign 215. *)
Definition lower_char (c : ascii) : ascii :=
  let n := code c in
  if ((65 <=? n) && (n <=? 90)
      || (192 <=? n) && (n <=? 222) && negb (n =? 215))%N
  then ascii_of_N (n + 32) else c.

Fixpoint lower (s : string) : string :=
  match s with
  | EmptyString => EmptyString
  | String c r => String (lower_char c) (lower r)
  end.

Fixpoint lstrip (s : string) : string :=
  match s with
  | EmptyString => EmptyString
  | String c r => if isspace c then lstrip r else s
  end.

Fixpoint rev_onto (s acc : string) : string :=
  match s with
  | EmptyString => acc
  | String c r => rev_onto r (String c acc)
  end.

Definition rev (s : string) : string := rev_onto s EmptyString.

Definition rstrip (s : string) : string := rev (lstrip (rev s)).

(** [s.strip()] *)
Definition strip (s : string) : string := rstrip (lstrip s).

Fixpoint startswith (p s : string) : bool :=
  match p, s with
  | EmptyString, _ => true
  | String a p', String b s' => Ascii.eqb a b && startswith p' s'
  | String _ _, EmptyString => false
  end.

(** [p in s] *)
Fixpoint contains (p s : string) : bool :=
  startswith p s ||
  match s with
  | EmptyString => false
  | String _ r => contains p r
  end.

(** [s.split(sep)] for a one-character separator. *)
Fixpoint split_char (sep : ascii) (s : string) : list string :=
  match s with
  | EmptyString => [EmptyString]
  | String c r =>
      if Ascii.eqb c sep then EmptyString :: split_char sep r
      else match split_char sep r with
           | [] => [String c EmptyString]
           | h :: t => String c h :: t
           end
  end.

(** [sep.join(parts)] *)
Fixpoint join (sep : string) (parts : list string) : string :=
  match parts with
  | [] => EmptyString
  | [p] => p
  | p :: rest => p ++ sep ++ join sep rest
  end.

(** [str(n)] for an int (no limit on the number of digits). *)
Definition of_Z (n : Z) : string := NilZero.string_of_int (Z.to_int n).


Fixpoint take (n : nat) (s : string) : string :=
  match n, s with
  | O, _ => EmptyString
  | S _, EmptyString => EmptyString
  | S k, String c r => String c (take k r)
  end.

Definition isdigit (c : ascii) : bool :=
  let n := code c in ((48 <=? n) && (n <=? 57))%N.

Definition digit_val (c : ascii) : Z := Z.of_N (code c) - 48.

(** The digits of an int literal: decimal digits, single underscores
    allowed between two digits.  [prev] tells whether the previous
    character was a digit. *)
Fixpoint digits (prev : bool) (acc : Z) (s : string) : option Z :=
  match s with
  | EmptyString => if prev then Some acc else None
  | String c r =>
      if isdigit c then digits true (10 * acc + digit_val c) r
      else if Ascii.eqb c "_" then
             if prev then digits false acc r else None
           else None
  end.

(** The grammar of [int(s)] in base 10: surrounding whitespace, one
    optional sign, then digits; [None] stands for ValueError. *)
Definition to_Z (s : string) : option Z :=
  match strip s with
  | String "-" r =>
      match r with
      | String c _ => if isdigit c then Z.opp <$> digits false 0 r else None
      | EmptyString => None
      end
  | String "+" r =>
      match r with
      | String c _ => if isdigit c then digits false 0 r else None
      | EmptyString => None
      end
  | String c r => if isdigit c then digits false 0 (String c r) else None
  | EmptyString => None
  end.

End PyStr.


(* ===================================================================== *)
(** ** JSON values and [json.dumps] *)
(* ===================================================================== *)

#[warnings="-register-all"]
Inductive json : Type :=
| JNull
| JBool (b : bool)
| JInt (n : Z)
| JNum (repr : string)         (* a float, by the text the encoder prints *)
| JStr (s : string)
| JArr (items : list json)
| JObj (fields : list (string * json)).

Module Json.

Definition hex_digit (n : N) : ascii :=
  if (n <? 10)%N then ascii_of_N (48 + n) else ascii_of_N (87 + n).

(** One character of a string literal, as the encoder with
    [ensure_ascii=True] prints it. *)
Definition escape_char (c : ascii) : string :=
  let n := PyStr.code c in
  if (n =? 34)%N then String "\" (String c EmptyString)
  else if (n =? 92)%N then "\\"
  else if (n =? 10)%N then "\n"
  else if (n =? 13)%N then "\r"
  else if (n =? 9)%N then "\t"
  else if (n =? 8)%N then "\b"
  else if (n =? 12)%N then "\f"
  else if ((32 <=? n) && (n <=? 126))%N then String c EmptyString
  else "\u00" ++ String (hex_digit (n / 16)) (String (hex_digit (n mod 16)) EmptyString).

Fixpoint escape (s : string) : string :=
  match s with
  | EmptyString => EmptyString
  | String c r => escape_char c ++ escape r
  end.

Definition quote (s : string) : string :=
  String (ascii_of_N 34) (escape s) ++ String (ascii_of_N 34) EmptyString.

(** [json.dumps(j)] with the default separators. *)
Fixpoint dumps (j : json) : string :=
  match j with
  | JNull => "null"
  | JBool true => "true"
  | JBool false => "false"
  | JInt n => PyStr.of_Z n
  | JNum r => r
  | JStr s => quote s
  | JArr items =>
      "[" ++ PyStr.join ", " (map dumps items) ++ "]"
  | JObj fields =>
      "{" ++ PyStr.join ", "
               (map (fun kv => quote (fst kv) ++ ": " ++ dumps (snd kv)) fields)
          ++ "}"
  end.


End Json.


(* ===================================================================== *)
(** ** Exceptions, outcomes and the state of a call *)
(* ===================================================================== *)

(** The classes of exception the tools' [except] clauses tell apart; every
    value of [exn] is an instance of Python's [Exception]. *)
Inductive exn_class : Type :=
| ValueError | TypeError | JSONDecodeError | KeyError | IndexError
| AttributeError | ImportError | OverflowError | OtherError.

(** A raised exception: its class and [str(e)]. *)
Record exn : Type := Exn { exn_cls : exn_class; exn_text : string }.

Definition exn_class_eqb (a b : exn_class) : bool :=
  match a, b with
  | ValueError, ValueError | TypeError, TypeError
  | JSONDecodeError, JSONDecodeError | KeyError, KeyError
  | IndexError, IndexError | AttributeError, AttributeError
  | ImportError, ImportError | OverflowError, OverflowError
  | OtherError, OtherError => true
  | _, _ => false
  end.

(** [isinstance(e, c)]: [json.JSONDecodeError] derives from ValueError. *)
Definition isinstance (e : exn) (c : exn_class) : bool :=
  match exn_cls e, c with
  | JSONDecodeError, ValueError => true
  | a, b => exn_class_eqb a b
  end.

Inductive outcome (A : Type) : Type :=
| Return (a : A)
| Raise (e : exn).
Arguments Return {A} a.
Arguments Raise {A} e.

(** What a call can see and change: the attribute dictionary of the tool
    object it is a method of, and the world outside the process (files,
    processes, network). *)
Record state (W : Type) : Type :=
  State { self_attrs : gmap string json; world : W }.
Arguments State {W} _ _.
Arguments self_attrs {W} _.
Arguments world {W} _.

Module Py.
Section Monad.
Context {W : Type}.

Definition t (A : Type) : Type := state W -> outcome A * state W.

Definition ret {A} (a : A) : t A := fun s => (Return a, s).


Definition bind {A B} (m : t A) (k : A -> t B) : t B :=
  fun s =>
    match m s with
    | (Return a, s') => k a s'
    | (Raise e, s') => (Raise e, s')
    end.

(** [try: m  except <classes>: h(e)]: an exception of [m] that
    [catches] accepts runs the handler, any other goes on. *)
Definition try_except {A} (m : t A) (catches : exn -> bool)
           (h : exn -> t A) : t A :=
  fun s =>
    match m s with
    | (Return a, s') => (Return a, s')
    | (Raise e, s') => if catches e then h e s' else (Raise e, s')
    end.

(** [except Exception] *)
Definition any_exception (e : exn) : bool := true.

(** A library call that has no effect and reads nothing. *)
Definition call {A} (r : outcome A) : t A := fun s => (r, s).

(** A library call that reads the world. *)
Definition ask {A} (f : W -> outcome A) : t A :=
  fun s => (f (world s), s).

(** A library call that may change the world. *)
Definition act {A} (f : W -> outcome A * W) : t A :=
  fun s =>
    let (r, w') := f (world s) in
    (r, State (self_attrs s) w').

(** [for x in l: body(x)], the loop variable threaded as an accumulator. *)
Fixpoint for_each {A B} (l : list A) (acc : B) (body : B -> A -> t B)
  : t B :=
  match l with
  | [] => ret acc
  | x :: rest => bind (body acc x) (fun acc' => for_each rest acc' body)
  end.

(** [[f(x) for x in l]] *)
Fixpoint map_each {A B} (f : A -> t B) (l : list A) : t (list B) :=
  match l with
  | [] => ret []
  | x :: rest =>
      bind (f x) (fun y => bind (map_each f rest) (fun ys => ret (y :: ys)))
  end.

End Monad.
End Py.

Arguments Py.t W A : clear implicits.

Declare Scope py_scope.
Delimit Scope py_scope with py.
Notation "'let*' x ':=' m 'in' k" := (Py.bind m (fun x => k))
  (at level 10, x name, m at level 100, k at level 200) : py_scope.

(** A python value that can sit in a worksheet cell; [F] is the float type. *)
Inductive value (F : Type) : Type :=
| VNone
| VBool (b : bool)
| VInt (n : Z)
| VFloat (f : F)
| VStr (s : string)
| VDate (iso : string).
Arguments VNone {F}.
Arguments VBool {F} b.
Arguments VInt {F} n.
Arguments VFloat {F} f.
Arguments VStr {F} s.
Arguments VDate {F} iso.

(** Python sequence indexing [l[i]]: a negative index counts from the end;
    outside [-len, len) it is IndexError. *)
Definition py_position {A} (l : list A) (i : Z) : option nat :=
  let n := Z.of_nat (length l) in
  if (0 <=? i) && (i <? n) then Some (Z.to_nat i)
  else if (i <? 0) && (0 <=? n + i) then Some (Z.to_nat (n + i))
  else None.

(** [sys.maxsize] of a 64-bit CPython: the largest [Py_ssize_t].  An int
    given where C code wants an index or a size is converted to that type
    first. *)
Definition ssize_max : Z := 2 ^ 63 - 1.

Definition fits_ssize (i : Z) : bool :=
  (- ssize_max - 1 <=? i) && (i <=? ssize_max).

(** The text CPython gives the exception when the conversion fails. *)
Definition cannot_fit : string := "cannot fit 'int' into an index-sized integer".

(** The IndexError of a sequence of the given kind (list, tuple, ...). *)
Definition index_error (kind : string) : exn :=
  Exn IndexError (kind ++ " index out of range").

(** [l[i]].  A Python sequence has at most [sys.maxsize] items, so an
    index that does not fit [Py_ssize_t] is outside [-len, len): for it
    the IndexError comes from the conversion and has its text. *)
Definition py_index {A} (kind : string) (l : list A) (i : Z) : outcome A :=
  match py_position l i with
  | Some k =>
      match l !! k with
      | Some x => Return x
      | None => Raise (index_error kind)
      end
  | None =>
      if fits_ssize i then Raise (index_error kind)
      else Raise (Exn IndexError cannot_fit)
  end.

(* ===================================================================== *)
(** ** Data the wrapped libraries hand to the tools *)
(* ===================================================================== *)

(** [subprocess.CompletedProcess] *)
Record completed : Type :=
  Completed { returncode : Z; proc_stdout : string; proc_stderr : string }.

(** An openpyxl worksheet and workbook.  A cell is addressed by (row,
    column); a missing key is a cell whose value is None. *)
Record worksheet (F : Type) : Type :=
  Worksheet { title : string; cells : gmap (Z * Z) (value F) }.
Arguments Worksheet {F} _ _.
Arguments title {F} _.
Arguments cells {F} _.

Record workbook (F : Type) : Type :=
  Workbook { worksheets : list (worksheet F); active_index : nat }.
Arguments Workbook {F} _ _.
Arguments worksheets {F} _.
Arguments active_index {F} _.

(** A python-docx table: its rows of cell texts and [len(table.columns)]. *)
Record table : Type :=
  Table { tbl_rows : list (list string); tbl_columns : nat }.

(** A python-docx document: paragraphs (text and style) and tables. *)
Record document : Type :=
  Document { doc_paragraphs : list (string * string); doc_tables : list table }.

(** A PyPDF2 reader: the pages and the metadata dictionary, if any. *)
Record pdf_reader (Page : Type) : Type :=
  PdfReader { pdf_pages : list Page;
              pdf_metadata : option (list (string * string)) }.
Arguments PdfReader {Page} _ _.
Arguments pdf_pages {Page} _.
Arguments pdf_metadata {Page} _.

Inductive write_mode : Type := ModeW | ModeA.

(* ===================================================================== *)
(** ** The wrapped libraries *)
(* ===================================================================== *)

(** Everything outside the repository that a tool calls.  A call that only
    reads the world takes it and gives an outcome; a call that may change
    it gives the new world too; a call on objects in memory takes no
    world.  Each may raise. *)
Record Libs : Type := {
  World : Type;
  pyfloat : Type;
  PdfPage : Type;
  Canvas : Type;
  DataFrame : Type;
  Presentation : Type;
  Layout : Type;
  SlideRef : Type;
  Response : Type;
  Soup : Type;

  (* the module constants set by the guarded imports *)
  OPENPYXL_AVAILABLE : bool;
  DOCX_AVAILABLE : bool;
  PPTX_AVAILABLE : bool;
  PYPDF2_AVAILABLE : bool;
  REPORTLAB_AVAILABLE : bool;
  PANDAS_AVAILABLE : bool;
  REQUESTS_AVAILABLE : bool;
  BS4_AVAILABLE : bool;

  (* float *)
  int_of_str : string -> option Z;              (* int(s), None: ValueError *)
  float_of_str : string -> option pyfloat;      (* float(s), None: ValueError *)
  str_of_float : pyfloat -> string;             (* str(f) *)
  json_of_float : pyfloat -> string;            (* the encoder's text *)
  float_of_json : string -> pyfloat;            (* the decoder's float *)

  (* os, open, json, subprocess *)
  os_makedirs : string -> bool -> World -> outcome unit * World;
  os_path_dirname : string -> string;
  os_path_abspath : World -> string -> string;
  os_path_exists : World -> string -> bool;
  os_path_join : string -> string -> string;
  open_write_text : string -> write_mode -> string -> World -> outcome unit * World;
  open_read_text : World -> string -> outcome string;
  open_wb : string -> World -> outcome unit * World;
  write_bytes : string -> list string -> World -> outcome unit * World;
  json_loads : string -> outcome json;
  subprocess_run :
    list string -> Z -> option string -> World -> outcome completed * World;

  (* openpyxl *)
  xl_load_workbook : string -> bool -> bool -> World -> outcome (workbook pyfloat);
  xl_save : workbook pyfloat -> string -> World -> outcome unit * World;
  xl_create_sheet : workbook pyfloat -> string -> outcome (workbook pyfloat);
  xl_set_title : workbook pyfloat -> nat -> string -> outcome (workbook pyfloat);
  xl_coordinate : string -> outcome (Z * Z);
  xl_check_value : value pyfloat -> outcome unit;
  xl_range : worksheet pyfloat -> string -> outcome (list (list (Z * Z)));
  xl_iter_rows : worksheet pyfloat -> list (list (Z * Z));
  xl_dimensions : worksheet pyfloat -> outcome string;
  xl_max_row : worksheet pyfloat -> option Z;
  xl_max_column : worksheet pyfloat -> option Z;
  xl_cell_name : Z * Z -> string;
  xl_import_utils : outcome unit;
  xl_coordinate_from_string : string -> outcome (string * Z);
  xl_column_index_from_string : string -> outcome Z;

  (* python-docx *)
  docx_new : outcome document;
  docx_open : World -> string -> outcome document;
  docx_save : document -> string -> World -> outcome unit * World;
  docx_add_heading : document -> string -> Z -> outcome document;
  docx_add_paragraph : document -> string -> option string -> outcome document;
  docx_add_table : document -> Z -> Z -> outcome document;
  docx_add_page_break : document -> outcome document;

  (* python-pptx *)
  pptx_new : outcome Presentation;
  pptx_open : World -> string -> outcome Presentation;
  pptx_save : Presentation -> string -> World -> outcome unit * World;
  pptx_slide_layout : Presentation -> Z -> outcome Layout;
  pptx_add_slide : Presentation -> Layout -> outcome (Presentation * SlideRef);
  pptx_set_title_text : Presentation -> SlideRef -> string -> outcome Presentation;
  pptx_placeholder_count : Presentation -> SlideRef -> Z;
  pptx_set_placeholder_text :
    Presentation -> SlideRef -> Z -> string -> outcome Presentation;
  pptx_clear_text_frame : Presentation -> SlideRef -> Z -> outcome Presentation;
  pptx_add_bullet : Presentation -> SlideRef -> Z -> string -> outcome Presentation;
  pptx_slide_count : Presentation -> Z;
  pptx_get_slide : Presentation -> Z -> outcome SlideRef;
  pptx_add_textbox :
    Presentation -> SlideRef -> pyfloat -> pyfloat -> pyfloat -> pyfloat ->
    string -> outcome Presentation;
  pptx_shape_texts : Presentation -> SlideRef -> outcome (list string);

  (* PyPDF2 and reportlab *)
  pdf_open : World -> string -> outcome (pdf_reader PdfPage);
  pdf_extract_text : PdfPage -> outcome string;
  pdf_write : list PdfPage -> string -> World -> outcome unit * World;
  pdf_merger_append : list PdfPage -> string -> World -> outcome (list PdfPage);
  pdf_merger_write : list PdfPage -> string -> World -> outcome unit * World;
  pdf_rotate : PdfPage -> Z -> outcome PdfPage;
  rl_letter : Z * Z;
  rl_canvas : string -> outcome Canvas;
  rl_show_page : Canvas -> outcome Canvas;
  rl_draw_string : Canvas -> Z -> Z -> string -> outcome Canvas;
  rl_save : Canvas -> World -> outcome unit * World;

  (* pandas *)
  pd_read_csv : World -> string -> outcome DataFrame;
  df_columns : DataFrame -> list string;
  df_len : DataFrame -> Z;
  df_head : DataFrame -> Z -> DataFrame;
  df_to_string : DataFrame -> outcome string;
  df_dtypes_to_string : DataFrame -> outcome string;
  df_filter_str_eq : DataFrame -> string -> string -> outcome DataFrame;
  df_to_csv : DataFrame -> string -> World -> outcome unit * World;
  df_sort_values : DataFrame -> string -> bool -> outcome DataFrame;
  df_describe_to_string : DataFrame -> string -> outcome string;
  pd_concat : list DataFrame -> outcome DataFrame;
  df_select : DataFrame -> list string -> outcome DataFrame;
  df_to_json : DataFrame -> string -> World -> outcome unit * World;

  (* requests and bs4 *)
  requests_get :
    string -> option (list (string * string)) -> Z -> bool -> World ->
    outcome Response * World;
  requests_post :
    string -> list (string * string) -> Z -> World -> outcome Response * World;
  resp_raise_for_status : Response -> outcome unit;
  resp_text : Response -> outcome string;
  resp_iter_content : Response -> Z -> World -> outcome (list string) * World;
  bs4_parse : string -> outcome Soup;
  soup_decompose : Soup -> list string -> outcome Soup;
  soup_get_text : Soup -> outcome string;
  soup_links : Soup -> outcome (list (string * string));
  soup_images : Soup -> outcome (list (option string * string));
  soup_find_all_text : Soup -> string -> outcome (list string)
}.

(** The type of a computation inside a tool function. *)
Definition tool (L : Libs) (A : Type) : Type := Py.t (World L) A.

(** The shape of every tool function: it returns early, before its [try],
    or it is [try: body  except Exception as e: return on_error(e)]. *)
Inductive wrapper (L : Libs) : Type :=
| Early (result : string)
| Try (body : tool L string) (on_error : exn -> string).
Arguments Early {L} result.
Arguments Try {L} body on_error.

(** What calling the function does. *)
Definition run {L : Libs} (f : wrapper L) : tool L string :=
  match f with
  | Early result => Py.ret result
  | Try body on_error =>
      Py.try_except body Py.any_exception (fun e => Py.ret (on_error e))
  end.

Notation "'try_' m 'except_' e '=>' h" := (Try m (fun e => h))
  (at level 10, e name, m at level 100, h at level 200) : py_scope.

Open Scope py_scope.

(** [x or default] on a string: the empty string is falsy. *)
Definition str_or (x default : string) : string :=
  if String.eqb x EmptyString then default else x.

(** Truth of an optional string parameter: None and the empty string are
    falsy. *)
Definition truthy (x : option string) : bool :=
  match x with
  | Some s => negb (String.eqb s EmptyString)
  | None => false
  end.

(* ===================================================================== *)
(** ** Tools/file_io_tools.py *)
(* ===================================================================== *)

Module FileIOTools.
Section WithLibs.
Context (L : Libs).

(** The error dictionary every handler of this class returns. *)
Definition error_json (e : exn) (path : string) : string :=
  Json.dumps (JObj [("error", JStr (exn_text e)); ("path", JStr path)]).

Definition ok_json (abspath : string) : string :=
  Json.dumps (JObj [("status", JStr "ok"); ("path", JStr abspath)]).

Definition ensure_dir (path : string) : wrapper L :=
  try_
    (let* _ := Py.act (os_makedirs L path true) in
     let* p := Py.ask (fun w => Return (os_path_abspath L w path)) in
     Py.ret (ok_json p))
  except_ e => error_json e path.

Definition write_to (mode : write_mode) (path content : string)
  : wrapper L :=
  try_
    (let* _ := Py.act (os_makedirs L (str_or (os_path_dirname L path) ".") true) in
     let* _ := Py.act (open_write_text L path mode content) in
     let* p := Py.ask (fun w => Return (os_path_abspath L w path)) in
     Py.ret (ok_json p))
  except_ e => error_json e path.

Definition write_file (path content : string) : wrapper L :=
  write_to ModeW path content.

Definition append_file (path content : string) : wrapper L :=
  write_to ModeA path content.

(** [f.read(n)] on a text stream at its start: [n] is converted to
    [Py_ssize_t] first, and OverflowError is raised when it does not fit;
    then the whole text for a negative [n], at most [n] characters
    otherwise. *)
Definition text_read (text : string) (n : Z) : outcome string :=
  if negb (fits_ssize n) then Raise (Exn OverflowError cannot_fit)
  else if n <? 0 then Return text
  else Return (PyStr.take (Z.to_nat n) text).

Definition read_file (path : string) (max_bytes : Z) : wrapper L :=
  try_
    (let* text := Py.ask (fun w => open_read_text L w path) in
     let* content := Py.call (text_read text max_bytes) in
     let* p := Py.ask (fun w => Return (os_path_abspath L w path)) in
     Py.ret (Json.dumps (JObj [("status", JStr "ok");
                               ("content", JStr content);
                               ("path", JStr p)])))
  except_ e => error_json e path.

End WithLibs.
End FileIOTools.

(* ===================================================================== *)
(** ** Tools/shell_tool.py *)
(* ===================================================================== *)

Module ShellTool.
Section WithLibs.
Context (L : Libs).

Definition deny_patterns : list string :=
  ["remove-item -recurse"; "rm -rf"; "rd /s"].

(** [any(p in cmd_lc for p in deny_patterns)] *)
Definition denied (command : string) : bool :=
  let cmd_lc := PyStr.lower (PyStr.strip (str_or command EmptyString)) in
  existsb (fun p => PyStr.contains p cmd_lc) deny_patterns.

Definition blocked_json (command : string) : string :=
  Json.dumps (JObj [("error", JStr "Command blocked by safety policy");
                    ("command", JStr command);
                    ("reason", JStr "matches disallowed destructive pattern")]).

Definition completed_json (proc : completed) (cwd : option string) : string :=
  Json.dumps (JObj [("exit_code", JInt (returncode proc));
                    ("stdout", JStr (proc_stdout proc));
                    ("stderr", JStr (proc_stderr proc));
                    ("cwd", JStr (if truthy cwd then default EmptyString cwd
                                  else EmptyString))]).

Definition run_shell (command : string) (timeout_sec : Z)
           (cwd : option string) : wrapper L :=
  if denied command then Early (blocked_json command)
  else
    try_
      (let* proc :=
         Py.act (subprocess_run L ["bash"; "-c"; command] timeout_sec
                   (if truthy cwd then cwd else None)) in
       Py.ret (completed_json proc cwd))
    except_ e => Json.dumps (JObj [("error", JStr (exn_text e))]).

End WithLibs.
End ShellTool.

(* ===================================================================== *)
(** ** Workbooks in memory *)
(* ===================================================================== *)

(** What the tools do to a workbook object between loading and saving it.
    A worksheet variable of the source is a reference into the workbook:
    here the position of the sheet, [None] when [wb.active] is None. *)
Module Xl.
Section Ops.
Context {F : Type}.

(** [openpyxl.Workbook()] *)
Definition new_workbook : workbook F := Workbook [Worksheet "Sheet" ∅] 0.

Definition sheetnames (wb : workbook F) : list string :=
  map title (worksheets wb).

Definition has_sheet (wb : workbook F) (name : string) : bool :=
  bool_decide (name ∈ sheetnames wb).

Fixpoint find_title (name : string) (l : list (worksheet F)) : option nat :=
  match l with
  | [] => None
  | ws :: rest =>
      if String.eqb (title ws) name then Some O
      else S <$> find_title name rest
  end.

(** [wb[name]] *)
Definition getitem (wb : workbook F) (name : string) : outcome (option nat) :=
  match find_title name (worksheets wb) with
  | Some i => Return (Some i)
  | None => Raise (Exn KeyError ("'Worksheet " ++ name ++ " does not exist.'"))
  end.

(** [wb.active] *)
Definition active (wb : workbook F) : option nat :=
  match worksheets wb !! active_index wb with
  | Some _ => Some (active_index wb)
  | None => None
  end.

(** Using a worksheet variable that holds None. *)
Definition deref (ws : option nat) (cls : exn_class) (msg : string)
  : outcome nat :=
  match ws with
  | Some i => Return i
  | None => Raise (Exn cls msg)
  end.

Definition sheet_at (wb : workbook F) (i : nat) : worksheet F :=
  default (Worksheet EmptyString ∅) (worksheets wb !! i).

(** [ws.title] *)
Definition title_of (wb : workbook F) (ws : option nat) : outcome string :=
  match ws with
  | Some i => Return (title (sheet_at wb i))
  | None => Raise (Exn AttributeError "'NoneType' object has no attribute 'title'")
  end.

(** [cell.value] *)
Definition get_value (wb : workbook F) (i : nat) (rc : Z * Z) : value F :=
  default VNone (cells (sheet_at wb i) !! rc).

(** [cell.value = v] *)
Definition set_value (wb : workbook F) (i : nat) (rc : Z * Z) (v : value F)
  : workbook F :=
  Workbook
    (alter (fun ws => Worksheet (title ws) (<[rc := v]> (cells ws))) i
           (worksheets wb))
    (active_index wb).

(** [del wb[name]] for a name that is there: the first sheet of that
    title goes. *)
Definition remove (wb : workbook F) (name : string) : workbook F :=
  match find_title name (worksheets wb) with
  | Some i => Workbook (delete i (worksheets wb)) (active_index wb)
  | None => wb
  end.

End Ops.
End Xl.

(* ===================================================================== *)
(** ** agenttools/excel_tools.py *)
(* ===================================================================== *)

Module ExcelTools.
Section WithLibs.
Context (L : Libs).
Abbreviation F := (pyfloat L).

Definition error_json (e : exn) (path : string) : string :=
  Json.dumps (JObj [("error", JStr (exn_text e)); ("path", JStr path)]).

(** [_check_openpyxl]: the error JSON when openpyxl is missing. *)
Definition _check_openpyxl : option string :=
  if negb (OPENPYXL_AVAILABLE L)
  then Some (Json.dumps
               (JObj [("error",
                       JStr "openpyxl is not installed. Run: pip install openpyxl")]))
  else None.

(** [err = self._check_openpyxl(); if err: return err] *)
Definition guarded (body : wrapper L) : wrapper L :=
  match _check_openpyxl with
  | Some err => if String.eqb err EmptyString then body else Early err
  | None => body
  end.

(** [parent_dir = os.path.dirname(path); if parent_dir: os.makedirs(...)] *)
Definition make_parent (path : string) : tool L unit :=
  let parent_dir := os_path_dirname L path in
  if String.eqb parent_dir EmptyString then Py.ret tt
  else Py.act (os_makedirs L parent_dir true).

Definition abspath (path : string) : tool L string :=
  Py.ask (fun w => Return (os_path_abspath L w path)).

(** [str(v)] *)
Definition str_of_value (v : value F) : string :=
  match v with
  | VNone => "None"
  | VBool true => "True"
  | VBool false => "False"
  | VInt n => PyStr.of_Z n
  | VFloat f => str_of_float L f
  | VStr s => s
  | VDate iso => iso
  end.

(** A cell value as the JSON encoder takes it; a date is not
    serializable. *)
Definition to_json (v : value F) : outcome json :=
  match v with
  | VNone => Return JNull
  | VBool b => Return (JBool b)
  | VInt n => Return (JInt n)
  | VFloat f => Return (JNum (json_of_float L f))
  | VStr s => Return (JStr s)
  | VDate _ =>
      Raise (Exn TypeError "Object of type datetime is not JSON serializable")
  end.

Fixpoint to_json_list (vs : list (value F)) : outcome (list json) :=
  match vs with
  | [] => Return []
  | v :: rest =>
      match to_json v, to_json_list rest with
      | Return j, Return js => Return (j :: js)
      | Raise e, _ => Raise e
      | _, Raise e => Raise e
      end
  end.

Fixpoint to_json_rows (rows : list (list (value F))) : outcome (list json) :=
  match rows with
  | [] => Return []
  | r :: rest =>
      match to_json_list r, to_json_rows rest with
      | Return js, Return jrows => Return (JArr js :: jrows)
      | Raise e, _ => Raise e
      | _, Raise e => Raise e
      end
  end.

Definition names_json (names : list string) : json := JArr (map JStr names).

Definition not_found_json (name : string) (wb : workbook F) : string :=
  Json.dumps (JObj [("error", JStr ("Sheet '" ++ name ++ "' not found"));
                    ("available_sheets", names_json (Xl.sheetnames wb))]).

(** The sheet named by an optional parameter, for the operations that
    report a missing sheet: [inl] is the early return. *)
Definition existing_sheet (wb : workbook F) (sheet_name : option string)
  : tool L (string + option nat) :=
  if truthy sheet_name then
    let name := default EmptyString sheet_name in
    if negb (Xl.has_sheet wb name) then Py.ret (inl (not_found_json name wb))
    else let* ws := Py.call (Xl.getitem wb name) in Py.ret (inr ws)
  else Py.ret (inr (Xl.active wb)).

(** The sheet named by an optional parameter, for the operations that
    create a missing sheet. *)
Definition sheet_for_writing (wb : workbook F) (sheet_name : option string)
  : tool L (workbook F * option nat) :=
  if truthy sheet_name then
    let name := default EmptyString sheet_name in
    let* wb1 := (if negb (Xl.has_sheet wb name)
                 then Py.call (xl_create_sheet L wb name)
                 else Py.ret wb) in
    let* ws := Py.call (Xl.getitem wb1 name) in
    Py.ret (wb1, ws)
  else Py.ret (wb, Xl.active wb).

(** [openpyxl.load_workbook(path) if os.path.exists(path) else Workbook()] *)
Definition load_or_new (path : string) : tool L (workbook F) :=
  fun s =>
    if os_path_exists L (world s) path
    then Py.ask (xl_load_workbook L path false false) s
    else Py.ret Xl.new_workbook s.

Definition create_workbook (path : string) (sheet_names : option string)
  : wrapper L :=
  guarded
    (try_
       (let* _ := make_parent path in
        let wb := Xl.new_workbook in
        let* wb1 :=
          (if truthy sheet_names then
             let names := map PyStr.strip
                            (PyStr.split_char "," (default EmptyString sheet_names)) in
             let* i := Py.call (Xl.deref (Xl.active wb) AttributeError
                                  "'NoneType' object has no attribute 'title'") in
             let* wb0 := Py.call (xl_set_title L wb i (hd EmptyString names)) in
             Py.for_each (tl names) wb0
               (fun acc name => Py.call (xl_create_sheet L acc name))
           else Py.ret wb) in
        let* _ := Py.act (xl_save L wb1 path) in
        let* p := abspath path in
        Py.ret (Json.dumps (JObj [("status", JStr "ok"); ("path", JStr p);
                                  ("sheets", names_json (Xl.sheetnames wb1))])))
     except_ e => error_json e path).

Definition list_sheets (path : string) : wrapper L :=
  guarded
    (try_
       (let* wb := Py.ask (xl_load_workbook L path true false) in
        let sheets := Xl.sheetnames wb in
        let* p := abspath path in
        Py.ret (Json.dumps (JObj [("status", JStr "ok"); ("path", JStr p);
                                  ("sheets", names_json sheets)])))
     except_ e => error_json e path).

Definition read_sheet (path : string) (sheet_name cell_range : option string)
           (max_rows : Z) : wrapper L :=
  guarded
    (try_
       (let* wb := Py.ask (xl_load_workbook L path true true) in
        let* sel := existing_sheet wb sheet_name in
        match sel with
        | inl early => Py.ret early
        | inr ws =>
            let* data :=
              (if truthy cell_range then
                 let* i := Py.call (Xl.deref ws TypeError
                                      "'NoneType' object is not subscriptable") in
                 let* rows := Py.call (xl_range L (Xl.sheet_at wb i)
                                         (default EmptyString cell_range)) in
                 Py.ret (map (map (Xl.get_value wb i)) rows)
               else
                 let* i := Py.call (Xl.deref ws AttributeError
                                      "'NoneType' object has no attribute 'iter_rows'") in
                 Py.ret (map (map (Xl.get_value wb i))
                           (take (Z.to_nat max_rows)
                                 (xl_iter_rows L (Xl.sheet_at wb i))))) in
            let* p := abspath path in
            let* t := Py.call (Xl.title_of wb ws) in
            let* jrows := Py.call (to_json_rows data) in
            Py.ret (Json.dumps (JObj [("status", JStr "ok"); ("path", JStr p);
                                      ("sheet", JStr t);
                                      ("row_count", JInt (Z.of_nat (length data)));
                                      ("data", JArr jrows)]))
        end)
     except_ e => error_json e path).

(** [int(value)] and [float(value)] *)
Definition py_int (v : string) : outcome Z :=
  match int_of_str L v with
  | Some n => Return n
  | None =>
      Raise (Exn ValueError
               ("invalid literal for int() with base 10: '" ++ v ++ "'"))
  end.

Definition py_float (v : string) : outcome F :=
  match float_of_str L v with
  | Some f => Return f
  | None =>
      Raise (Exn ValueError ("could not convert string to float: '" ++ v ++ "'"))
  end.

(** The inner [try] of [write_cell]: a string with a dot goes through
    [float], any other through [int]; ValueError and TypeError keep the
    string. *)
Definition to_number (v : string) : tool L (value F) :=
  Py.try_except
    (if PyStr.contains "." v
     then let* f := Py.call (py_float v) in Py.ret (VFloat f)
     else let* n := Py.call (py_int v) in Py.ret (VInt n))
    (fun e => isinstance e ValueError || isinstance e TypeError)
    (fun _ => Py.ret (VStr v)).

(** [ws[cell] = v] *)
Definition setitem (wb : workbook F) (ws : option nat) (cell : string)
           (v : value F) : outcome (workbook F) :=
  match Xl.deref ws TypeError "'NoneType' object does not support item assignment" with
  | Raise e => Raise e
  | Return i =>
      match xl_coordinate L cell with
      | Raise e => Raise e
      | Return rc =>
          match xl_check_value L v with
          | Raise e => Raise e
          | Return _ => Return (Xl.set_value wb i rc v)
          end
      end
  end.

(** [ws[cell].value] *)
Definition getitem_value (wb : workbook F) (ws : option nat) (cell : string)
  : outcome (value F) :=
  match Xl.deref ws TypeError "'NoneType' object is not subscriptable" with
  | Raise e => Raise e
  | Return i =>
      match xl_coordinate L cell with
      | Raise e => Raise e
      | Return rc => Return (Xl.get_value wb i rc)
      end
  end.

(** The body of the [try] of [write_cell]. *)
Definition write_cell_body (path cell value : string)
           (sheet_name : option string) : tool L string :=
  let* _ := make_parent path in
  let* wb := load_or_new path in
  let* sel := sheet_for_writing wb sheet_name in
  let '(wb1, ws) := sel in
  let* v := to_number value in
  let* wb2 := Py.call (setitem wb1 ws cell v) in
  let* _ := Py.act (xl_save L wb2 path) in
  let* p := abspath path in
  let* t := Py.call (Xl.title_of wb2 ws) in
  Py.ret (Json.dumps (JObj [("status", JStr "ok"); ("path", JStr p);
                            ("sheet", JStr t); ("cell", JStr cell);
                            ("value", JStr (str_of_value v))])).

Definition write_cell (path cell value : string) (sheet_name : option string)
  : wrapper L :=
  guarded
    (try_ write_cell_body path cell value sheet_name
     except_ e => error_json e path).

(** The body of the [try] of [read_cell]. *)
Definition read_cell_body (path cell : string) (sheet_name : option string)
  : tool L string :=
  let* wb := Py.ask (xl_load_workbook L path true true) in
  let* sel := existing_sheet wb sheet_name in
  match sel with
  | inl early => Py.ret early
  | inr ws =>
      let* v := Py.call (getitem_value wb ws cell) in
      let* p := abspath path in
      let* t := Py.call (Xl.title_of wb ws) in
      let* j := Py.call (to_json v) in
      Py.ret (Json.dumps (JObj [("status", JStr "ok"); ("path", JStr p);
                                ("sheet", JStr t); ("cell", JStr cell);
                                ("value", j)]))
  end.

Definition read_cell (path cell : string) (sheet_name : option string)
  : wrapper L :=
  guarded
    (try_ read_cell_body path cell sheet_name
     except_ e => error_json e path).

(** A decoded JSON item as a cell value: [None] is Python's None, which
    [ws.cell] does not write; a list or a dictionary is refused. *)
Definition value_of_json (j : json) : outcome (option (value F)) :=
  match j with
  | JNull => Return None
  | JBool b => Return (Some (VBool b))
  | JInt n => Return (Some (VInt n))
  | JNum r => Return (Some (VFloat (float_of_json L r)))
  | JStr s => Return (Some (VStr s))
  | JArr _ | JObj _ => Raise (Exn ValueError "Cannot convert value to Excel")
  end.

(** [ws.cell(row=r, column=c, value=j)] *)
Definition cell_write (wb : workbook F) (ws : option nat) (r c : Z) (j : json)
  : outcome (workbook F) :=
  match Xl.deref ws AttributeError "'NoneType' object has no attribute 'cell'" with
  | Raise e => Raise e
  | Return i =>
      if (r <? 1) || (c <? 1)
      then Raise (Exn ValueError "Row or column values must be at least 1")
      else match value_of_json j with
           | Raise e => Raise e
           | Return None => Return wb
           | Return (Some v) =>
               match xl_check_value L v with
               | Raise e => Raise e
               | Return _ => Return (Xl.set_value wb i (r, c) v)
               end
           end
  end.

(** [enumerate(l)] *)
Definition enumerate {A} (l : list A) : list (Z * A) :=
  imap (fun i x => (Z.of_nat i, x)) l.

Definition write_rows (path data_json start_cell : string)
           (sheet_name : option string) : wrapper L :=
  guarded
    (Try
       (let* data := Py.call (json_loads L data_json) in
        match data with
        | JArr rows =>
            let* _ := make_parent path in
            let* wb := load_or_new path in
            let* sel := sheet_for_writing wb sheet_name in
            let '(wb1, ws) := sel in
            let* _ := Py.call (xl_import_utils L) in
            let* cr := Py.call (xl_coordinate_from_string L start_cell) in
            let '(col_str, start_row) := cr in
            let* start_col := Py.call (xl_column_index_from_string L col_str) in
            let* res :=
              Py.for_each (enumerate rows) (wb1, 0)
                (fun acc row =>
                   let '(wbr, rows_written) := acc in
                   let '(row_idx, row_data) := row in
                   match row_data with
                   | JArr items =>
                       let* wbr' :=
                         Py.for_each (enumerate items) wbr
                           (fun w item =>
                              Py.call (cell_write w ws (start_row + row_idx)
                                         (start_col + fst item) (snd item))) in
                       Py.ret (wbr', rows_written + 1)
                   | _ => Py.ret (wbr, rows_written)
                   end) in
            let '(wb2, rows_written) := res in
            let* _ := Py.act (xl_save L wb2 path) in
            let* p := abspath path in
            let* t := Py.call (Xl.title_of wb2 ws) in
            Py.ret (Json.dumps (JObj [("status", JStr "ok"); ("path", JStr p);
                                      ("sheet", JStr t);
                                      ("rows_written", JInt rows_written);
                                      ("start_cell", JStr start_cell)]))
        | _ =>
            Py.ret (Json.dumps
                      (JObj [("error", JStr "data_json must be a JSON array of arrays")]))
        end)
       (fun e =>
          if isinstance e JSONDecodeError
          then Json.dumps (JObj [("error", JStr ("Invalid JSON: " ++ exn_text e))])
          else error_json e path)).

Definition add_sheet (path sheet_name : string) : wrapper L :=
  guarded
    (try_
       (let* wb := Py.ask (xl_load_workbook L path false false) in
        if Xl.has_sheet wb sheet_name then
          Py.ret (Json.dumps
                    (JObj [("error", JStr ("Sheet '" ++ sheet_name ++ "' already exists"));
                           ("existing_sheets", names_json (Xl.sheetnames wb))]))
        else
          let* wb1 := Py.call (xl_create_sheet L wb sheet_name) in
          let* _ := Py.act (xl_save L wb1 path) in
          let sheets := Xl.sheetnames wb1 in
          let* p := abspath path in
          Py.ret (Json.dumps (JObj [("status", JStr "ok"); ("path", JStr p);
                                    ("new_sheet", JStr sheet_name);
                                    ("all_sheets", names_json sheets)])))
     except_ e => error_json e path).

Definition delete_sheet (path sheet_name : string) : wrapper L :=
  guarded
    (try_
       (let* wb := Py.ask (xl_load_workbook L path false false) in
        if negb (Xl.has_sheet wb sheet_name) then
          Py.ret (not_found_json sheet_name wb)
        else
          let wb1 := Xl.remove wb sheet_name in
          let* _ := Py.act (xl_save L wb1 path) in
          let sheets := Xl.sheetnames wb1 in
          let* p := abspath path in
          Py.ret (Json.dumps (JObj [("status", JStr "ok"); ("path", JStr p);
                                    ("deleted_sheet", JStr sheet_name);
                                    ("remaining_sheets", names_json sheets)])))
     except_ e => error_json e path).

Definition opt_int_json (n : option Z) : json :=
  match n with Some k => JInt k | None => JNull end.

Definition get_workbook_info (path : string) : wrapper L :=
  guarded
    (try_
       (let* wb := Py.ask (xl_load_workbook L path true false) in
        let* p := abspath path in
        let* sheets :=
          Py.map_each
            (fun ws =>
               let* d := Py.call (xl_dimensions L ws) in
               Py.ret (JObj [("name", JStr (title ws)); ("dimensions", JStr d);
                             ("max_row", opt_int_json (xl_max_row L ws));
                             ("max_column", opt_int_json (xl_max_column L ws))]))
            (worksheets wb) in
        Py.ret (Json.dumps (JObj [("status", JStr "ok"); ("path", JStr p);
                                  ("sheets", JArr sheets)])))
     except_ e => error_json e path).

Definition clear_range (path cell_range : string) (sheet_name : option string)
  : wrapper L :=
  guarded
    (try_
       (let* wb := Py.ask (xl_load_workbook L path false false) in
        let* sel := existing_sheet wb sheet_name in
        match sel with
        | inl early => Py.ret early
        | inr ws =>
            let* i := Py.call (Xl.deref ws TypeError
                                 "'NoneType' object is not subscriptable") in
            let* rows := Py.call (xl_range L (Xl.sheet_at wb i) cell_range) in
            let targets := concat rows in
            let wb1 := fold_left (fun w rc => Xl.set_value w i rc VNone) targets wb in
            let cells_cleared := Z.of_nat (length targets) in
            let* _ := Py.act (xl_save L wb1 path) in
            let* p := abspath path in
            let* t := Py.call (Xl.title_of wb1 ws) in
            Py.ret (Json.dumps (JObj [("status", JStr "ok"); ("path", JStr p);
                                      ("sheet", JStr t); ("range", JStr cell_range);
                                      ("cells_cleared", JInt cells_cleared)]))
        end)
     except_ e => error_json e path).

(** The two loops of [search_value]; a loop stops as soon as the list of
    matches has [max_results] entries. *)
Section Search.
Variables (wb : workbook F) (i : nat) (search_lower : string) (max_results : Z).

Definition hit (rc : Z * Z) : bool :=
  match Xl.get_value wb i rc with
  | VNone => false
  | v => PyStr.contains search_lower (PyStr.lower (str_of_value v))
  end.

Definition full (matches : list (Z * Z)) : bool :=
  max_results <=? Z.of_nat (length matches).

Fixpoint scan_row (row : list (Z * Z)) (matches : list (Z * Z))
  : list (Z * Z) :=
  match row with
  | [] => matches
  | rc :: rest =>
      if hit rc then
        let matches' := (matches ++ [rc])%list in
        if full matches' then matches' else scan_row rest matches'
      else scan_row rest matches
  end.

Fixpoint scan_rows (rows : list (list (Z * Z))) (matches : list (Z * Z))
  : list (Z * Z) :=
  match rows with
  | [] => matches
  | row :: rest =>
      let matches' := scan_row row matches in
      if full matches' then matches' else scan_rows rest matches'
  end.
End Search.

Definition search_value (path search_term : string) (sheet_name : option string)
           (max_results : Z) : wrapper L :=
  guarded
    (try_
       (let* wb := Py.ask (xl_load_workbook L path true true) in
        let* sel := existing_sheet wb sheet_name in
        match sel with
        | inl early => Py.ret early
        | inr ws =>
            let search_lower := PyStr.lower search_term in
            let* i := Py.call (Xl.deref ws AttributeError
                                 "'NoneType' object has no attribute 'iter_rows'") in
            let matches :=
              scan_rows wb i search_lower max_results
                        (xl_iter_rows L (Xl.sheet_at wb i)) [] in
            let* p := abspath path in
            let* t := Py.call (Xl.title_of wb ws) in
            let* js :=
              Py.map_each
                (fun rc =>
                   let* j := Py.call (to_json (Xl.get_value wb i rc)) in
                   Py.ret (JObj [("cell", JStr (xl_cell_name L rc)); ("value", j)]))
                matches in
            Py.ret (Json.dumps (JObj [("status", JStr "ok"); ("path", JStr p);
                                      ("sheet", JStr t);
                                      ("search_term", JStr search_term);
                                      ("match_count", JInt (Z.of_nat (length matches)));
                                      ("matches", JArr js)]))
        end)
     except_ e => error_json e path).

End WithLibs.
End ExcelTools.

(** [l[i]] together with the position it denotes. *)
Definition py_locate {A} (kind : string) (l : list A) (i : Z)
  : outcome (nat * A) :=
  match py_index kind l i, py_position l i with
  | Return x, Some k => Return (k, x)
  | Raise e, _ => Raise e
  | Return _, None => Raise (index_error kind)
  end.

(** The one-character string of a line feed. *)
Definition newline : string := String (ascii_of_N 10) EmptyString.

(** [[p.strip() for p in s.split(',')]] *)
Definition split_commas (s : string) : list string :=
  map PyStr.strip (PyStr.split_char "," s).

(* ===================================================================== *)
(** ** agenttools/word_tools.py *)
(* ===================================================================== *)

Module WordTools.
Section WithLibs.
Context (L : Libs).

(** [if not DOCX_AVAILABLE: return ...] *)
Definition guarded (body : wrapper L) : wrapper L :=
  if negb (DOCX_AVAILABLE L) then Early "Error: python-docx is not installed"
  else body.

Definition create_word_document (file_path : string) : wrapper L :=
  guarded
    (try_
       (let* doc := Py.call (docx_new L) in
        let* _ := Py.act (docx_save L doc file_path) in
        Py.ret ("Word document created successfully at: " ++ file_path))
     except_ err => "Error creating Word document: " ++ exn_text err).

Definition add_heading (file_path text : string) (level : Z) : wrapper L :=
  guarded
    (try_
       (let* doc := Py.ask (fun w => docx_open L w file_path) in
        let* doc1 := Py.call (docx_add_heading L doc text level) in
        let* _ := Py.act (docx_save L doc1 file_path) in
        Py.ret ("Heading added successfully to: " ++ file_path))
     except_ err => "Error adding heading: " ++ exn_text err).

Definition add_paragraph (file_path text : string) : wrapper L :=
  guarded
    (try_
       (let* doc := Py.ask (fun w => docx_open L w file_path) in
        let* doc1 := Py.call (docx_add_paragraph L doc text None) in
        let* _ := Py.act (docx_save L doc1 file_path) in
        Py.ret ("Paragraph added successfully to: " ++ file_path))
     except_ err => "Error adding paragraph: " ++ exn_text err).

Definition add_table (file_path : string) (rows cols : Z) : wrapper L :=
  guarded
    (try_
       (let* doc := Py.ask (fun w => docx_open L w file_path) in
        let* doc1 := Py.call (docx_add_table L doc rows cols) in
        let* _ := Py.act (docx_save L doc1 file_path) in
        Py.ret ("Table (" ++ PyStr.of_Z rows ++ "x" ++ PyStr.of_Z cols
                ++ ") added successfully to: " ++ file_path))
     except_ err => "Error adding table: " ++ exn_text err).

(** [table.rows[r].cells[c].text = text] in the table at position [t],
    all three positions already resolved. *)
Definition set_cell_text (doc : document) (t r c : nat) (text : string)
  : document :=
  Document (doc_paragraphs doc)
    (alter (fun tb => Table (alter (fun cells => <[c := text]> cells) r
                                   (tbl_rows tb))
                            (tbl_columns tb))
           t (doc_tables doc)).

Definition pos_str (row col : Z) : string :=
  "(" ++ PyStr.of_Z row ++ ", " ++ PyStr.of_Z col ++ ")".

(** The body of the [try] of [set_table_cell]. *)
Definition set_table_cell_body (file_path : string) (table_index row col : Z)
           (text : string) : tool L string :=
  let* doc := Py.ask (fun w => docx_open L w file_path) in
  if Z.of_nat (length (doc_tables doc)) <=? table_index then
    Py.ret ("Error: Table index " ++ PyStr.of_Z table_index ++ " out of range")
  else
    let* tb := Py.call (py_locate "list" (doc_tables doc) table_index) in
    let '(t, table) := tb in
    if (Z.of_nat (length (tbl_rows table)) <=? row)
       || (Z.of_nat (tbl_columns table) <=? col) then
      Py.ret ("Error: Cell position " ++ pos_str row col ++ " out of range")
    else
      let* rw := Py.call (py_locate "list" (tbl_rows table) row) in
      let '(r, cells) := rw in
      let* cl := Py.call (py_locate "tuple" cells col) in
      let '(c, _) := cl in
      let doc1 := set_cell_text doc t r c text in
      let* _ := Py.act (docx_save L doc1 file_path) in
      Py.ret ("Cell " ++ pos_str row col ++ " updated successfully in table "
              ++ PyStr.of_Z table_index).

Definition set_table_cell (file_path : string) (table_index row col : Z)
           (text : string) : wrapper L :=
  guarded
    (try_ set_table_cell_body file_path table_index row col text
     except_ err => "Error setting table cell: " ++ exn_text err).

Definition add_page_break (file_path : string) : wrapper L :=
  guarded
    (try_
       (let* doc := Py.ask (fun w => docx_open L w file_path) in
        let* doc1 := Py.call (docx_add_page_break L doc) in
        let* _ := Py.act (docx_save L doc1 file_path) in
        Py.ret ("Page break added successfully to: " ++ file_path))
     except_ err => "Error adding page break: " ++ exn_text err).

Definition read_word_document (file_path : string) : wrapper L :=
  guarded
    (try_
       (let* doc := Py.ask (fun w => docx_open L w file_path) in
        let full_text := map fst (doc_paragraphs doc) in
        Py.ret (PyStr.join newline full_text))
     except_ err => "Error reading Word document: " ++ exn_text err).

Definition add_bullet_list (file_path items : string) : wrapper L :=
  guarded
    (try_
       (let* doc := Py.ask (fun w => docx_open L w file_path) in
        let item_list := split_commas items in
        let* doc1 :=
          Py.for_each item_list doc
            (fun d item => Py.call (docx_add_paragraph L d item (Some "List Bullet"))) in
        let* _ := Py.act (docx_save L doc1 file_path) in
        Py.ret ("Bullet list with " ++ PyStr.of_Z (Z.of_nat (length item_list))
                ++ " items added successfully"))
     except_ err => "Error adding bullet list: " ++ exn_text err).

End WithLibs.
End WordTools.

(* ===================================================================== *)
(** ** agenttools/powerpoint_tools.py *)
(* ===================================================================== *)

Module PowerPointTools.
Section WithLibs.
Context (L : Libs).

Definition guarded (body : wrapper L) : wrapper L :=
  if negb (PPTX_AVAILABLE L) then Early "Error: python-pptx is not installed"
  else body.

Definition create_presentation (file_path : string) : wrapper L :=
  guarded
    (try_
       (let* prs := Py.call (pptx_new L) in
        let* _ := Py.act (pptx_save L prs file_path) in
        Py.ret ("PowerPoint presentation created successfully at: " ++ file_path))
     except_ err => "Error creating presentation: " ++ exn_text err).

Definition add_title_slide (file_path title subtitle : string) : wrapper L :=
  guarded
    (try_
       (let* prs := Py.ask (fun w => pptx_open L w file_path) in
        let* layout := Py.call (pptx_slide_layout L prs 0) in
        let* added := Py.call (pptx_add_slide L prs layout) in
        let '(prs1, slide) := added in
        let* prs2 := Py.call (pptx_set_title_text L prs1 slide title) in
        let* prs3 :=
          (if negb (String.eqb subtitle EmptyString)
              && (1 <? pptx_placeholder_count L prs2 slide)
           then Py.call (pptx_set_placeholder_text L prs2 slide 1 subtitle)
           else Py.ret prs2) in
        let* _ := Py.act (pptx_save L prs3 file_path) in
        Py.ret ("Title slide added successfully to: " ++ file_path))
     except_ err => "Error adding title slide: " ++ exn_text err).

Definition add_content_slide (file_path title content : string) : wrapper L :=
  guarded
    (try_
       (let* prs := Py.ask (fun w => pptx_open L w file_path) in
        let* layout := Py.call (pptx_slide_layout L prs 1) in
        let* added := Py.call (pptx_add_slide L prs layout) in
        let '(prs1, slide) := added in
        let* prs2 := Py.call (pptx_set_title_text L prs1 slide title) in
        let* prs3 := Py.call (pptx_clear_text_frame L prs2 slide 1) in
        let bullets := split_commas content in
        let* prs4 :=
          Py.for_each bullets prs3
            (fun p bullet => Py.call (pptx_add_bullet L p slide 1 bullet)) in
        let* _ := Py.act (pptx_save L prs4 file_path) in
        Py.ret ("Content slide with " ++ PyStr.of_Z (Z.of_nat (length bullets))
                ++ " bullets added successfully"))
     except_ err => "Error adding content slide: " ++ exn_text err).

Definition add_blank_slide (file_path : string) : wrapper L :=
  guarded
    (try_
       (let* prs := Py.ask (fun w => pptx_open L w file_path) in
        let* layout := Py.call (pptx_slide_layout L prs 6) in
        let* added := Py.call (pptx_add_slide L prs layout) in
        let* _ := Py.act (pptx_save L (fst added) file_path) in
        Py.ret ("Blank slide added successfully to: " ++ file_path))
     except_ err => "Error adding blank slide: " ++ exn_text err).

Definition add_text_box (file_path : string) (slide_index : Z) (text : string)
           (left top width height : pyfloat L) : wrapper L :=
  guarded
    (try_
       (let* prs := Py.ask (fun w => pptx_open L w file_path) in
        if pptx_slide_count L prs <=? slide_index then
          Py.ret ("Error: Slide index " ++ PyStr.of_Z slide_index ++ " out of range")
        else
          let* slide := Py.call (pptx_get_slide L prs slide_index) in
          let* prs1 := Py.call (pptx_add_textbox L prs slide left top width height text) in
          let* _ := Py.act (pptx_save L prs1 file_path) in
          Py.ret ("Text box added successfully to slide " ++ PyStr.of_Z slide_index))
     except_ err => "Error adding text box: " ++ exn_text err).

Definition get_slide_count (file_path : string) : wrapper L :=
  guarded
    (try_
       (let* prs := Py.ask (fun w => pptx_open L w file_path) in
        Py.ret ("Presentation has " ++ PyStr.of_Z (pptx_slide_count L prs) ++ " slides"))
     except_ err => "Error reading presentation: " ++ exn_text err).

Definition read_slide_text (file_path : string) (slide_index : Z) : wrapper L :=
  guarded
    (try_
       (let* prs := Py.ask (fun w => pptx_open L w file_path) in
        if pptx_slide_count L prs <=? slide_index then
          Py.ret ("Error: Slide index " ++ PyStr.of_Z slide_index ++ " out of range")
        else
          let* slide := Py.call (pptx_get_slide L prs slide_index) in
          let* text_content := Py.call (pptx_shape_texts L prs slide) in
          Py.ret (match text_content with
                  | [] => "No text found on slide"
                  | _ => PyStr.join newline text_content
                  end))
     except_ err => "Error reading slide: " ++ exn_text err).

End WithLibs.
End PowerPointTools.

(* ===================================================================== *)
(** ** agenttools/pdf_tools.py *)
(* ===================================================================== *)

Module PDFTools.
Section WithLibs.
Context (L : Libs).

Definition needs_pypdf2 (body : wrapper L) : wrapper L :=
  if negb (PYPDF2_AVAILABLE L) then Early "Error: PyPDF2 is not installed"
  else body.

Definition needs_reportlab (body : wrapper L) : wrapper L :=
  if negb (REPORTLAB_AVAILABLE L) then Early "Error: reportlab is not installed"
  else body.

Definition create_pdf (file_path text : string) : wrapper L :=
  needs_reportlab
    (try_
       (let* c := Py.call (rl_canvas L file_path) in
        let height := snd (rl_letter L) in
        let lines := PyStr.split_char (ascii_of_N 10) text in
        let* drawn :=
          Py.for_each lines (c, height - 50)
            (fun acc line =>
               let '(cv, y_position) := acc in
               let* paged :=
                 (if y_position <? 50
                  then let* cv' := Py.call (rl_show_page L cv) in
                       Py.ret (cv', height - 50)
                  else Py.ret (cv, y_position)) in
               let '(cv1, y1) := paged in
               let* cv2 := Py.call (rl_draw_string L cv1 50 y1 line) in
               Py.ret (cv2, y1 - 15)) in
        let* _ := Py.act (rl_save L (fst drawn)) in
        Py.ret ("PDF created successfully at: " ++ file_path))
     except_ err => "Error creating PDF: " ++ exn_text err).

Definition extract_pdf_text (file_path : string) : wrapper L :=
  needs_pypdf2
    (try_
       (let* reader := Py.ask (fun w => pdf_open L w file_path) in
        let* text_content :=
          Py.map_each (fun page => Py.call (pdf_extract_text L page))
                      (pdf_pages reader) in
        Py.ret (PyStr.join (newline ++ newline) text_content))
     except_ err => "Error extracting text from PDF: " ++ exn_text err).

Definition merge_pdfs (output_path input_paths : string) : wrapper L :=
  needs_pypdf2
    (try_
       (let paths := split_commas input_paths in
        let* merger :=
          Py.for_each paths []
            (fun m pdf_path => Py.ask (pdf_merger_append L m pdf_path)) in
        let* _ := Py.act (pdf_merger_write L merger output_path) in
        Py.ret ("Successfully merged " ++ PyStr.of_Z (Z.of_nat (length paths))
                ++ " PDFs into: " ++ output_path))
     except_ err => "Error merging PDFs: " ++ exn_text err).

Definition split_pdf (file_path output_dir : string) : wrapper L :=
  needs_pypdf2
    (try_
       (let* reader := Py.ask (fun w => pdf_open L w file_path) in
        let* _ := (fun s =>
                     if negb (os_path_exists L (world s) output_dir)
                     then Py.act (os_makedirs L output_dir false) s
                     else Py.ret tt s) in
        let* _ :=
          Py.for_each (ExcelTools.enumerate (pdf_pages reader)) tt
            (fun _ ip =>
               let output_filename :=
                 os_path_join L output_dir
                   ("page_" ++ PyStr.of_Z (fst ip + 1) ++ ".pdf") in
               Py.act (pdf_write L [snd ip] output_filename)) in
        Py.ret ("Successfully split PDF into "
                ++ PyStr.of_Z (Z.of_nat (length (pdf_pages reader)))
                ++ " pages in: " ++ output_dir))
     except_ err => "Error splitting PDF: " ++ exn_text err).

Definition get_pdf_info (file_path : string) : wrapper L :=
  needs_pypdf2
    (try_
       (let* reader := Py.ask (fun w => pdf_open L w file_path) in
        let info :=
          ["Number of pages: " ++ PyStr.of_Z (Z.of_nat (length (pdf_pages reader)))] in
        let info' :=
          match pdf_metadata reader with
          | Some (kv :: rest) =>
              (info ++ [(newline ++ "Metadata:")%string]
               ++ map (fun e => ("  " ++ fst e ++ ": " ++ snd e)%string)
                      (kv :: rest))%list
          | _ => info
          end in
        Py.ret (PyStr.join newline info'))
     except_ err => "Error reading PDF info: " ++ exn_text err).

(** The message for a page number outside [1, len(reader.pages)]. *)
Definition out_of_range (page_number : Z) (count : nat) : string :=
  "Error: Page number " ++ PyStr.of_Z page_number ++ " out of range (1-"
  ++ PyStr.of_Z (Z.of_nat count) ++ ")".

Definition extract_pdf_page (file_path : string) (page_number : Z)
           (output_path : string) : wrapper L :=
  needs_pypdf2
    (try_
       (let* reader := Py.ask (fun w => pdf_open L w file_path) in
        if (page_number <? 1)
           || (Z.of_nat (length (pdf_pages reader)) <? page_number) then
          Py.ret (out_of_range page_number (length (pdf_pages reader)))
        else
          let* page := Py.call (py_index "sequence" (pdf_pages reader)
                                         (page_number - 1)) in
          let* _ := Py.act (pdf_write L [page] output_path) in
          Py.ret ("Page " ++ PyStr.of_Z page_number
                  ++ " extracted successfully to: " ++ output_path))
     except_ err => "Error extracting page: " ++ exn_text err).

Definition rotate_pdf_pages (file_path output_path : string) (degrees : Z)
  : wrapper L :=
  needs_pypdf2
    (try_
       (if negb (bool_decide (degrees ∈ [90; 180; 270])) then
          Py.ret "Error: Degrees must be 90, 180, or 270"
        else
          let* reader := Py.ask (fun w => pdf_open L w file_path) in
          let* writer :=
            Py.for_each (pdf_pages reader) []
              (fun wr page =>
                 let* page' := Py.call (pdf_rotate L page degrees) in
                 Py.ret (wr ++ [page'])%list) in
          let* _ := Py.act (pdf_write L writer output_path) in
          Py.ret ("PDF rotated " ++ PyStr.of_Z degrees
                  ++ " degrees and saved to: " ++ output_path))
     except_ err => "Error rotating PDF: " ++ exn_text err).

End WithLibs.
End PDFTools.

(* ===================================================================== *)
(** ** agenttools/csv_tools.py *)
(* ===================================================================== *)

Module CSVTools.
Section WithLibs.
Context (L : Libs).

Definition guarded (body : wrapper L) : wrapper L :=
  if negb (PANDAS_AVAILABLE L) then Early "Error: pandas is not installed"
  else body.

Definition read (file_path : string) : tool L (DataFrame L) :=
  Py.ask (fun w => pd_read_csv L w file_path).

(** [column in df.columns] *)
Definition has_column (df : DataFrame L) (column : string) : bool :=
  bool_decide (column ∈ df_columns L df).

Definition column_not_found (column : string) : string :=
  "Error: Column '" ++ column ++ "' not found in CSV".

Definition read_csv (file_path : string) (max_rows : Z) : wrapper L :=
  guarded
    (try_
       (let* df := read file_path in
        Py.call (df_to_string L (df_head L df max_rows)))
     except_ err => "Error reading CSV: " ++ exn_text err).

Definition get_csv_info (file_path : string) : wrapper L :=
  guarded
    (try_
       (let* df := read file_path in
        let* dtypes := Py.call (df_dtypes_to_string L df) in
        let info :=
          ["Rows: " ++ PyStr.of_Z (df_len L df);
           "Columns: " ++ PyStr.of_Z (Z.of_nat (length (df_columns L df)));
           newline ++ "Column names: " ++ PyStr.join ", " (df_columns L df);
           newline ++ "Data types:" ++ newline ++ dtypes] in
        Py.ret (PyStr.join newline info))
     except_ err => "Error reading CSV info: " ++ exn_text err).

Definition filter_csv (file_path column value output_path : string)
  : wrapper L :=
  guarded
    (try_
       (let* df := read file_path in
        if negb (has_column df column) then Py.ret (column_not_found column)
        else
          let* filtered_df := Py.call (df_filter_str_eq L df column value) in
          let* _ := Py.act (df_to_csv L filtered_df output_path) in
          Py.ret ("Filtered " ++ PyStr.of_Z (df_len L filtered_df)
                  ++ " rows to: " ++ output_path))
     except_ err => "Error filtering CSV: " ++ exn_text err).

Definition sort_csv (file_path column output_path : string) (ascending : bool)
  : wrapper L :=
  guarded
    (try_
       (let* df := read file_path in
        if negb (has_column df column) then Py.ret (column_not_found column)
        else
          let* sorted_df := Py.call (df_sort_values L df column ascending) in
          let* _ := Py.act (df_to_csv L sorted_df output_path) in
          Py.ret ("CSV sorted by '" ++ column ++ "' and saved to: " ++ output_path))
     except_ err => "Error sorting CSV: " ++ exn_text err).

Definition get_column_stats (file_path column : string) : wrapper L :=
  guarded
    (try_
       (let* df := read file_path in
        if negb (has_column df column) then Py.ret (column_not_found column)
        else
          let* stats := Py.call (df_describe_to_string L df column) in
          Py.ret ("Statistics for '" ++ column ++ "':" ++ newline ++ stats))
     except_ err => "Error getting column stats: " ++ exn_text err).

Definition merge_csv_files (output_path input_paths : string) : wrapper L :=
  guarded
    (try_
       (let paths := split_commas input_paths in
        let* dfs := Py.map_each read paths in
        let* merged_df := Py.call (pd_concat L dfs) in
        let* _ := Py.act (df_to_csv L merged_df output_path) in
        Py.ret ("Successfully merged " ++ PyStr.of_Z (Z.of_nat (length paths))
                ++ " CSV files (" ++ PyStr.of_Z (df_len L merged_df)
                ++ " total rows) to: " ++ output_path))
     except_ err => "Error merging CSV files: " ++ exn_text err).

Definition select_csv_columns (file_path columns output_path : string)
  : wrapper L :=
  guarded
    (try_
       (let* df := read file_path in
        let column_list := split_commas columns in
        let missing_cols := filter (fun c => negb (has_column df c)) column_list in
        match missing_cols with
        | _ :: _ =>
            Py.ret ("Error: Columns not found: " ++ PyStr.join ", " missing_cols)
        | [] =>
            let* selected_df := Py.call (df_select L df column_list) in
            let* _ := Py.act (df_to_csv L selected_df output_path) in
            Py.ret ("Selected " ++ PyStr.of_Z (Z.of_nat (length column_list))
                    ++ " columns and saved to: " ++ output_path)
        end)
     except_ err => "Error selecting columns: " ++ exn_text err).

Definition convert_csv_to_json (file_path output_path : string) : wrapper L :=
  guarded
    (try_
       (let* df := read file_path in
        let* _ := Py.act (df_to_json L df output_path) in
        Py.ret ("CSV converted to JSON and saved to: " ++ output_path))
     except_ err => "Error converting CSV to JSON: " ++ exn_text err).

End WithLibs.
End CSVTools.

(* ===================================================================== *)
(** ** agenttools/web_tools.py *)
(* ===================================================================== *)

Module WebTools.
Section WithLibs.
Context (L : Libs).

Definition needs_requests (body : wrapper L) : wrapper L :=
  if negb (REQUESTS_AVAILABLE L) then Early "Error: requests is not installed"
  else body.

Definition needs_both (body : wrapper L) : wrapper L :=
  if negb (REQUESTS_AVAILABLE L) || negb (BS4_AVAILABLE L)
  then Early "Error: requests and beautifulsoup4 are required"
  else body.

(** [pair.split('=', 1)] when ['=' in pair] *)
Fixpoint split_once (sep : ascii) (s : string) : option (string * string) :=
  match s with
  | EmptyString => None
  | String c r =>
      if Ascii.eqb c sep then Some (EmptyString, r)
      else match split_once sep r with
           | Some (a, b) => Some (String c a, b)
           | None => None
           end
  end.

(** [d[k] = v] on a dictionary kept in insertion order. *)
Fixpoint dict_set (k v : string) (d : list (string * string))
  : list (string * string) :=
  match d with
  | [] => [(k, v)]
  | (k', v') :: rest =>
      if String.eqb k' k then (k, v) :: rest else (k', v') :: dict_set k v rest
  end.

(** The dictionary read from "k=v,k=v" pairs. *)
Definition parse_pairs (params : string) : list (string * string) :=
  if String.eqb params EmptyString then []
  else fold_left
         (fun d pair =>
            match split_once "=" pair with
            | Some (key, value) => dict_set (PyStr.strip key) (PyStr.strip value) d
            | None => d
            end)
         (PyStr.split_char "," params) [].

(** [requests.get(url, timeout=10)] followed by [raise_for_status()]. *)
Definition get_checked (url : string) (params : option (list (string * string)))
           (timeout : Z) (stream : bool) : tool L (Response L) :=
  let* response := Py.act (requests_get L url params timeout stream) in
  let* _ := Py.call (resp_raise_for_status L response) in
  Py.ret response.

(** The page behind a URL, parsed. *)
Definition get_soup (url : string) : tool L (Soup L) :=
  let* response := get_checked url None 10 false in
  let* html := Py.call (resp_text L response) in
  Py.call (bs4_parse L html).

Definition fetch_webpage (url : string) : wrapper L :=
  needs_requests
    (try_
       (let* response := get_checked url None 10 false in
        Py.call (resp_text L response))
     except_ err => "Error fetching webpage: " ++ exn_text err).

Definition extract_text_from_url (url : string) : wrapper L :=
  needs_both
    (try_
       (let* soup := get_soup url in
        let* soup1 := Py.call (soup_decompose L soup ["script"; "style"]) in
        Py.call (soup_get_text L soup1))
     except_ err => "Error extracting text: " ++ exn_text err).

Definition extract_links (url : string) : wrapper L :=
  needs_both
    (try_
       (let* soup := get_soup url in
        let* found := Py.call (soup_links L soup) in
        let links := map (fun l => snd l ++ ": " ++ fst l) found in
        Py.ret (match links with
                | [] => "No links found"
                | _ => PyStr.join newline links
                end))
     except_ err => "Error extracting links: " ++ exn_text err).

Definition download_file (url output_path : string) : wrapper L :=
  needs_requests
    (try_
       (let* response := get_checked url None 30 true in
        let* _ := Py.act (open_wb L output_path) in
        let* chunks := Py.act (resp_iter_content L response 8192) in
        let* _ := Py.act (write_bytes L output_path chunks) in
        Py.ret ("File downloaded successfully to: " ++ output_path))
     except_ err => "Error downloading file: " ++ exn_text err).

Definition make_get_request (url params : string) : wrapper L :=
  needs_requests
    (try_
       (let query_params := parse_pairs params in
        let* response := get_checked url (Some query_params) 10 false in
        Py.call (resp_text L response))
     except_ err => "Error making GET request: " ++ exn_text err).

Definition make_post_request (url data : string) : wrapper L :=
  needs_requests
    (try_
       (let post_data := parse_pairs data in
        let* response := Py.act (requests_post L url post_data 10) in
        let* _ := Py.call (resp_raise_for_status L response) in
        Py.call (resp_text L response))
     except_ err => "Error making POST request: " ++ exn_text err).

Definition extract_images (url : string) : wrapper L :=
  needs_both
    (try_
       (let* soup := get_soup url in
        let* found := Py.call (soup_images L soup) in
        let images :=
          omap (fun img =>
                  match fst img with
                  | Some src =>
                      if String.eqb src EmptyString then None
                      else Some (snd img ++ ": " ++ src)
                  | None => None
                  end) found in
        Py.ret (match images with
                | [] => "No images found"
                | _ => PyStr.join newline images
                end))
     except_ err => "Error extracting images: " ++ exn_text err).

Definition find_elements_by_tag (url tag : string) : wrapper L :=
  needs_both
    (try_
       (let* soup := get_soup url in
        let* texts := Py.call (soup_find_all_text L soup tag) in
        let results :=
          imap (fun i text => PyStr.of_Z (Z.of_nat i + 1) ++ ". " ++ text) texts in
        Py.ret (match results with
                | [] => "No <" ++ tag ++ "> elements found"
                | _ => PyStr.join newline results
                end))
     except_ err => "Error finding elements: " ++ exn_text err).

End WithLibs.
End WebTools.

(* ===================================================================== *)
(** ** The registry: every tool function with its scalar parameters *)
(* ===================================================================== *)

(** One constructor per function the plugins expose, carrying the
    arguments of a call. *)
Inductive tool_call (F : Type) : Type :=
(* FileIOTools *)
| Ensure_dir (path : string)
| Write_file (path content : string)
| Append_file (path content : string)
| Read_file (path : string) (max_bytes : Z)
(* ShellTool *)
| Run_shell (command : string) (timeout_sec : Z) (cwd : option string)
(* ExcelTools *)
| Create_workbook (path : string) (sheet_names : option string)
| List_sheets (path : string)
| Read_sheet (path : string) (sheet_name cell_range : option string) (max_rows : Z)
| Write_cell (path cell value : string) (sheet_name : option string)
| Write_rows (path data_json start_cell : string) (sheet_name : option string)
| Add_sheet (path sheet_name : string)
| Delete_sheet (path sheet_name : string)
| Get_workbook_info (path : string)
| Read_cell (path cell : string) (sheet_name : option string)
| Clear_range (path cell_range : string) (sheet_name : option string)
| Search_value (path search_term : string) (sheet_name : option string) (max_results : Z)
(* WordTools *)
| Create_word_document (file_path : string)
| Add_heading (file_path text : string) (level : Z)
| Add_paragraph (file_path text : string)
| Add_table (file_path : string) (rows cols : Z)
| Set_table_cell (file_path : string) (table_index row col : Z) (text : string)
| Add_page_break (file_path : string)
| Read_word_document (file_path : string)
| Add_bullet_list (file_path items : string)
(* PowerPointTools *)
| Create_presentation (file_path : string)
| Add_title_slide (file_path title subtitle : string)
| Add_content_slide (file_path title content : string)
| Add_blank_slide (file_path : string)
| Add_text_box (file_path : string) (slide_index : Z) (text : string)
               (left top width height : F)
| Get_slide_count (file_path : string)
| Read_slide_text (file_path : string) (slide_index : Z)
(* PDFTools *)
| Create_pdf (file_path text : string)
| Extract_pdf_text (file_path : string)
| Merge_pdfs (output_path input_paths : string)
| Split_pdf (file_path output_dir : string)
| Get_pdf_info (file_path : string)
| Extract_pdf_page (file_path : string) (page_number : Z) (output_path : string)
| Rotate_pdf_pages (file_path output_path : string) (degrees : Z)
(* CSVTools *)
| Read_csv (file_path : string) (max_rows : Z)
| Get_csv_info (file_path : string)
| Filter_csv (file_path column value output_path : string)
| Sort_csv (file_path column output_path : string) (ascending : bool)
| Get_column_stats (file_path column : string)
| Merge_csv_files (output_path input_paths : string)
| Select_csv_columns (file_path columns output_path : string)
| Convert_csv_to_json (file_path output_path : string)
(* WebTools *)
| Fetch_webpage (url : string)
| Extract_text_from_url (url : string)
| Extract_links (url : string)
| Download_file (url output_path : string)
| Make_get_request (url params : string)
| Make_post_request (url data : string)
| Extract_images (url : string)
| Find_elements_by_tag (url tag : string).

(** The function a call names, applied to the call's arguments. *)
Definition callee (L : Libs) (c : tool_call (pyfloat L)) : wrapper L :=
  match c with
  | Ensure_dir _ p => FileIOTools.ensure_dir L p
  | Write_file _ p c => FileIOTools.write_file L p c
  | Append_file _ p c => FileIOTools.append_file L p c
  | Read_file _ p n => FileIOTools.read_file L p n
  | Run_shell _ c t d => ShellTool.run_shell L c t d
  | Create_workbook _ p n => ExcelTools.create_workbook L p n
  | List_sheets _ p => ExcelTools.list_sheets L p
  | Read_sheet _ p s r m => ExcelTools.read_sheet L p s r m
  | Write_cell _ p c v s => ExcelTools.write_cell L p c v s
  | Write_rows _ p d c s => ExcelTools.write_rows L p d c s
  | Add_sheet _ p s => ExcelTools.add_sheet L p s
  | Delete_sheet _ p s => ExcelTools.delete_sheet L p s
  | Get_workbook_info _ p => ExcelTools.get_workbook_info L p
  | Read_cell _ p c s => ExcelTools.read_cell L p c s
  | Clear_range _ p r s => ExcelTools.clear_range L p r s
  | Search_value _ p t s m => ExcelTools.search_value L p t s m
  | Create_word_document _ p => WordTools.create_word_document L p
  | Add_heading _ p t l => WordTools.add_heading L p t l
  | Add_paragraph _ p t => WordTools.add_paragraph L p t
  | Add_table _ p r c => WordTools.add_table L p r c
  | Set_table_cell _ p t r c x => WordTools.set_table_cell L p t r c x
  | Add_page_break _ p => WordTools.add_page_break L p
  | Read_word_document _ p => WordTools.read_word_document L p
  | Add_bullet_list _ p i => WordTools.add_bullet_list L p i
  | Create_presentation _ p => PowerPointTools.create_presentation L p
  | Add_title_slide _ p t s => PowerPointTools.add_title_slide L p t s
  | Add_content_slide _ p t c => PowerPointTools.add_content_slide L p t c
  | Add_blank_slide _ p => PowerPointTools.add_blank_slide L p
  | Add_text_box _ p i t a b c d => PowerPointTools.add_text_box L p i t a b c d
  | Get_slide_count _ p => PowerPointTools.get_slide_count L p
  | Read_slide_text _ p i => PowerPointTools.read_slide_text L p i
  | Create_pdf _ p t => PDFTools.create_pdf L p t
  | Extract_pdf_text _ p => PDFTools.extract_pdf_text L p
  | Merge_pdfs _ o i => PDFTools.merge_pdfs L o i
  | Split_pdf _ p d => PDFTools.split_pdf L p d
  | Get_pdf_info _ p => PDFTools.get_pdf_info L p
  | Extract_pdf_page _ p n o => PDFTools.extract_pdf_page L p n o
  | Rotate_pdf_pages _ p o d => PDFTools.rotate_pdf_pages L p o d
  | Read_csv _ p m => CSVTools.read_csv L p m
  | Get_csv_info _ p => CSVTools.get_csv_info L p
  | Filter_csv _ p c v o => CSVTools.filter_csv L p c v o
  | Sort_csv _ p c o a => CSVTools.sort_csv L p c o a
  | Get_column_stats _ p c => CSVTools.get_column_stats L p c
  | Merge_csv_files _ o i => CSVTools.merge_csv_files L o i
  | Select_csv_columns _ p c o => CSVTools.select_csv_columns L p c o
  | Convert_csv_to_json _ p o => CSVTools.convert_csv_to_json L p o
  | Fetch_webpage _ u => WebTools.fetch_webpage L u
  | Extract_text_from_url _ u => WebTools.extract_text_from_url L u
  | Extract_links _ u => WebTools.extract_links L u
  | Download_file _ u o => WebTools.download_file L u o
  | Make_get_request _ u p => WebTools.make_get_request L u p
  | Make_post_request _ u d => WebTools.make_post_request L u d
  | Extract_images _ u => WebTools.extract_images L u
  | Find_elements_by_tag _ u t => WebTools.find_elements_by_tag L u t
  end.

(** Calling a tool function. *)
Definition invoke (L : Libs) (c : tool_call (pyfloat L)) : tool L string :=
  run (callee L c).

(* ===================================================================== *)
(** ** An in-memory instance of the libraries *)
(* ===================================================================== *)

(** A small world to run the tools in: a flat file system keyed by path,
    files held in parsed form, a shell that knows [sleep] and [echo], no
    network.  A float is kept as its decimal text. *)
Module Demo.

Inductive file : Type :=
| Dir
| Text (s : string)
| Book (wb : workbook string)
| Pdf (pages : list string)
| Csv (columns : list string) (rows : list (list string))
| Docx (d : document).

Abbreviation fs := (gmap string file).

Definition os_error (msg path : string) : exn :=
  Exn OtherError (msg ++ ": '" ++ path ++ "'").

Definition no_such (path : string) : exn :=
  os_error "[Errno 2] No such file or directory" path.

Definition unsupported {A} (what : string) : outcome A :=
  Raise (Exn OtherError (what ++ " is not supported")).

Fixpoint dirname_aux (s : string) : option string :=
  match s with
  | EmptyString => None
  | String c r =>
      match dirname_aux r with
      | Some d => Some (String c d)
      | None => if Ascii.eqb c "/" then Some EmptyString else None
      end
  end.

Definition dirname (s : string) : string :=
  match dirname_aux s with
  | Some EmptyString => "/"
  | Some d => d
  | None => EmptyString
  end.

Definition abspath (w : fs) (p : string) : string :=
  if PyStr.startswith "/" p then p else "/work/" ++ p.

Definition exists_ (w : fs) (p : string) : bool := bool_decide (is_Some (w !! p)).

(** A file can be created where its directory exists. *)
Definition writable (w : fs) (p : string) : bool :=
  let d := dirname p in
  String.eqb d EmptyString || String.eqb d "/"
  || match w !! d with Some Dir => true | _ => false end.

Definition put (p : string) (f : file) (w : fs) : outcome unit * fs :=
  if writable w p then (Return tt, <[p := f]> w) else (Raise (no_such p), w).

Definition makedirs (p : string) (exist_ok : bool) (w : fs) : outcome unit * fs :=
  match w !! p with
  | Some Dir =>
      if exist_ok then (Return tt, w)
      else (Raise (os_error "[Errno 17] File exists" p), w)
  | Some _ => (Raise (os_error "[Errno 17] File exists" p), w)
  | None => (Return tt, <[p := Dir]> w)
  end.

Definition write_text (p : string) (mode : write_mode) (content : string) (w : fs)
  : outcome unit * fs :=
  match mode, w !! p with
  | ModeA, Some (Text old) => put p (Text (old ++ content)) w
  | _, Some Dir => (Raise (os_error "[Errno 21] Is a directory" p), w)
  | _, _ => put p (Text content) w
  end.

Definition read_text (w : fs) (p : string) : outcome string :=
  match w !! p with
  | Some (Text s) => Return s
  | Some Dir => Raise (os_error "[Errno 21] Is a directory" p)
  | Some _ => Return EmptyString
  | None => Raise (no_such p)
  end.

Definition append_bytes (p : string) (chunks : list string) (w : fs)
  : outcome unit * fs :=
  write_text p ModeA (PyStr.join EmptyString chunks) w.

Definition after (n : nat) (s : string) : string :=
  String.substring n (String.length s - n) s.

(** [repr] of a list of plain strings. *)
Definition repr_list (l : list string) : string :=
  "[" ++ PyStr.join ", " (map (fun a => "'" ++ a ++ "'") l) ++ "]".

(** [bash -c cmd] for [sleep n] and [echo text]; a working directory must
    exist. *)
Definition shell (argv : list string) (timeout : Z) (cwd : option string) (w : fs)
  : outcome completed * fs :=
  let cwd_ok := match cwd with
                | Some d => match w !! d with Some Dir => true | _ => false end
                | None => true
                end in
  if negb cwd_ok then (Raise (no_such (default EmptyString cwd)), w)
  else
    match argv with
    | [_; _; cmd] =>
        if PyStr.startswith "sleep " cmd then
          match PyStr.to_Z (after 6 cmd) with
          | Some n =>
              if timeout <? n
              then (Raise (Exn OtherError
                             ("Command '" ++ repr_list argv ++ "' timed out after "
                              ++ PyStr.of_Z timeout ++ " seconds")), w)
              else (Return (Completed 0 EmptyString EmptyString), w)
          | None => (Return (Completed 1 EmptyString "sleep: invalid time interval"), w)
          end
        else if PyStr.startswith "echo " cmd then
          (Return (Completed 0 (after 5 cmd ++ newline) EmptyString), w)
        else (Return (Completed 127 EmptyString
                        ("bash: " ++ cmd ++ ": command not found")), w)
    | _ => (Raise (Exn ValueError "bad argv"), w)
    end.

Definition all_digits (s : string) : bool :=
  match PyStr.digits false 0 s with Some _ => true | None => false end.

(** Decimal literals [digits.digits]. *)
Definition float_of (s : string) : option string :=
  match WebTools.split_once "." s with
  | Some (a, b) => if all_digits a && all_digits b then Some s else None
  | None => None
  end.

(** One capital letter and a row number. *)
Definition coordinate (cell : string) : outcome (Z * Z) :=
  match cell with
  | String c r =>
      let n := PyStr.code c in
      if ((65 <=? n) && (n <=? 90))%N then
        match PyStr.digits false 0 r with
        | Some row =>
            if 1 <=? row then Return (row, Z.of_N n - 64)
            else Raise (Exn ValueError ("Invalid cell coordinates " ++ cell))
        | None => Raise (Exn ValueError ("Invalid cell coordinates " ++ cell))
        end
      else Raise (Exn ValueError ("Invalid cell coordinates " ++ cell))
  | EmptyString => Raise (Exn ValueError "Invalid cell coordinates ")
  end.

(** What loading gives for a value that was saved: a float without a
    fraction comes back as an int, and a string that starts with "=" is a
    formula, which has no cached result in a file written by openpyxl, so
    with [data_only] it comes back as None. *)
Definition readback (data_only : bool) (v : value string) : value string :=
  match v with
  | VFloat f =>
      match WebTools.split_once "." f with
      | Some (a, b) =>
          match PyStr.to_Z a, PyStr.to_Z b with
          | Some n, Some 0 => VInt n
          | _, _ => VFloat f
          end
      | None => VFloat f
      end
  | VStr t => if data_only && PyStr.startswith "=" t then VNone else VStr t
  | _ => v
  end.

Definition load_workbook (p : string) (read_only data_only : bool) (w : fs)
  : outcome (workbook string) :=
  match w !! p with
  | Some (Book wb) =>
      Return (Workbook
                (map (fun ws => Worksheet (title ws)
                                  (readback data_only <$> cells ws))
                     (worksheets wb))
                (active_index wb))
  | Some _ => Raise (Exn OtherError "File is not a zip file")
  | None => Raise (no_such p)
  end.

(** [wb.save(p)]: a workbook without a sheet is refused. *)
Definition save_workbook (wb : workbook string) (p : string) (w : fs)
  : outcome unit * fs :=
  match worksheets wb with
  | [] => (Raise (Exn IndexError "At least one sheet must be visible"), w)
  | _ => put p (Book wb) w
  end.

(** [ws["A1:B3"]]: the rows of the rectangle, each a row of cells; a
    single cell is not a sequence of rows. *)
Definition cell_range (ws : worksheet string) (range : string)
  : outcome (list (list (Z * Z))) :=
  match WebTools.split_once ":" range with
  | Some (a, b) =>
      match coordinate a, coordinate b with
      | Return (r1, c1), Return (r2, c2) =>
          Return (map (fun r => map (fun c => (r1 + Z.of_nat r, c1 + Z.of_nat c))
                                    (seq 0 (Z.to_nat (c2 - c1 + 1))))
                      (seq 0 (Z.to_nat (r2 - r1 + 1))))
      | Raise e, _ => Raise e
      | _, Raise e => Raise e
      end
  | None =>
      match coordinate range with
      | Return _ => Raise (Exn TypeError "'Cell' object is not iterable")
      | Raise e => Raise e
      end
  end.

Definition create_sheet (wb : workbook string) (name : string)
  : outcome (workbook string) :=
  Return (Workbook (worksheets wb ++ [Worksheet name ∅])%list (active_index wb)).

Definition set_title (wb : workbook string) (i : nat) (name : string)
  : outcome (workbook string) :=
  Return (Workbook (alter (fun ws => Worksheet name (cells ws)) i (worksheets wb))
                   (active_index wb)).

Definition open_docx (w : fs) (p : string) : outcome document :=
  match w !! p with
  | Some (Docx d) => Return d
  | Some _ => Raise (Exn OtherError "Package not found")
  | None => Raise (Exn OtherError ("Package not found at '" ++ p ++ "'"))
  end.

Definition add_paragraph (d : document) (text : string) (style : option string)
  : outcome document :=
  Return (Document (doc_paragraphs d ++ [(text, default "Normal" style)])%list
                   (doc_tables d)).

Definition add_table (d : document) (rows cols : Z) : outcome document :=
  Return (Document (doc_paragraphs d)
            (doc_tables d ++
             [Table (replicate (Z.to_nat rows)
                       (replicate (Z.to_nat cols) EmptyString)) (Z.to_nat cols)])%list).

Definition open_pdf (w : fs) (p : string) : outcome (pdf_reader string) :=
  match w !! p with
  | Some (Pdf pages) => Return (PdfReader pages None)
  | Some _ => Raise (Exn OtherError "EOF marker not found")
  | None => Raise (no_such p)
  end.

Definition merger_append (m : list string) (p : string) (w : fs)
  : outcome (list string) :=
  match open_pdf w p with
  | Return r => Return (m ++ pdf_pages r)%list
  | Raise e => Raise e
  end.

Definition frame : Type := list string * list (list string).

Definition read_csv (w : fs) (p : string) : outcome frame :=
  match w !! p with
  | Some (Csv columns rows) => Return (columns, rows)
  | Some _ => Raise (Exn OtherError "No columns to parse from file")
  | None => Raise (no_such p)
  end.

Definition head (df : frame) (n : Z) : frame :=
  (fst df,
   if 0 <=? n then take (Z.to_nat n) (snd df)
   else take (length (snd df) - Z.to_nat (- n)) (snd df)).

Definition show (df : frame) : outcome string :=
  Return (PyStr.join newline
            (map (PyStr.join " ") (fst df :: snd df))).

Fixpoint column_position (c : string) (cols : list string) : option nat :=
  match cols with
  | [] => None
  | x :: rest => if String.eqb x c then Some O else S <$> column_position c rest
  end.

Definition filter_eq (df : frame) (column value : string) : outcome frame :=
  match column_position column (fst df) with
  | Some k =>
      Return (fst df,
              filter (fun row => bool_decide (row !! k = Some value)) (snd df))
  | None => Raise (Exn KeyError ("'" ++ column ++ "'"))
  end.

Definition select (df : frame) (cols : list string) : outcome frame :=
  Return (cols,
          map (fun row =>
                 omap (fun c => match column_position c (fst df) with
                                | Some k => row !! k
                                | None => None
                                end) cols)
              (snd df)).

Definition to_csv (df : frame) (p : string) (w : fs) : outcome unit * fs :=
  put p (Csv (fst df) (snd df)) w.

Definition canvas : Type := string * list (list (Z * Z * string)).

Definition draw (c : canvas) (x y : Z) (line : string) : outcome canvas :=
  match snd c with
  | page :: done => Return (fst c, (page ++ [(x, y, line)])%list :: done)
  | [] => Return (fst c, [[(x, y, line)]])
  end.

Definition save_canvas (c : canvas) (w : fs) : outcome unit * fs :=
  put (fst c) (Pdf (map (fun page => PyStr.join newline (map snd page))
                        (rev (snd c)))) w.

Definition refused {A} (w : fs) : outcome A * fs :=
  (Raise (Exn OtherError "Connection refused"), w).

Definition libs : Libs := {|
  World := fs;
  pyfloat := string;
  PdfPage := string;
  Canvas := canvas;
  DataFrame := frame;
  Presentation := list (list string);
  Layout := Z;
  SlideRef := nat;
  Response := string;
  Soup := string;
  OPENPYXL_AVAILABLE := true;
  DOCX_AVAILABLE := true;
  PPTX_AVAILABLE := true;
  PYPDF2_AVAILABLE := true;
  REPORTLAB_AVAILABLE := true;
  PANDAS_AVAILABLE := true;
  REQUESTS_AVAILABLE := true;
  BS4_AVAILABLE := false;
  int_of_str := PyStr.to_Z;
  float_of_str := float_of;
  str_of_float := fun f => f;
  json_of_float := fun f => f;
  float_of_json := fun r => r;
  os_makedirs := makedirs;
  os_path_dirname := dirname;
  os_path_abspath := abspath;
  os_path_exists := exists_;
  os_path_join := fun a b => a ++ "/" ++ b;
  open_write_text := write_text;
  open_read_text := read_text;
  open_wb := fun p => put p (Text EmptyString);
  write_bytes := append_bytes;
  json_loads := fun s =>
    if String.eqb s "[]" then Return (JArr [])
    else Raise (Exn JSONDecodeError "Expecting value: line 1 column 1 (char 0)");
  subprocess_run := shell;
  xl_load_workbook := load_workbook;
  xl_save := save_workbook;
  xl_create_sheet := create_sheet;
  xl_set_title := set_title;
  xl_coordinate := coordinate;
  xl_check_value := fun _ => Return tt;
  xl_range := cell_range;
  xl_iter_rows := fun ws => map (fun k => [k]) (map fst (map_to_list (cells ws)));
  xl_dimensions := fun _ => Return "A1:A1";
  xl_max_row := fun _ => None;
  xl_max_column := fun _ => None;
  xl_cell_name := fun rc => "R" ++ PyStr.of_Z (fst rc) ++ "C" ++ PyStr.of_Z (snd rc);
  xl_import_utils :=
    Raise (Exn ImportError
             "cannot import name 'coordinate_from_string' from 'openpyxl.utils'");
  xl_coordinate_from_string := fun _ => unsupported "coordinate_from_string";
  xl_column_index_from_string := fun _ => unsupported "column_index_from_string";
  docx_new := Return (Document [] []);
  docx_open := open_docx;
  docx_save := fun d p => put p (Docx d);
  docx_add_heading := fun d text level =>
    add_paragraph d text (Some ("Heading " ++ PyStr.of_Z level));
  docx_add_paragraph := add_paragraph;
  docx_add_table := add_table;
  docx_add_page_break := fun d => Return d;
  pptx_new := Return [];
  pptx_open := fun _ p => Raise (no_such p);
  pptx_save := fun _ p w => (unsupported "saving a presentation", w);
  pptx_slide_layout := fun _ i => Return i;
  pptx_add_slide := fun prs _ => Return ((prs ++ [[]])%list, length prs);
  pptx_set_title_text := fun prs i t => Return (alter (fun sl => t :: sl) i prs);
  pptx_placeholder_count := fun _ _ => 2;
  pptx_set_placeholder_text := fun prs i _ t =>
    Return (alter (fun sl => (sl ++ [t])%list) i prs);
  pptx_clear_text_frame := fun prs _ _ => Return prs;
  pptx_add_bullet := fun prs i _ t =>
    Return (alter (fun sl => (sl ++ [t])%list) i prs);
  pptx_slide_count := fun prs => Z.of_nat (length prs);
  pptx_get_slide := fun prs i =>
    match py_position prs i with
    | Some k => Return k
    | None => Raise (Exn IndexError "slide index out of range")
    end;
  pptx_add_textbox := fun prs i _ _ _ _ t =>
    Return (alter (fun sl => (sl ++ [t])%list) i prs);
  pptx_shape_texts := fun prs i => Return (default [] (prs !! i));
  pdf_open := open_pdf;
  pdf_extract_text := fun page => Return page;
  pdf_write := fun pages p => put p (Pdf pages);
  pdf_merger_append := merger_append;
  pdf_merger_write := fun pages p => put p (Pdf pages);
  pdf_rotate := fun page _ => Return page;
  rl_letter := (612, 792);
  rl_canvas := fun p => Return (p, [[]]);
  rl_show_page := fun c => Return (fst c, [] :: snd c);
  rl_draw_string := draw;
  rl_save := save_canvas;
  pd_read_csv := read_csv;
  df_columns := fst;
  df_len := fun df => Z.of_nat (length (snd df));
  df_head := head;
  df_to_string := show;
  df_dtypes_to_string := fun df =>
    Return (PyStr.join newline (map (fun c => c ++ "    object") (fst df)));
  df_filter_str_eq := filter_eq;
  df_to_csv := to_csv;
  df_sort_values := fun df _ _ => Return df;
  df_describe_to_string := fun df _ =>
    Return ("count    " ++ PyStr.of_Z (Z.of_nat (length (snd df))));
  pd_concat := fun dfs =>
    match dfs with
    | [] => Raise (Exn ValueError "No objects to concatenate")
    | d :: rest => Return (fst d, concat (map snd (d :: rest)))
    end;
  df_select := select;
  df_to_json := fun df p => put p (Text (PyStr.join "," (fst df)));
  requests_get := fun _ _ _ _ => refused;
  requests_post := fun _ _ _ => refused;
  resp_raise_for_status := fun _ => Return tt;
  resp_text := fun r => Return r;
  resp_iter_content := fun r _ w => (Return [r], w);
  bs4_parse := fun html => Return html;
  soup_decompose := fun s _ => Return s;
  soup_get_text := fun s => Return s;
  soup_links := fun _ => Return [];
  soup_images := fun _ => Return [];
  soup_find_all_text := fun _ _ => Return []
|}.

(** A call in a world, from a tool object without attributes. *)
Definition start (w : fs) : state fs := State ∅ w.

End Demo.

(** [Demo.libs] with a python-pptx that holds one presentation in memory:
    every path opens [deck], and saving succeeds and writes no file. *)
Definition with_deck (deck : list (list string)) : Libs := {|
  World := World Demo.libs;
  pyfloat := pyfloat Demo.libs;
  PdfPage := PdfPage Demo.libs;
  Canvas := Canvas Demo.libs;
  DataFrame := DataFrame Demo.libs;
  Presentation := Presentation Demo.libs;
  Layout := Layout Demo.libs;
  SlideRef := SlideRef Demo.libs;
  Response := Response Demo.libs;
  Soup := Soup Demo.libs;
  OPENPYXL_AVAILABLE := OPENPYXL_AVAILABLE Demo.libs;
  DOCX_AVAILABLE := DOCX_AVAILABLE Demo.libs;
  PPTX_AVAILABLE := PPTX_AVAILABLE Demo.libs;
  PYPDF2_AVAILABLE := PYPDF2_AVAILABLE Demo.libs;
  REPORTLAB_AVAILABLE := REPORTLAB_AVAILABLE Demo.libs;
  PANDAS_AVAILABLE := PANDAS_AVAILABLE Demo.libs;
  REQUESTS_AVAILABLE := REQUESTS_AVAILABLE Demo.libs;
  BS4_AVAILABLE := BS4_AVAILABLE Demo.libs;
  int_of_str := int_of_str Demo.libs;
  float_of_str := float_of_str Demo.libs;
  str_of_float := str_of_float Demo.libs;
  json_of_float := json_of_float Demo.libs;
  float_of_json := float_of_json Demo.libs;
  os_makedirs := os_makedirs Demo.libs;
  os_path_dirname := os_path_dirname Demo.libs;
  os_path_abspath := os_path_abspath Demo.libs;
  os_path_exists := os_path_exists Demo.libs;
  os_path_join := os_path_join Demo.libs;
  open_write_text := open_write_text Demo.libs;
  open_read_text := open_read_text Demo.libs;
  open_wb := open_wb Demo.libs;
  write_bytes := write_bytes Demo.libs;
  json_loads := json_loads Demo.libs;
  subprocess_run := subprocess_run Demo.libs;
  xl_load_workbook := xl_load_workbook Demo.libs;
  xl_save := xl_save Demo.libs;
  xl_create_sheet := xl_create_sheet Demo.libs;
  xl_set_title := xl_set_title Demo.libs;
  xl_coordinate := xl_coordinate Demo.libs;
  xl_check_value := xl_check_value Demo.libs;
  xl_range := xl_range Demo.libs;
  xl_iter_rows := xl_iter_rows Demo.libs;
  xl_dimensions := xl_dimensions Demo.libs;
  xl_max_row := xl_max_row Demo.libs;
  xl_max_column := xl_max_column Demo.libs;
  xl_cell_name := xl_cell_name Demo.libs;
  xl_import_utils := xl_import_utils Demo.libs;
  xl_coordinate_from_string := xl_coordinate_from_string Demo.libs;
  xl_column_index_from_string := xl_column_index_from_string Demo.libs;
  docx_new := docx_new Demo.libs;
  docx_open := docx_open Demo.libs;
  docx_save := docx_save Demo.libs;
  docx_add_heading := docx_add_heading Demo.libs;
  docx_add_paragraph := docx_add_paragraph Demo.libs;
  docx_add_table := docx_add_table Demo.libs;
  docx_add_page_break := docx_add_page_break Demo.libs;
  pptx_new := pptx_new Demo.libs;
  pptx_open := fun _ _ => Return deck;
  pptx_save := fun _ _ w => (Return tt, w);
  pptx_slide_layout := pptx_slide_layout Demo.libs;
  pptx_add_slide := pptx_add_slide Demo.libs;
  pptx_set_title_text := pptx_set_title_text Demo.libs;
  pptx_placeholder_count := pptx_placeholder_count Demo.libs;
  pptx_set_placeholder_text := pptx_set_placeholder_text Demo.libs;
  pptx_clear_text_frame := pptx_clear_text_frame Demo.libs;
  pptx_add_bullet := pptx_add_bullet Demo.libs;
  pptx_slide_count := pptx_slide_count Demo.libs;
  pptx_get_slide := pptx_get_slide Demo.libs;
  pptx_add_textbox := pptx_add_textbox Demo.libs;
  pptx_shape_texts := pptx_shape_texts Demo.libs;
  pdf_open := pdf_open Demo.libs;
  pdf_extract_text := pdf_extract_text Demo.libs;
  pdf_write := pdf_write Demo.libs;
  pdf_merger_append := pdf_merger_append Demo.libs;
  pdf_merger_write := pdf_merger_write Demo.libs;
  pdf_rotate := pdf_rotate Demo.libs;
  rl_letter := rl_letter Demo.libs;
  rl_canvas := rl_canvas Demo.libs;
  rl_show_page := rl_show_page Demo.libs;
  rl_draw_string := rl_draw_string Demo.libs;
  rl_save := rl_save Demo.libs;
  pd_read_csv := pd_read_csv Demo.libs;
  df_columns := df_columns Demo.libs;
  df_len := df_len Demo.libs;
  df_head := df_head Demo.libs;
  df_to_string := df_to_string Demo.libs;
  df_dtypes_to_string := df_dtypes_to_string Demo.libs;
  df_filter_str_eq := df_filter_str_eq Demo.libs;
  df_to_csv := df_to_csv Demo.libs;
  df_sort_values := df_sort_values Demo.libs;
  df_describe_to_string := df_describe_to_string Demo.libs;
  pd_concat := pd_concat Demo.libs;
  df_select := df_select Demo.libs;
  df_to_json := df_to_json Demo.libs;
  requests_get := requests_get Demo.libs;
  requests_post := requests_post Demo.libs;
  resp_raise_for_status := resp_raise_for_status Demo.libs;
  resp_text := resp_text Demo.libs;
  resp_iter_content := resp_iter_content Demo.libs;
  bs4_parse := bs4_parse Demo.libs;
  soup_decompose := soup_decompose Demo.libs;
  soup_get_text := soup_get_text Demo.libs;
  soup_links := soup_links Demo.libs;
  soup_images := soup_images Demo.libs;
  soup_find_all_text := soup_find_all_text Demo.libs
|}.

(* ===================================================================== *)
(** ** The properties *)
(* ===================================================================== *)


(** The library a tool function wraps is not installed: the guard at the
    top of the function sees its module constant false.  The functions of
    FileIOTools and ShellTool use the standard library only. *)
Definition missing (L : Libs) (c : tool_call (pyfloat L)) : bool :=
  match c with
  | Ensure_dir _ _ | Write_file _ _ _ | Append_file _ _ _ | Read_file _ _ _
  | Run_shell _ _ _ _ => false
  | Create_workbook _ _ _ | List_sheets _ _ | Read_sheet _ _ _ _ _
  | Write_cell _ _ _ _ _ | Write_rows _ _ _ _ _ | Add_sheet _ _ _
  | Delete_sheet _ _ _ | Get_workbook_info _ _ | Read_cell _ _ _ _
  | Clear_range _ _ _ _ | Search_value _ _ _ _ _ => negb (OPENPYXL_AVAILABLE L)
  | Create_word_document _ _ | Add_heading _ _ _ _ | Add_paragraph _ _ _
  | Add_table _ _ _ _ | Set_table_cell _ _ _ _ _ _ | Add_page_break _ _
  | Read_word_document _ _ | Add_bullet_list _ _ _ => negb (DOCX_AVAILABLE L)
  | Create_presentation _ _ | Add_title_slide _ _ _ _ | Add_content_slide _ _ _ _
  | Add_blank_slide _ _ | Add_text_box _ _ _ _ _ _ _ _ | Get_slide_count _ _
  | Read_slide_text _ _ _ => negb (PPTX_AVAILABLE L)
  | Create_pdf _ _ _ => negb (REPORTLAB_AVAILABLE L)
  | Extract_pdf_text _ _ | Merge_pdfs _ _ _ | Split_pdf _ _ _ | Get_pdf_info _ _
  | Extract_pdf_page _ _ _ _ | Rotate_pdf_pages _ _ _ _ => negb (PYPDF2_AVAILABLE L)
  | Read_csv _ _ _ | Get_csv_info _ _ | Filter_csv _ _ _ _ _ | Sort_csv _ _ _ _ _
  | Get_column_stats _ _ _ | Merge_csv_files _ _ _ | Select_csv_columns _ _ _ _
  | Convert_csv_to_json _ _ _ => negb (PANDAS_AVAILABLE L)
  | Fetch_webpage _ _ | Download_file _ _ _ | Make_get_request _ _ _
  | Make_post_request _ _ _ => negb (REQUESTS_AVAILABLE L)
  | Extract_text_from_url _ _ | Extract_links _ _ | Extract_images _ _
  | Find_elements_by_tag _ _ _ =>
      negb (REQUESTS_AVAILABLE L) || negb (BS4_AVAILABLE L)
  end.

(** The message of the guard of a function whose library is missing. *)
Definition not_installed {F} (c : tool_call F) : string :=
  match c with
  | Ensure_dir _ _ | Write_file _ _ _ | Append_file _ _ _ | Read_file _ _ _
  | Run_shell _ _ _ _ => EmptyString
  | Create_workbook _ _ _ | List_sheets _ _ | Read_sheet _ _ _ _ _
  | Write_cell _ _ _ _ _ | Write_rows _ _ _ _ _ | Add_sheet _ _ _
  | Delete_sheet _ _ _ | Get_workbook_info _ _ | Read_cell _ _ _ _
  | Clear_range _ _ _ _ | Search_value _ _ _ _ _ =>
      Json.dumps
        (JObj [("error",
                JStr "openpyxl is not installed. Run: pip install openpyxl")])
  | Create_word_document _ _ | Add_heading _ _ _ _ | Add_paragraph _ _ _
  | Add_table _ _ _ _ | Set_table_cell _ _ _ _ _ _ | Add_page_break _ _
  | Read_word_document _ _ | Add_bullet_list _ _ _ =>
      "Error: python-docx is not installed"
  | Create_presentation _ _ | Add_title_slide _ _ _ _ | Add_content_slide _ _ _ _
  | Add_blank_slide _ _ | Add_text_box _ _ _ _ _ _ _ _ | Get_slide_count _ _
  | Read_slide_text _ _ _ => "Error: python-pptx is not installed"
  | Create_pdf _ _ _ => "Error: reportlab is not installed"
  | Extract_pdf_text _ _ | Merge_pdfs _ _ _ | Split_pdf _ _ _ | Get_pdf_info _ _
  | Extract_pdf_page _ _ _ _ | Rotate_pdf_pages _ _ _ _ =>
      "Error: PyPDF2 is not installed"
  | Read_csv _ _ _ | Get_csv_info _ _ | Filter_csv _ _ _ _ _ | Sort_csv _ _ _ _ _
  | Get_column_stats _ _ _ | Merge_csv_files _ _ _ | Select_csv_columns _ _ _ _
  | Convert_csv_to_json _ _ _ => "Error: pandas is not installed"
  | Fetch_webpage _ _ | Download_file _ _ _ | Make_get_request _ _ _
  | Make_post_request _ _ _ => "Error: requests is not installed"
  | Extract_text_from_url _ _ | Extract_links _ _ | Extract_images _ _
  | Find_elements_by_tag _ _ _ => "Error: requests and beautifulsoup4 are required"
  end.





(** The position a negative index [i] denotes in [l]: [len(l) + i]. *)
Definition from_end {A} (l : list A) (i : Z) : nat :=
  Z.to_nat (Z.of_nat (length l) + i).

(** The calls [acc = f(acc, x)] of a loop over [l], one after the other;
    the first that raises ends them. *)
Fixpoint fold_calls {A B} (f : B -> A -> outcome B) (l : list A) (acc : B)
  : outcome B :=
  match l with
  | [] => Return acc
  | x :: rest =>
      match f acc x with
      | Return acc' => fold_calls f rest acc'
      | Raise e => Raise e
      end
  end.

(** Two workbooks have the same sheets: the same titles in the same order
    and the same active sheet. *)
Definition same_sheets {F} (wb wb' : workbook F) : Prop :=
  Xl.sheetnames wb' = Xl.sheetnames wb /\ active_index wb' = active_index wb.

(** The position an index [i] in [-len(l), len(l)) denotes in [l]. *)
Definition position {A} (l : list A) (i : Z) : nat :=
  if i <? 0 then from_end l i else Z.to_nat i.

(** [str] of the IndexError of [l[i]] for [i] outside [-len(l), len(l)),
    [l] a sequence of the given kind. *)
Definition index_error_text (kind : string) (i : Z) : string :=
  if fits_ssize i then kind ++ " index out of range" else cannot_fit.

(** The value [write_cell] stores for the string it is given, in the
    words of the claim: the float when the string has a dot and parses as
    a float, the int when it has no dot and parses as an int, the string
    itself otherwise. *)
Definition converted (L : Libs) (text : string) : value (pyfloat L) :=
  if PyStr.contains "." text then
    match float_of_str L text with
    | Some f => VFloat f
    | None => VStr text
    end
  else
    match int_of_str L text with
    | Some n => VInt n
    | None => VStr text
    end.



(** [d.get(k)] on a dictionary kept in insertion order. *)
Fixpoint dict_get (k : string) (d : list (string * string)) : option string :=
  match d with
  | [] => None
  | (k', v) :: rest => if String.eqb k' k then Some v else dict_get k rest
  end.

(** The number of times a character occurs in a string. *)
Fixpoint occurrences (c : ascii) (s : string) : nat :=
  match s with
  | EmptyString => O
  | String d r => (if Ascii.eqb d c then 1 else 0) + occurrences c r
  end.

(** The text of the cell at row [r], column [c] of table [t], if there is
    one. *)
Definition cell_text (doc : document) (t r c : nat) : option string :=
  match doc_tables doc !! t with
  | Some tb =>
      match tbl_rows tb !! r with
      | Some cells => cells !! c
      | None => None
      end
  | None => None
  end.

(** One step of the loop of [parse_pairs]: the dictionary after a pair. *)
Definition add_pair (d : list (string * string)) (pair : string)
  : list (string * string) :=
  match WebTools.split_once "=" pair with
  | Some (key, value) => WebTools.dict_set (PyStr.strip key) (PyStr.strip value) d
  | None => d
  end.

(* ===================================================================== *)
(** ** Facts about the monad *)
(* ===================================================================== *)

Section MonadFacts.
Context {W : Type}.
Implicit Types (s : state W) (e : exn).


(** Inversion of a bind that returned. *)
Lemma bind_returned {A B} (m : Py.t W A) (k : A -> Py.t W B) s b s2 :
  Py.bind m k s = (Return b, s2) ->
  exists a s1, m s = (Return a, s1) /\ k a s1 = (Return b, s2).
Proof.
  unfold Py.bind. destruct (m s) as [[a|e] s1]; intros H.
  - eauto.
  - discriminate.
Qed.











End MonadFacts.

(* ===================================================================== *)
(** ** Every tool function at once *)
(* ===================================================================== *)

Ltac head_of t :=
  lazymatch t with
  | ?f _ => head_of f
  | _ => t
  end.











(* ===================================================================== *)
(** ** run_shell and its deny list *)
(* ===================================================================== *)

Lemma str_or_empty (x : string) : str_or x EmptyString = x.
Proof. unfold str_or. destruct (String.eqb_spec x EmptyString); congruence. Qed.





(* ===================================================================== *)
(** ** read_file, filter_csv and sort_csv, extract_pdf_page *)
(* ===================================================================== *)








(** C6. When pandas is there and reads the file, and [column] is not one
    of the frame's columns, [filter_csv] and [sort_csv] return the message
    that names the column, and the world is as it was: nothing is written
    to [output_path]. *)
Theorem missing_column_is_reported
        (L : Libs) (file_path column value output_path : string)
        (ascending : bool) (df : DataFrame L) (s : state (World L)) :
  PANDAS_AVAILABLE L = true ->
  pd_read_csv L (world s) file_path = Return df ->
  column ∉ df_columns L df ->
  invoke L (Filter_csv _ file_path column value output_path) s
  = (Return ("Error: Column '" ++ column ++ "' not found in CSV"), s)
  /\ invoke L (Sort_csv _ file_path column output_path ascending) s
     = (Return ("Error: Column '" ++ column ++ "' not found in CSV"), s).
Proof.
  intros Hav Hread Hcol.
  assert (Hhas : CSVTools.has_column L df column = false)
    by (unfold CSVTools.has_column; now apply bool_decide_eq_false).
  unfold invoke, callee, CSVTools.filter_csv, CSVTools.sort_csv,
    CSVTools.guarded, CSVTools.read.
  rewrite Hav. simpl negb. cbv iota.
  unfold run, Py.try_except, Py.bind, Py.ask, Py.ret.
  rewrite Hread, Hhas. split; reflexivity.
Qed.

(** Witness of [missing_column_is_reported]. *)
Lemma missing_column_is_reported_witness :
  let w : Demo.fs := {[ "t.csv" := Demo.Csv ["name"; "age"] [["ann"; "31"]] ]} in
  PANDAS_AVAILABLE Demo.libs = true
  /\ pd_read_csv Demo.libs w "t.csv" = Return (["name"; "age"], [["ann"; "31"]])
  /\ ("city" ∉ ["name"; "age"])
  /\ invoke Demo.libs (Filter_csv _ "t.csv" "city" "x" "out.csv") (Demo.start w)
     = (Return "Error: Column 'city' not found in CSV", Demo.start w).
Proof.
  intros w.
  assert (Hc : "city" ∉ ["name"; "age"]).
  { intros H. apply list_elem_of_In in H. simpl in H.
    destruct H as [H|[H|[]]]; discriminate H. }
  split; [reflexivity|]. split; [reflexivity|]. split; [exact Hc|].
  exact (proj1 (missing_column_is_reported Demo.libs "t.csv" "city" "x" "out.csv"
                  true (["name"; "age"], [["ann"; "31"]]) (Demo.start w)
                  eq_refl eq_refl Hc)).
Defined.





(* ===================================================================== *)
(** ** set_table_cell and negative indices *)
(* ===================================================================== *)

Lemma py_locate_outside {A} (kind : string) (l : list A) (i : Z) :
  i < - Z.of_nat (length l) \/ Z.of_nat (length l) <= i ->
  py_locate kind l i = Raise (Exn IndexError (index_error_text kind i)).
Proof.
  intros Hi. unfold py_locate, py_index, py_position, index_error_text,
    index_error.
  destruct (Z.leb_spec 0 i); destruct (Z.ltb_spec i (Z.of_nat (length l)));
    destruct (Z.ltb_spec i 0);
    destruct (Z.leb_spec 0 (Z.of_nat (length l) + i)); try lia; simpl;
    destruct (fits_ssize i); reflexivity.
Qed.

Lemma py_locate_inside {A} (kind : string) (l : list A) (i : Z) :
  - Z.of_nat (length l) <= i < Z.of_nat (length l) ->
  exists x,
    l !! position l i = Some x
    /\ py_locate kind l i = Return (position l i, x).
Proof.
  intros Hi. unfold position, from_end, py_locate, py_index, py_position.
  destruct (Z.ltb_spec i 0).
  - destruct (Z.leb_spec 0 i); [lia|]. simpl.
    destruct (Z.leb_spec 0 (Z.of_nat (length l) + i)); [|lia].
    destruct (l !! Z.to_nat (Z.of_nat (length l) + i)) as [x|] eqn:E.
    + exists x. split; reflexivity.
    + apply lookup_ge_None in E. lia.
  - destruct (Z.leb_spec 0 i); [|lia].
    destruct (Z.ltb_spec i (Z.of_nat (length l))); [|lia]. simpl.
    destruct (l !! Z.to_nat i) as [x|] eqn:E.
    + exists x. split; reflexivity.
    + apply lookup_ge_None in E. lia.
Qed.

Lemma bound_passes (n : nat) (i : Z) :
  i < Z.of_nat n -> (Z.of_nat n <=? i) = false.
Proof. intros. apply Z.leb_gt. lia. Qed.

(** C9, as stated, fails: row -5 of a table of two rows passes the
    validation, but the function does not succeed: indexing raises
    IndexError and the handler returns its message. *)
Lemma set_table_cell_far_negative_counterexample :
  let doc := Document [] [Table [["a"; "b"]; ["c"; "d"]] 2] in
  let w : Demo.fs := {[ "/d" := Demo.Dir; "/d/r.docx" := Demo.Docx doc ]} in
  invoke Demo.libs (Set_table_cell _ "/d/r.docx" 0 (-5) 0 "x") (Demo.start w)
  = (Return "Error setting table cell: list index out of range", Demo.start w)
  /\ fst (invoke Demo.libs (Set_table_cell _ "/d/r.docx" 0 (-5) 0 "x") (Demo.start w))
     <> Return "Cell (-5, 0) updated successfully in table 0".
Proof.
  intros doc w. split.
  - vm_compute. reflexivity.
  - vm_compute. discriminate.
Qed.

(** C9 (amended). With python-docx there and the document open, the
    validation of [set_table_cell] compares [table_index], [row] and
    [col] with their upper bounds only, so every negative index passes
    it, whatever the sign of the other two.  An index that passed and is
    not below minus the length of the sequence it indexes selects the
    table, the row or the cell: counted from the start when it is not
    negative, from the end when it is; when all three select and the
    document is then saved the function returns the success message.  An
    index below minus the length makes the indexing raise IndexError, and
    the function returns "Error setting table cell: " followed by the text
    of the IndexError and changes nothing: "list index out of range" for
    tables and rows and "tuple index out of range" for cells, and for an
    index that does not fit [Py_ssize_t] (below -2^63) "cannot fit 'int'
    into an index-sized integer". *)
Theorem set_table_cell_negative
        (L : Libs) (file_path : string) (table_index row col : Z) (text : string)
        (doc : document) (s : state (World L)) :
  DOCX_AVAILABLE L = true ->
  docx_open L (world s) file_path = Return doc ->
  table_index < Z.of_nat (length (doc_tables doc)) ->
  let call := invoke L (Set_table_cell _ file_path table_index row col text) s in
  let failed (kind : string) (i : Z) :=
    (Return ("Error setting table cell: " ++ index_error_text kind i), s) in
  let t := position (doc_tables doc) table_index in
  (table_index < - Z.of_nat (length (doc_tables doc)) ->
   call = failed "list" table_index)
  /\ (- Z.of_nat (length (doc_tables doc)) <= table_index ->
      exists table,
        doc_tables doc !! t = Some table
        /\ (row < Z.of_nat (length (tbl_rows table)) ->
            col < Z.of_nat (tbl_columns table) ->
            let r := position (tbl_rows table) row in
            (row < - Z.of_nat (length (tbl_rows table)) -> call = failed "list" row)
            /\ (- Z.of_nat (length (tbl_rows table)) <= row ->
                exists cells,
                  tbl_rows table !! r = Some cells
                  /\ let c := position cells col in
                     (col < - Z.of_nat (length cells)
                      \/ Z.of_nat (length cells) <= col ->
                      call = failed "tuple" col)
                     /\ (- Z.of_nat (length cells) <= col
                         < Z.of_nat (length cells) ->
                         forall w',
                           docx_save L (WordTools.set_cell_text doc t r c text)
                                     file_path (world s) = (Return tt, w') ->
                           call =
                           (Return ("Cell " ++ WordTools.pos_str row col
                                    ++ " updated successfully in table "
                                    ++ PyStr.of_Z table_index),
                            State (self_attrs s) w'))))).
Proof.
  intros Hav Hopen Ht call failed t.
  assert (Hcall : call =
                  Py.try_except
                    (WordTools.set_table_cell_body L file_path table_index row col text)
                    Py.any_exception
                    (fun e => Py.ret ("Error setting table cell: " ++ exn_text e)) s).
  { unfold call, invoke, callee, WordTools.set_table_cell, WordTools.guarded.
    rewrite Hav. reflexivity. }
  clearbody call. subst call. subst failed.
  pose proof (bound_passes (length (doc_tables doc)) _ Ht) as Bt.
  split.
  - intros Hlow.
    unfold Py.try_except, WordTools.set_table_cell_body, Py.bind, Py.ask, Py.call.
    rewrite Hopen, Bt, (py_locate_outside "list" (doc_tables doc) table_index)
      by now left.
    reflexivity.
  - intros Hin.
    destruct (py_locate_inside "list" (doc_tables doc) table_index)
      as (table & Hlk & Hloc); [lia|].
    exists table. split; [exact Hlk|].
    intros Hr Hc r.
    pose proof (bound_passes (length (tbl_rows table)) _ Hr) as Br.
    pose proof (bound_passes (tbl_columns table) _ Hc) as Bc.
    split.
    + intros Hlow.
      unfold Py.try_except, WordTools.set_table_cell_body, Py.bind, Py.ask, Py.call.
      rewrite Hopen, Bt, Hloc, Br, Bc,
        (py_locate_outside "list" (tbl_rows table) row) by now left.
      reflexivity.
    + intros Hin2.
      destruct (py_locate_inside "list" (tbl_rows table) row)
        as (cells & Hlk2 & Hloc2); [lia|].
      exists cells. split; [exact Hlk2|]. split.
      * intros Hout.
        unfold Py.try_except, WordTools.set_table_cell_body, Py.bind, Py.ask, Py.call.
        rewrite Hopen, Bt, Hloc, Br, Bc, Hloc2,
          (py_locate_outside "tuple" cells col) by exact Hout.
        reflexivity.
      * intros Hin3 w' Hsave.
        destruct (py_locate_inside "tuple" cells col Hin3) as (x & Hlk3 & Hloc3).
        unfold Py.try_except, WordTools.set_table_cell_body, Py.bind, Py.ask,
          Py.call, Py.act, Py.ret.
        rewrite Hopen, Bt, Hloc, Br, Bc, Hloc2, Hloc3. cbn [orb world].
        cbv beta iota. fold t. fold r. rewrite Hsave. reflexivity.
Qed.

(** Witness of [set_table_cell_negative]: the first table, its last row
    by -1 and the second cell by 1. *)
Lemma set_table_cell_negative_witness :
  let doc := Document [] [Table [["a"; "b"]; ["c"; "d"]] 2] in
  let doc' := Document [] [Table [["a"; "b"]; ["c"; "x"]] 2] in
  let w : Demo.fs := {[ "/d" := Demo.Dir; "/d/r.docx" := Demo.Docx doc ]} in
  DOCX_AVAILABLE Demo.libs = true
  /\ docx_open Demo.libs w "/d/r.docx" = Return doc
  /\ 0 < Z.of_nat (length (doc_tables doc))
  /\ invoke Demo.libs (Set_table_cell _ "/d/r.docx" 0 (-1) 1 "x") (Demo.start w)
     = (Return "Cell (-1, 1) updated successfully in table 0",
        Demo.start (<["/d/r.docx" := Demo.Docx doc']> w)).
Proof.
  intros doc doc' w.
  split; [reflexivity|]. split; [reflexivity|]. split; [simpl; lia|].
  pose proof (set_table_cell_negative Demo.libs "/d/r.docx" 0 (-1) 1 "x"
                doc (Demo.start w) eq_refl eq_refl
                ltac:(simpl; lia)) as [_ H].
  destruct H as (table & Htable & H); [simpl; lia|].
  simpl in Htable. injection Htable as <-.
  destruct H as [_ H]; [simpl; lia | simpl; lia |].
  destruct H as (cells & Hcells & _ & H); [simpl; lia|].
  simpl in Hcells. injection Hcells as <-.
  apply H; [simpl; lia|]. vm_compute. reflexivity.
Defined.

(* ===================================================================== *)
(** ** write_cell and read_cell *)
(* ===================================================================== *)

Section WorkbookFacts.
Context {F : Type}.
Implicit Types (wb : workbook F) (l : list (worksheet F)).

Lemma find_title_lookup name l i :
  Xl.find_title name l = Some i ->
  exists ws, l !! i = Some ws /\ title ws = name.
Proof.
  revert i. induction l as [|ws rest IH]; intros i; simpl; [discriminate|].
  destruct (String.eqb_spec (title ws) name) as [E|E].
  - intros [= <-]. exists ws. split; [reflexivity|exact E].
  - destruct (Xl.find_title name rest) as [k|] eqn:Ek; simpl; [|discriminate].
    intros [= <-]. destruct (IH k eq_refl) as (ws' & H1 & H2).
    exists ws'. split; assumption.
Qed.

Lemma find_title_elem name l i :
  Xl.find_title name l = Some i -> name ∈ map title l.
Proof.
  intros H. destruct (find_title_lookup _ _ _ H) as (ws & Hlk & <-).
  apply list_elem_of_fmap. exists ws. split; [reflexivity|].
  eapply list_elem_of_lookup_2. exact Hlk.
Qed.

Lemma find_title_retitled name l i (f : worksheet F -> worksheet F) :
  (forall ws, title (f ws) = title ws) ->
  Xl.find_title name (alter f i l) = Xl.find_title name l.
Proof.
  intros Hf. revert i. induction l as [|ws rest IH]; intros [|i]; simpl;
    try reflexivity.
  - rewrite Hf. reflexivity.
  - destruct (String.eqb (title ws) name); [reflexivity|].
    f_equal. apply IH.
Qed.

Lemma titles_retitled l i (f : worksheet F -> worksheet F) :
  (forall ws, title (f ws) = title ws) ->
  map title (alter f i l) = map title l.
Proof.
  intros Hf. revert i. induction l as [|ws rest IH]; intros [|i]; simpl;
    try reflexivity.
  - now rewrite Hf.
  - f_equal. apply IH.
Qed.

Lemma sheetnames_set_value wb i rc v :
  Xl.sheetnames (Xl.set_value wb i rc v) = Xl.sheetnames wb.
Proof. unfold Xl.sheetnames, Xl.set_value. simpl. now apply titles_retitled. Qed.

Lemma getitem_set_value wb i rc v name :
  Xl.getitem (Xl.set_value wb i rc v) name = Xl.getitem wb name.
Proof.
  unfold Xl.getitem, Xl.set_value. simpl.
  now rewrite find_title_retitled.
Qed.

Lemma active_set_value wb i rc v :
  Xl.active (Xl.set_value wb i rc v) = Xl.active wb.
Proof.
  unfold Xl.active, Xl.set_value. simpl.
  destruct (decide (i = active_index wb)) as [->|Hne].
  - rewrite list_lookup_alter_eq.
    destruct (worksheets wb !! active_index wb); reflexivity.
  - rewrite list_lookup_alter_ne by congruence. reflexivity.
Qed.

(** Reading back the cell just set. *)
Lemma get_set_value wb i rc v :
  is_Some (worksheets wb !! i) ->
  Xl.get_value (Xl.set_value wb i rc v) i rc = v.
Proof.
  intros [ws Hws]. unfold Xl.get_value, Xl.sheet_at, Xl.set_value. simpl.
  rewrite list_lookup_alter_eq, Hws. simpl.
  rewrite lookup_insert_eq. reflexivity.
Qed.

End WorkbookFacts.

Section WriteCellFacts.
Context (L : Libs).
Abbreviation F := (pyfloat L).
Implicit Types (s : state (World L)) (wb : workbook F).

(** The inner [try] of [write_cell] computes [converted]. *)
Lemma to_number_converted (text : string) s :
  ExcelTools.to_number L text s = (Return (converted L text), s).
Proof.
  unfold ExcelTools.to_number, converted, Py.try_except, Py.bind, Py.call,
    Py.ret, ExcelTools.py_float, ExcelTools.py_int.
  destruct (PyStr.contains "." text).
  - destruct (float_of_str L text); reflexivity.
  - destruct (int_of_str L text); reflexivity.
Qed.

Lemma load_or_new_state path s wb s' :
  ExcelTools.load_or_new L path s = (Return wb, s') -> s' = s.
Proof.
  unfold ExcelTools.load_or_new, Py.ask, Py.ret.
  destruct (os_path_exists L (world s) path); now intros [= _ <-].
Qed.

Lemma getitem_returned wb name ws :
  Xl.getitem wb name = Return ws ->
  exists i, ws = Some i /\ Xl.find_title name (worksheets wb) = Some i.
Proof.
  unfold Xl.getitem. destruct (Xl.find_title name (worksheets wb)) as [i|];
    [|discriminate].
  intros [= <-]. exists i. split; reflexivity.
Qed.

Lemma sheet_for_writing_returned wb sheet_name s wb1 ws s' :
  ExcelTools.sheet_for_writing L wb sheet_name s = (Return (wb1, ws), s') ->
  s' = s
  /\ if truthy sheet_name
     then Xl.getitem wb1 (default EmptyString sheet_name) = Return ws
     else ws = Xl.active wb1.
Proof.
  unfold ExcelTools.sheet_for_writing.
  destruct (truthy sheet_name).
  - intros H. apply bind_returned in H as (wb' & s1 & H1 & H2).
    apply bind_returned in H2 as (ws' & s2 & H2 & H3).
    unfold Py.ret in H3. injection H3 as E1 E2 E3.
    unfold Py.call in H2. injection H2 as H2 E4.
    assert (E5 : s1 = s).
    { destruct (negb _); unfold Py.call, Py.ret in H1; now injection H1. }
    subst. split; [reflexivity|exact H2].
  - unfold Py.ret. intros [= <- <- <-]. split; reflexivity.
Qed.

Lemma setitem_returned wb ws cell v wb2 :
  ExcelTools.setitem L wb ws cell v = Return wb2 ->
  exists i rc,
    ws = Some i /\ xl_coordinate L cell = Return rc
    /\ wb2 = Xl.set_value wb i rc v.
Proof.
  unfold ExcelTools.setitem, Xl.deref. destruct ws as [i|]; [|discriminate].
  destruct (xl_coordinate L cell) as [rc|]; [|discriminate].
  destruct (xl_check_value L v); [|discriminate].
  intros [= <-]. exists i, rc. repeat split.
Qed.

(** What is known when the body of [write_cell] has returned. *)
Lemma write_cell_body_returned path cell text sheet_name s r s1 :
  ExcelTools.write_cell_body L path cell text sheet_name s = (Return r, s1) ->
  exists sa wb1 i rc,
    xl_coordinate L cell = Return rc
    /\ is_Some (worksheets wb1 !! i)
    /\ (if truthy sheet_name
        then Xl.getitem wb1 (default EmptyString sheet_name) = Return (Some i)
        else Xl.active wb1 = Some i)
    /\ let wb2 := Xl.set_value wb1 i rc (converted L text) in
       xl_save L wb2 path (world sa) = (Return tt, world s1)
       /\ r = Json.dumps
                (JObj [("status", JStr "ok");
                       ("path", JStr (os_path_abspath L (world s1) path));
                       ("sheet", JStr (title (Xl.sheet_at wb2 i)));
                       ("cell", JStr cell);
                       ("value", JStr (ExcelTools.str_of_value L (converted L text)))]).
Proof.
  unfold ExcelTools.write_cell_body. intros H.
  apply bind_returned in H as ([] & sa & _ & H).
  apply bind_returned in H as (wb & sb & Hload & H).
  apply load_or_new_state in Hload as ->.
  apply bind_returned in H as ([wb1 ws] & sc & Hsel & H).
  apply sheet_for_writing_returned in Hsel as [-> Hws].
  apply bind_returned in H as (v & sd & Hv & H).
  rewrite to_number_converted in Hv. injection Hv as <- <-.
  apply bind_returned in H as (wb2 & se & Hset & H).
  unfold Py.call in Hset. injection Hset as Hset <-.
  apply setitem_returned in Hset as (i & rc & -> & Hrc & ->).
  apply bind_returned in H as ([] & sf & Hsave & H).
  unfold Py.act in Hsave.
  destruct (xl_save L _ path (world sa)) as [o w'] eqn:Esave.
  injection Hsave as -> <-.
  apply bind_returned in H as (p & sg & Hp & H).
  unfold ExcelTools.abspath, Py.ask in Hp. injection Hp as <- <-.
  apply bind_returned in H as (t & sh & Ht & H).
  unfold Py.call, Xl.title_of in Ht. injection Ht as <- <-.
  unfold Py.ret in H. injection H as <- <-.
  exists sa, wb1, i, rc. simpl world.
  assert (Hsome : is_Some (worksheets wb1 !! i)).
  { destruct (truthy sheet_name).
    - apply getitem_returned in Hws as (k & [= <-] & Hk).
      destruct (find_title_lookup _ _ _ Hk) as (x & Hx & _). now exists x.
    - unfold Xl.active in Hws.
      destruct (worksheets wb1 !! active_index wb1) as [x|] eqn:E;
        [|discriminate].
      injection Hws as ->. now exists x. }
  split; [exact Hrc|]. split; [exact Hsome|]. split.
  - destruct (truthy sheet_name); [exact Hws | now symmetry].
  - split; [exact Esave | reflexivity].
Qed.

End WriteCellFacts.

Lemma write_cell_runs_body
      (L : Libs) (path cell text : string) (sheet_name : option string)
      (s : state (World L)) r s1 :
  OPENPYXL_AVAILABLE L = true ->
  ExcelTools.write_cell_body L path cell text sheet_name s = (Return r, s1) ->
  invoke L (Write_cell _ path cell text sheet_name) s = (Return r, s1).
Proof.
  intros Hav Hbody.
  unfold invoke, callee, ExcelTools.write_cell, ExcelTools.guarded,
    ExcelTools._check_openpyxl.
  rewrite Hav. simpl negb. cbv iota.
  unfold run, Py.try_except. rewrite Hbody. reflexivity.
Qed.



(** C3, as stated, fails: the string "42" is written, and reading the
    cell back gives the number 42, not the string that was written. *)
Lemma write_then_read_cell_counterexample :
  let written := invoke Demo.libs (Write_cell _ "b.xlsx" "A1" "42" None) (Demo.start ∅) in
  let read := invoke Demo.libs (Read_cell _ "b.xlsx" "A1" None) (snd written) in
  let answer (v : json) :=
    Json.dumps (JObj [("status", JStr "ok"); ("path", JStr "/work/b.xlsx");
                      ("sheet", JStr "Sheet"); ("cell", JStr "A1"); ("value", v)]) in
  fst written = Return (answer (JStr "42"))
  /\ fst read = Return (answer (JInt 42))
  /\ fst read <> Return (answer (JStr "42")).
Proof.
  intros written read answer. split; [|split].
  - vm_compute. reflexivity.
  - vm_compute. reflexivity.
  - vm_compute. discriminate.
Qed.

Lemma find_title_names {F} (name : string) (l l' : list (worksheet F)) :
  map title l' = map title l -> Xl.find_title name l' = Xl.find_title name l.
Proof.
  revert l'. induction l as [|ws rest IH]; intros [|ws' rest'] H;
    try discriminate; [reflexivity|].
  simpl in H. injection H as Ht Hrest. simpl. rewrite Ht.
  destruct (String.eqb (title ws) name); [reflexivity|].
  f_equal. now apply IH.
Qed.

Lemma lookup_same_sheets {F} (wb wb' : workbook F) (i : nat) :
  Xl.sheetnames wb' = Xl.sheetnames wb ->
  title <$> worksheets wb' !! i = title <$> worksheets wb !! i.
Proof.
  unfold Xl.sheetnames. intros H.
  rewrite <- !list_lookup_fmap.
  change (map title (worksheets wb') !! i = map title (worksheets wb) !! i).
  now rewrite H.
Qed.

Lemma active_same_sheets {F} (wb wb' : workbook F) :
  same_sheets wb wb' -> Xl.active wb' = Xl.active wb.
Proof.
  intros [Hnames Hact]. unfold Xl.active. rewrite Hact.
  pose proof (lookup_same_sheets wb wb' (active_index wb) Hnames) as H.
  destruct (worksheets wb' !! active_index wb);
    destruct (worksheets wb !! active_index wb); simpl in H;
    try discriminate; reflexivity.
Qed.

Lemma title_same_sheets {F} (wb wb' : workbook F) (i : nat) :
  same_sheets wb wb' -> title (Xl.sheet_at wb' i) = title (Xl.sheet_at wb i).
Proof.
  intros [Hnames _]. unfold Xl.sheet_at.
  pose proof (lookup_same_sheets wb wb' i Hnames) as H.
  destruct (worksheets wb' !! i); destruct (worksheets wb !! i); simpl in H;
    try discriminate; [now injection H | reflexivity].
Qed.

Lemma existing_sheet_found (L : Libs) (wb : workbook (pyfloat L))
      (sheet_name : option string) (i : nat) (s : state (World L)) :
  (if truthy sheet_name
   then Xl.find_title (default EmptyString sheet_name) (worksheets wb) = Some i
   else Xl.active wb = Some i) ->
  ExcelTools.existing_sheet L wb sheet_name s = (Return (inr (Some i)), s).
Proof.
  intros Hsheet. unfold ExcelTools.existing_sheet.
  destruct (truthy sheet_name).
  - assert (Hin : Xl.has_sheet wb (default EmptyString sheet_name) = true).
    { unfold Xl.has_sheet. apply bool_decide_eq_true.
      eapply find_title_elem. exact Hsheet. }
    cbv zeta. rewrite Hin. simpl negb. cbv iota.
    unfold Py.bind, Py.call, Py.ret, Xl.getitem. rewrite Hsheet. reflexivity.
  - unfold Py.ret. rewrite Hsheet. reflexivity.
Qed.

(** C3 (amended). When openpyxl is there and the body of [write_cell]
    has returned, a workbook was saved to the path that holds, at the
    cell, the value the written string converts to: the int it parses as
    when it has no dot, the float it parses as when it has one, the
    string itself when that parse fails.  When loading the path then
    gives a workbook with the same sheets that holds at that cell the
    value that was saved, [read_cell] on the same path, sheet and cell
    returns the object with status "ok" whose "value" is that converted
    value. *)
Theorem write_then_read_cell
        (L : Libs) (path cell text : string) (sheet_name : option string)
        (s : state (World L)) (r : string) (s1 : state (World L)) :
  OPENPYXL_AVAILABLE L = true ->
  ExcelTools.write_cell_body L path cell text sheet_name s = (Return r, s1) ->
  invoke L (Write_cell _ path cell text sheet_name) s = (Return r, s1)
  /\ exists (saved : workbook (pyfloat L)) (i : nat) (rc : Z * Z)
            (w0 : World L) (j : json),
      xl_coordinate L cell = Return rc
      /\ xl_save L saved path w0 = (Return tt, world s1)
      /\ Xl.get_value saved i rc = converted L text
      /\ ExcelTools.to_json L (converted L text) = Return j
      /\ forall loaded : workbook (pyfloat L),
          xl_load_workbook L path true true (world s1) = Return loaded ->
          same_sheets saved loaded ->
          Xl.get_value loaded i rc = Xl.get_value saved i rc ->
          invoke L (Read_cell _ path cell sheet_name) s1
          = (Return (Json.dumps
                       (JObj [("status", JStr "ok");
                              ("path", JStr (os_path_abspath L (world s1) path));
                              ("sheet", JStr (title (Xl.sheet_at saved i)));
                              ("cell", JStr cell); ("value", j)])),
             s1).
Proof.
  intros Hav Hbody. split; [now apply write_cell_runs_body|].
  destruct (write_cell_body_returned L _ _ _ _ _ _ _ Hbody)
    as (sa & wb1 & i & rc & Hrc & Hsome & Hws & Hsave & _).
  set (v := converted L text) in *.
  set (wb2 := Xl.set_value wb1 i rc v) in *.
  assert (Hj : exists j, ExcelTools.to_json L v = Return j).
  { unfold v, converted.
    destruct (PyStr.contains "." text);
      [destruct (float_of_str L text) | destruct (int_of_str L text)];
      simpl; eauto. }
  destruct Hj as [j Hj].
  assert (Hstored : Xl.get_value wb2 i rc = v) by now apply get_set_value.
  exists wb2, i, rc, (world sa), j.
  split; [exact Hrc|]. split; [exact Hsave|]. split; [exact Hstored|].
  split; [exact Hj|].
  intros loaded Hload Hsheets Hval.
  assert (Hsel : ExcelTools.existing_sheet L loaded sheet_name s1
                 = (Return (inr (Some i)), s1)).
  { apply existing_sheet_found. destruct (truthy sheet_name).
    - apply getitem_returned in Hws as (k & [= <-] & Hk).
      rewrite (find_title_names _ (worksheets wb2)) by apply Hsheets.
      unfold wb2, Xl.set_value. simpl.
      rewrite find_title_retitled by reflexivity. exact Hk.
    - rewrite (active_same_sheets wb2 loaded Hsheets).
      unfold wb2. rewrite active_set_value. exact Hws. }
  unfold invoke, callee, ExcelTools.read_cell, ExcelTools.guarded,
    ExcelTools._check_openpyxl.
  rewrite Hav. simpl negb. cbv iota.
  unfold run, Py.try_except, ExcelTools.read_cell_body.
  unfold Py.bind at 1. unfold Py.ask at 1. rewrite Hload.
  unfold Py.bind at 1. rewrite Hsel.
  unfold Py.bind, Py.call, Py.ret, ExcelTools.abspath, Py.ask,
    ExcelTools.getitem_value, Xl.deref, Xl.title_of.
  rewrite Hrc, Hval, Hstored, Hj, (title_same_sheets wb2 loaded i Hsheets).
  reflexivity.
Qed.

(** Witness of [write_then_read_cell]: "42" written to A1 of a new
    workbook is stored as the int 42, the file loads back with it, and
    [read_cell] returns the number. *)
Lemma write_then_read_cell_witness :
  let s := Demo.start ∅ in
  let book : workbook string :=
    Workbook [Worksheet "Sheet" {[ (1, 1) := VInt 42 ]}] 0 in
  let s1 := Demo.start {[ "b.xlsx" := Demo.Book book ]} in
  let r := Json.dumps
             (JObj [("status", JStr "ok"); ("path", JStr "/work/b.xlsx");
                    ("sheet", JStr "Sheet"); ("cell", JStr "A1");
                    ("value", JStr "42")]) in
  OPENPYXL_AVAILABLE Demo.libs = true
  /\ ExcelTools.write_cell_body Demo.libs "b.xlsx" "A1" "42" None s = (Return r, s1)
  /\ xl_load_workbook Demo.libs "b.xlsx" true true (world s1) = Return book
  /\ invoke Demo.libs (Read_cell _ "b.xlsx" "A1" None) s1
     = (Return (Json.dumps
                  (JObj [("status", JStr "ok"); ("path", JStr "/work/b.xlsx");
                         ("sheet", JStr "Sheet"); ("cell", JStr "A1");
                         ("value", JInt 42)])),
        s1).
Proof.
  intros s book s1 r.
  assert (Hbody : ExcelTools.write_cell_body Demo.libs "b.xlsx" "A1" "42" None s
                  = (Return r, s1)) by (vm_compute; reflexivity).
  assert (Hload : xl_load_workbook Demo.libs "b.xlsx" true true (world s1)
                  = Return book) by (vm_compute; reflexivity).
  split; [reflexivity|]. split; [exact Hbody|]. split; [exact Hload|].
  destruct (write_then_read_cell Demo.libs "b.xlsx" "A1" "42" None s r s1
              eq_refl Hbody)
    as (_ & saved & i & rc & w0 & j & Hrc & Hsave & Hstored & Hj & Hread).
  assert (Esaved : saved = book).
  { change (Demo.save_workbook saved "b.xlsx" w0
            = (Return tt, {[ "b.xlsx" := Demo.Book book ]})) in Hsave.
    unfold Demo.save_workbook, Demo.put in Hsave.
    destruct (@worksheets string saved); [discriminate Hsave|].
    destruct (Demo.writable w0 "b.xlsx"); [|discriminate Hsave].
    injection Hsave as Hw.
    apply (f_equal (fun m : Demo.fs => m !! "b.xlsx")) in Hw.
    rewrite lookup_insert_eq in Hw. vm_compute in Hw. now injection Hw. }
  subst saved.
  change (Return (1, 1) = Return rc) in Hrc. injection Hrc as <-.
  change (Return (JInt 42) = Return j) in Hj. injection Hj as <-.
  assert (Ei : i = 0%nat).
  { destruct i as [|i]; [reflexivity|]. destruct i; discriminate Hstored. }
  subst i.
  exact (Hread book Hload (conj eq_refl eq_refl) eq_refl).
Defined.

(* ===================================================================== *)
(** ** Facts about strings *)
(* ===================================================================== *)

Section StringFacts.
Implicit Types (s a b p : string) (c : ascii).
Local Arguments String.append !_ _ / : simpl nomatch.

Lemma str_app_nil_r s : s ++ EmptyString = s.
Proof. induction s as [|c r IH]; simpl; congruence. Qed.

Lemma str_app_assoc a b s : (a ++ b) ++ s = a ++ (b ++ s).
Proof. induction a as [|c r IH]; simpl; congruence. Qed.

Lemma rev_onto_app s acc : PyStr.rev_onto s acc = PyStr.rev s ++ acc.
Proof.
  unfold PyStr.rev. revert acc.
  induction s as [|c r IH]; intros acc; simpl; [reflexivity|].
  rewrite (IH (String c acc)), (IH (String c EmptyString)).
  now rewrite str_app_assoc.
Qed.

Lemma rev_cons c s : PyStr.rev (String c s) = PyStr.rev s ++ String c EmptyString.
Proof. unfold PyStr.rev at 1. simpl. apply rev_onto_app. Qed.

Lemma rev_app a b : PyStr.rev (a ++ b) = PyStr.rev b ++ PyStr.rev a.
Proof.
  induction a as [|c r IH]; simpl.
  - now rewrite str_app_nil_r.
  - rewrite !rev_cons, IH. apply str_app_assoc.
Qed.

Lemma rev_involutive s : PyStr.rev (PyStr.rev s) = s.
Proof.
  induction s as [|c r IH]; [reflexivity|].
  rewrite rev_cons, rev_app, IH. reflexivity.
Qed.

Lemma lower_app a b : PyStr.lower (a ++ b) = PyStr.lower a ++ PyStr.lower b.
Proof. induction a as [|c r IH]; simpl; congruence. Qed.

(** Lower-casing neither makes nor removes white space. *)
Lemma isspace_lower_char c : PyStr.isspace (PyStr.lower_char c) = PyStr.isspace c.
Proof. destruct c as [[] [] [] [] [] [] [] []]; reflexivity. Qed.

Lemma lower_lstrip s : PyStr.lower (PyStr.lstrip s) = PyStr.lstrip (PyStr.lower s).
Proof.
  induction s as [|c r IH]; simpl; [reflexivity|].
  rewrite isspace_lower_char. destruct (PyStr.isspace c); [exact IH | reflexivity].
Qed.

Lemma lower_rev s : PyStr.lower (PyStr.rev s) = PyStr.rev (PyStr.lower s).
Proof.
  induction s as [|c r IH]; [reflexivity|].
  simpl PyStr.lower. rewrite !rev_cons, lower_app, IH. reflexivity.
Qed.

Lemma lower_strip s : PyStr.lower (PyStr.strip s) = PyStr.strip (PyStr.lower s).
Proof.
  unfold PyStr.strip, PyStr.rstrip.
  now rewrite lower_rev, lower_lstrip, lower_rev, lower_lstrip.
Qed.

Lemma startswith_spec p s :
  PyStr.startswith p s = true <-> exists b, s = p ++ b.
Proof.
  revert s. induction p as [|c r IH]; intros s; simpl.
  - split; [intros _; now exists s | reflexivity].
  - destruct s as [|d t].
    + split; [discriminate | intros [b H]; discriminate H].
    + rewrite andb_true_iff, IH. split.
      * intros [Hc [b ->]]. apply Ascii.eqb_eq in Hc as ->. now exists b.
      * intros [b [= -> ->]]. split; [apply Ascii.eqb_refl | now exists b].
Qed.

(** [p in s]: the string is some text, the pattern, some text. *)
Lemma contains_spec p s :
  PyStr.contains p s = true <-> exists a b, s = a ++ p ++ b.
Proof.
  induction s as [|d t IH]; simpl; rewrite orb_true_iff, startswith_spec.
  - split.
    + intros [[b H]|H]; [|discriminate]. exists EmptyString, b. exact H.
    + intros (a & b & H). left. destruct a; [now exists b | discriminate H].
  - rewrite IH. split.
    + intros [[b H]|(a & b & ->)].
      * exists EmptyString, b. exact H.
      * exists (String d a), b. reflexivity.
    + intros (a & b & H). destruct a as [|e a'].
      * left. now exists b.
      * right. injection H as -> ->. now exists a', b.
Qed.

(** What [lstrip] removes is in front of what it keeps. *)
Lemma lstrip_suffix s : exists w, s = w ++ PyStr.lstrip s.
Proof.
  induction s as [|c r [w IH]]; simpl.
  - now exists EmptyString.
  - destruct (PyStr.isspace c).
    + exists (String c w). simpl. now rewrite <- IH.
    + now exists EmptyString.
Qed.

Lemma rstrip_prefix s : exists w, s = PyStr.rstrip s ++ w.
Proof.
  unfold PyStr.rstrip. destruct (lstrip_suffix (PyStr.rev s)) as [w H].
  exists (PyStr.rev w).
  rewrite <- rev_app, <- H. symmetry. apply rev_involutive.
Qed.

(** A pattern that starts with a visible character survives [lstrip]. *)
Lemma lstrip_keeps a c p b :
  PyStr.isspace c = false ->
  exists a', PyStr.lstrip (a ++ String c p ++ b) = a' ++ String c p ++ b.
Proof.
  intros Hc. induction a as [|d t [a' IH]]; simpl.
  - rewrite Hc. now exists EmptyString.
  - destruct (PyStr.isspace d).
    + now exists a'.
    + now exists (String d t).
Qed.

(** A pattern that ends with a visible character survives [rstrip]. *)
Lemma rstrip_keeps a p c q b :
  PyStr.rev p = String c q -> PyStr.isspace c = false ->
  exists b', PyStr.rstrip (a ++ p ++ b) = a ++ p ++ b'.
Proof.
  intros Hp Hc. unfold PyStr.rstrip.
  rewrite !rev_app, Hp, str_app_assoc.
  destruct (lstrip_keeps (PyStr.rev b) c q (PyStr.rev a) Hc) as [b' ->].
  exists (PyStr.rev b').
  rewrite <- Hp, <- str_app_assoc, !rev_app, !rev_involutive.
  reflexivity.
Qed.

(** Stripping a string neither hides nor reveals a pattern whose first
    and last characters are visible. *)
Lemma contains_strip p c0 p0 c1 p1 s :
  p = String c0 p0 -> PyStr.isspace c0 = false ->
  PyStr.rev p = String c1 p1 -> PyStr.isspace c1 = false ->
  PyStr.contains p (PyStr.strip s) = PyStr.contains p s.
Proof.
  intros Hp Hc0 Hr Hc1.
  apply eq_true_iff_eq. rewrite !contains_spec. unfold PyStr.strip. split.
  - intros (a & b & H).
    destruct (lstrip_suffix s) as [w1 H1].
    destruct (rstrip_prefix (PyStr.lstrip s)) as [w2 H2].
    exists (w1 ++ a), (b ++ w2).
    rewrite H1 at 1. rewrite H2 at 1. rewrite H.
    now rewrite !str_app_assoc.
  - intros (a & b & ->).
    subst p. destruct (lstrip_keeps a c0 p0 b Hc0) as [a' ->].
    destruct (rstrip_keeps a' (String c0 p0) c1 p1 b Hr Hc1) as [b' ->].
    now exists a', b'.
Qed.

End StringFacts.

(* ===================================================================== *)
(** ** More on the deny list of run_shell *)
(* ===================================================================== *)

(** The [strip] of [run_shell] changes nothing: the test is whether the
    lower-cased command holds a pattern. *)
Lemma denied_lowercase (command : string) :
  ShellTool.denied command
  = existsb (fun p => PyStr.contains p (PyStr.lower command))
            ShellTool.deny_patterns.
Proof.
  unfold ShellTool.denied, ShellTool.deny_patterns.
  rewrite str_or_empty, lower_strip. simpl existsb.
  rewrite (contains_strip "remove-item -recurse" "r" "emove-item -recurse"
                          "e" "srucer- meti-evomer")
    by reflexivity.
  rewrite (contains_strip "rm -rf" "r" "m -rf" "f" "r- mr") by reflexivity.
  rewrite (contains_strip "rd /s" "r" "d /s" "s" "/ dr") by reflexivity.
  reflexivity.
Qed.

(** X1. [run_shell] blocks a command exactly when the command, put in
    lower case, has one of the three patterns somewhere inside it: letter
    case and white space around the command play no part. *)
Theorem run_shell_blocks_iff_pattern_inside (command : string) :
  ShellTool.denied command = true
  <-> exists p a b,
      p ∈ ["remove-item -recurse"; "rm -rf"; "rd /s"]
      /\ PyStr.lower command = a ++ p ++ b.
Proof.
  rewrite denied_lowercase, existsb_exists. unfold ShellTool.deny_patterns.
  split.
  - intros (p & Hin & Hp). apply contains_spec in Hp as (a & b & H).
    exists p, a, b. split; [now apply list_elem_of_In | exact H].
  - intros (p & a & b & Hin & H). exists p.
    split; [now apply list_elem_of_In|]. apply contains_spec. now exists a, b.
Qed.

(** X2. A blocked command stays blocked when text is put before and after
    it (a longer command line that contains it), and when the case of its
    letters is changed. *)
Theorem run_shell_block_is_stable (command : string) :
  ShellTool.denied command = true ->
  (forall before after, ShellTool.denied (before ++ command ++ after) = true)
  /\ (forall other,
         PyStr.lower other = PyStr.lower command ->
         ShellTool.denied other = true).
Proof.
  rewrite !denied_lowercase. intros H.
  apply existsb_exists in H as (p & Hin & Hp).
  apply contains_spec in Hp as (a & b & Hp). split.
  - intros before after. rewrite denied_lowercase.
    apply existsb_exists. exists p. split; [exact Hin|].
    apply contains_spec.
    exists (PyStr.lower before ++ a), (b ++ PyStr.lower after).
    rewrite !lower_app, Hp, !str_app_assoc. reflexivity.
  - intros other Ho. rewrite denied_lowercase, Ho.
    apply existsb_exists. exists p. split; [exact Hin|].
    apply contains_spec. now exists a, b.
Qed.

(** Witness of [run_shell_block_is_stable]. *)
Lemma run_shell_block_is_stable_witness :
  ShellTool.denied "rm -rf /tmp/x" = true
  /\ ShellTool.denied ("cd /tmp && " ++ "rm -rf /tmp/x" ++ " ; echo done") = true
  /\ ShellTool.denied "RM -RF /TMP/X" = true.
Proof.
  assert (H : ShellTool.denied "rm -rf /tmp/x" = true) by reflexivity.
  split; [exact H|]. split.
  - exact (proj1 (run_shell_block_is_stable "rm -rf /tmp/x" H)
                 "cd /tmp && " " ; echo done").
  - exact (proj2 (run_shell_block_is_stable "rm -rf /tmp/x" H)
                 "RM -RF /TMP/X" eq_refl).
Defined.

(* ===================================================================== *)
(** ** The loops of search_value *)
(* ===================================================================== *)

Section SearchFacts.
Context (L : Libs) (wb : workbook (pyfloat L)) (i : nat) (term : string).
Implicit Types (row matches : list (Z * Z)) (rows : list (list (Z * Z))).

Let hits (row : list (Z * Z)) : list (Z * Z) :=
  List.filter (ExcelTools.hit L wb i term) row.

Lemma scan_row_spec (max_results : Z) row matches :
  ExcelTools.full max_results matches = false ->
  ExcelTools.scan_row L wb i term max_results row matches
  = take (Z.to_nat max_results) (matches ++ hits row)%list.
Proof.
  unfold ExcelTools.full. revert matches.
  induction row as [|rc rest IH]; intros matches Hfull; simpl.
  - apply Z.leb_gt in Hfull. rewrite app_nil_r.
    symmetry. apply take_ge. lia.
  - change (hits (rc :: rest))
      with (if ExcelTools.hit L wb i term rc then rc :: hits rest else hits rest).
    destruct (ExcelTools.hit L wb i term rc).
    + assert (E : (matches ++ rc :: hits rest = (matches ++ [rc]) ++ hits rest)%list)
        by (now rewrite <- app_assoc).
      rewrite E. unfold ExcelTools.full.
      destruct (Z.leb_spec max_results (Z.of_nat (length (matches ++ [rc])%list)))
        as [Hf|Hf].
      * apply Z.leb_gt in Hfull. rewrite length_app in Hf. simpl in Hf.
        replace (Z.to_nat max_results) with (length (matches ++ [rc])%list)
          by (rewrite length_app; simpl; lia).
        now rewrite take_app_length.
      * apply IH. apply Z.leb_gt. exact Hf.
    + now apply IH.
Qed.

Lemma scan_rows_spec (max_results : Z) rows matches :
  ExcelTools.full max_results matches = false ->
  ExcelTools.scan_rows L wb i term max_results rows matches
  = take (Z.to_nat max_results) (matches ++ hits (concat rows))%list.
Proof.
  revert matches. induction rows as [|row rest IH]; intros matches Hfull; simpl.
  - unfold ExcelTools.full in Hfull. apply Z.leb_gt in Hfull.
    unfold hits. simpl. rewrite app_nil_r. symmetry. apply take_ge. lia.
  - rewrite (scan_row_spec _ _ _ Hfull).
    unfold hits. rewrite List.filter_app. fold (hits row) (hits (concat rest)).
    rewrite app_assoc.
    set (X := (matches ++ hits row)%list).
    unfold ExcelTools.full.
    destruct (Z.leb_spec max_results
                (Z.of_nat (length (take (Z.to_nat max_results) X)))) as [Hf|Hf].
    + rewrite length_take in Hf.
      rewrite take_app_le by lia. reflexivity.
    + rewrite length_take in Hf.
      assert (HX : (length X < Z.to_nat max_results)%nat) by lia.
      rewrite (take_ge X) by lia.
      apply IH. unfold ExcelTools.full. apply Z.leb_gt. lia.
Qed.

End SearchFacts.

(** X3. With [max_results] at least 1, the loops of [search_value] collect
    the cells whose value contains the search term, in the order the rows
    and their cells are visited, and keep the first [max_results] of
    them. *)
Theorem search_value_keeps_first_matches
        (L : Libs) (wb : workbook (pyfloat L)) (i : nat) (term : string)
        (max_results : Z) (rows : list (list (Z * Z))) :
  1 <= max_results ->
  ExcelTools.scan_rows L wb i term max_results rows []
  = take (Z.to_nat max_results)
         (List.filter (ExcelTools.hit L wb i term) (concat rows)).
Proof.
  intros Hm. apply (scan_rows_spec L wb i term max_results rows []).
  unfold ExcelTools.full. apply Z.leb_gt. simpl. lia.
Qed.

(** X4. With [max_results] zero or negative the loops of [search_value]
    do not return nothing: they stop after the first row, and within it
    after the first cell that matches, so the result is that one cell of
    the first row, or no cell. *)
Theorem search_value_nonpositive_limit
        (L : Libs) (wb : workbook (pyfloat L)) (i : nat) (term : string)
        (max_results : Z) (rows : list (list (Z * Z))) :
  max_results <= 0 ->
  ExcelTools.scan_rows L wb i term max_results rows []
  = take 1 (List.filter (ExcelTools.hit L wb i term) (hd [] rows)).
Proof.
  intros Hm.
  assert (Hfull : forall l, ExcelTools.full max_results l = true)
    by (intros l; unfold ExcelTools.full; apply Z.leb_le; lia).
  destruct rows as [|row rest]; [reflexivity|]. simpl.
  rewrite Hfull.
  induction row as [|rc more IH]; [reflexivity|]. simpl.
  destruct (ExcelTools.hit L wb i term rc).
  - rewrite Hfull. reflexivity.
  - exact IH.
Qed.

(** Witness of [search_value_keeps_first_matches]: three cells match "ap",
    two are kept. *)
Lemma search_value_keeps_first_matches_witness :
  let wb : workbook string :=
    Workbook [Worksheet "Sheet"
                {[ (1, 1) := VStr "apple"; (1, 2) := VStr "Apricot";
                   (2, 1) := VStr "pear"; (2, 2) := VStr "grape" ]}] 0 in
  1 <= 2
  /\ ExcelTools.scan_rows Demo.libs wb 0 "ap" 2
       [[(1, 1); (1, 2)]; [(2, 1); (2, 2)]] []
     = [(1, 1); (1, 2)].
Proof.
  intros wb. split; [lia|].
  rewrite (search_value_keeps_first_matches Demo.libs wb 0 "ap" 2) by lia.
  reflexivity.
Defined.

(** Witness of [search_value_nonpositive_limit]: a limit of 0 still gives
    the first match of the first row. *)
Lemma search_value_nonpositive_limit_witness :
  let wb : workbook string :=
    Workbook [Worksheet "Sheet"
                {[ (1, 1) := VStr "apple"; (1, 2) := VStr "Apricot";
                   (2, 1) := VStr "pear"; (2, 2) := VStr "grape" ]}] 0 in
  0 <= 0
  /\ ExcelTools.scan_rows Demo.libs wb 0 "ap" 0
       [[(1, 1); (1, 2)]; [(2, 1); (2, 2)]] []
     = [(1, 1)].
Proof.
  intros wb. split; [lia|].
  rewrite (search_value_nonpositive_limit Demo.libs wb 0 "ap" 0) by lia.
  reflexivity.
Defined.

(* ===================================================================== *)
(** ** The "k=v,k=v" parameters of the web tools *)
(* ===================================================================== *)

Section PairFacts.
Implicit Types (d : list (string * string)) (k v s : string).
Local Arguments String.append !_ _ / : simpl nomatch.

Lemma dict_set_keys k v d :
  forall k', k' ∈ map fst (WebTools.dict_set k v d) -> k' = k \/ k' ∈ map fst d.
Proof.
  induction d as [|[k0 v0] rest IH]; intros k'; simpl.
  - intros H. apply list_elem_of_singleton in H. now left.
  - destruct (String.eqb_spec k0 k) as [->|Hne]; simpl.
    + intros H. right. exact H.
    + intros H. apply elem_of_cons in H as [->|H].
      * right. apply elem_of_cons. now left.
      * destruct (IH _ H) as [->|H']; [now left|].
        right. apply elem_of_cons. now right.
Qed.

Lemma dict_set_nodup k v d :
  NoDup (map fst d) -> NoDup (map fst (WebTools.dict_set k v d)).
Proof.
  induction d as [|[k0 v0] rest IH]; simpl; intros Hd.
  - apply NoDup_singleton.
  - apply NoDup_cons in Hd as [Hnot Hrest].
    destruct (String.eqb_spec k0 k) as [->|Hne]; simpl.
    + apply NoDup_cons. split; assumption.
    + apply NoDup_cons. split; [|now apply IH].
      intros Hin. destruct (dict_set_keys _ _ _ _ Hin) as [->|H];
        [now apply Hne | now apply Hnot].
Qed.

Lemma dict_get_set k v d : dict_get k (WebTools.dict_set k v d) = Some v.
Proof.
  induction d as [|[k0 v0] rest IH]; simpl.
  - now rewrite String.eqb_refl.
  - destruct (String.eqb_spec k0 k) as [->|Hne]; simpl.
    + now rewrite String.eqb_refl.
    + destruct (String.eqb_spec k0 k); [contradiction | exact IH].
Qed.

Lemma add_pair_nodup d pair :
  NoDup (map fst d) -> NoDup (map fst (add_pair d pair)).
Proof.
  unfold add_pair. destruct (WebTools.split_once "=" pair) as [[key value]|];
    [apply dict_set_nodup | trivial].
Qed.

Lemma fold_pairs_nodup (l : list string) d :
  NoDup (map fst d) -> NoDup (map fst (fold_left add_pair l d)).
Proof.
  revert d. induction l as [|x rest IH]; intros d Hd; simpl; [exact Hd|].
  apply IH. now apply add_pair_nodup.
Qed.

Lemma split_char_nonempty (sep : ascii) s : PyStr.split_char sep s <> [].
Proof.
  destruct s as [|c r]; simpl; [discriminate|].
  destruct (Ascii.eqb c sep); [discriminate|].
  destruct (PyStr.split_char sep r); discriminate.
Qed.

(** Splitting a text, the separator, a text. *)
Lemma split_char_app (sep : ascii) a b :
  PyStr.split_char sep (a ++ String sep b)
  = (PyStr.split_char sep a ++ PyStr.split_char sep b)%list.
Proof.
  induction a as [|c r IH]; simpl.
  - now rewrite Ascii.eqb_refl.
  - destruct (Ascii.eqb c sep); [now rewrite IH|].
    rewrite IH. pose proof (split_char_nonempty sep r) as Hne.
    destruct (PyStr.split_char sep r) as [|h t]; [contradiction | reflexivity].
Qed.

Lemma contains_char_cons (c d : ascii) s :
  PyStr.contains (String c EmptyString) (String d s)
  = Ascii.eqb c d || PyStr.contains (String c EmptyString) s.
Proof. simpl. now rewrite andb_true_r. Qed.

Lemma split_char_none (sep : ascii) s :
  PyStr.contains (String sep EmptyString) s = false ->
  PyStr.split_char sep s = [s].
Proof.
  induction s as [|c r IH]; [reflexivity|].
  rewrite contains_char_cons. intros H. apply orb_false_iff in H as [Hc Hr].
  simpl. rewrite Ascii.eqb_sym, Hc, (IH Hr). reflexivity.
Qed.

Lemma split_once_none (sep : ascii) s :
  PyStr.contains (String sep EmptyString) s = false ->
  WebTools.split_once sep s = None.
Proof.
  induction s as [|c r IH]; [reflexivity|].
  rewrite contains_char_cons. intros H. apply orb_false_iff in H as [Hc Hr].
  simpl. rewrite Ascii.eqb_sym, Hc, (IH Hr). reflexivity.
Qed.

Lemma split_once_first (sep : ascii) k v :
  PyStr.contains (String sep EmptyString) k = false ->
  WebTools.split_once sep (k ++ String sep v) = Some (k, v).
Proof.
  induction k as [|c r IH].
  - intros _. simpl. now rewrite Ascii.eqb_refl.
  - intros H. rewrite contains_char_cons in H.
    apply orb_false_iff in H as [Hc Hr].
    simpl. rewrite Ascii.eqb_sym, Hc, (IH Hr). reflexivity.
Qed.

Lemma parse_pairs_fold s :
  WebTools.parse_pairs s
  = if String.eqb s EmptyString then []
    else fold_left add_pair (PyStr.split_char "," s) [].
Proof. reflexivity. Qed.

Lemma app_not_empty a (c : ascii) b : String.eqb (a ++ String c b) EmptyString = false.
Proof. destruct a; reflexivity. Qed.

(** The dictionary after one more pair at the end of the text. *)
Lemma parse_pairs_snoc s pair :
  PyStr.contains "," pair = false ->
  WebTools.parse_pairs (s ++ String "," pair)
  = add_pair (WebTools.parse_pairs s) pair.
Proof.
  intros Hpair. rewrite !parse_pairs_fold, app_not_empty, split_char_app.
  rewrite (split_char_none _ _ Hpair), fold_left_app. simpl.
  destruct (String.eqb_spec s EmptyString) as [->|Hs]; [|reflexivity].
  reflexivity.
Qed.

End PairFacts.

Lemma contains_char_app (c : ascii) (a b : string) :
  PyStr.contains (String c EmptyString) (a ++ b)
  = PyStr.contains (String c EmptyString) a
    || PyStr.contains (String c EmptyString) b.
Proof.
  induction a as [|d r IH].
  - destruct b; reflexivity.
  - change (String d r ++ b) with (String d (r ++ b)).
    rewrite !contains_char_cons, IH. now rewrite orb_assoc.
Qed.

(** X5. The query or form parameters read from "k=v,k=v" text form a
    dictionary: no key occurs twice, and a pair at the end of the text
    sets its key, stripped, to its value, stripped, whatever the text
    before it gave that key. *)
Theorem parse_pairs_is_a_dictionary (params : string) :
  NoDup (map fst (WebTools.parse_pairs params))
  /\ forall k v,
      PyStr.contains "," k = false ->
      PyStr.contains "=" k = false ->
      PyStr.contains "," v = false ->
      dict_get (PyStr.strip k)
               (WebTools.parse_pairs (params ++ "," ++ k ++ "=" ++ v))
      = Some (PyStr.strip v).
Proof.
  split.
  - rewrite parse_pairs_fold. destruct (String.eqb params EmptyString).
    + apply NoDup_nil_2.
    + apply fold_pairs_nodup. apply NoDup_nil_2.
  - intros k v Hk1 Hk2 Hv.
    change (params ++ "," ++ k ++ "=" ++ v)
      with (params ++ String "," (k ++ String "=" v)).
    rewrite parse_pairs_snoc.
    + unfold add_pair. rewrite (split_once_first _ _ _ Hk2). apply dict_get_set.
    + rewrite contains_char_app, Hk1.
      rewrite contains_char_cons, Hv. reflexivity.
Qed.

(** Witness of [parse_pairs_is_a_dictionary]: a later value for the key
    [q] replaces the earlier one. *)
Lemma parse_pairs_is_a_dictionary_witness :
  PyStr.contains "," " q" = false
  /\ PyStr.contains "=" " q" = false
  /\ PyStr.contains "," "new " = false
  /\ dict_get "q" (WebTools.parse_pairs ("q=old, page=2" ++ "," ++ " q" ++ "=" ++ "new "))
     = Some "new".
Proof.
  do 3 (split; [reflexivity|]).
  exact (proj2 (parse_pairs_is_a_dictionary "q=old, page=2")
               " q" "new " eq_refl eq_refl eq_refl).
Defined.

(** X6. A piece of the parameter text that has no "=" is dropped: adding
    it at the end gives the same dictionary. *)
Theorem parse_pairs_drops_malformed (params junk : string) :
  PyStr.contains "=" junk = false ->
  PyStr.contains "," junk = false ->
  WebTools.parse_pairs (params ++ "," ++ junk) = WebTools.parse_pairs params.
Proof.
  intros Heq Hcomma.
  change (params ++ "," ++ junk) with (params ++ String "," junk).
  rewrite (parse_pairs_snoc _ _ Hcomma). unfold add_pair.
  now rewrite (split_once_none _ _ Heq).
Qed.

(** Witness of [parse_pairs_drops_malformed]. *)
Lemma parse_pairs_drops_malformed_witness :
  PyStr.contains "=" "verbose" = false
  /\ PyStr.contains "," "verbose" = false
  /\ WebTools.parse_pairs ("a=1" ++ "," ++ "verbose") = [("a", "1")].
Proof.
  do 2 (split; [reflexivity|]).
  rewrite (parse_pairs_drops_malformed "a=1" "verbose") by reflexivity.
  reflexivity.
Defined.

(* ===================================================================== *)
(** ** The tools that only read *)
(* ===================================================================== *)

Section KeepsState.
Context {W : Type}.







End KeepsState.





(* ===================================================================== *)
(** ** Arguments refused before anything is touched *)
(* ===================================================================== *)

(** X8. With PyPDF2 there, [rotate_pdf_pages] refuses an angle other than
    90, 180 or 270 before it opens the input: the message is returned and
    the world is as it was, whatever the file paths are. *)
Theorem rotate_pdf_pages_checks_angle_first
        (L : Libs) (file_path output_path : string) (degrees : Z)
        (s : state (World L)) :
  PYPDF2_AVAILABLE L = true ->
  degrees <> 90 -> degrees <> 180 -> degrees <> 270 ->
  invoke L (Rotate_pdf_pages _ file_path output_path degrees) s
  = (Return "Error: Degrees must be 90, 180, or 270", s).
Proof.
  intros Hav H1 H2 H3.
  assert (E : bool_decide (degrees ∈ [90; 180; 270]) = false).
  { apply bool_decide_eq_false. intros Hin.
    apply list_elem_of_In in Hin. simpl in Hin.
    destruct Hin as [<-|[<-|[<-|[]]]]; congruence. }
  unfold invoke, callee, PDFTools.rotate_pdf_pages, PDFTools.needs_pypdf2.
  rewrite Hav, E. reflexivity.
Qed.

(** Witness of [rotate_pdf_pages_checks_angle_first]: 45 degrees, on a
    file that does not exist. *)
Lemma rotate_pdf_pages_checks_angle_first_witness :
  PYPDF2_AVAILABLE Demo.libs = true
  /\ 45 <> 90
  /\ invoke Demo.libs (Rotate_pdf_pages _ "missing.pdf" "out.pdf" 45) (Demo.start ∅)
     = (Return "Error: Degrees must be 90, 180, or 270", Demo.start ∅).
Proof.
  split; [reflexivity|]. split; [lia|].
  apply (rotate_pdf_pages_checks_angle_first Demo.libs "missing.pdf" "out.pdf" 45);
    [reflexivity | lia | lia | lia].
Defined.

Lemma set_table_cell_runs_body
      (L : Libs) (file_path : string) (table_index row col : Z) (text : string)
      (s : state (World L)) :
  DOCX_AVAILABLE L = true ->
  invoke L (Set_table_cell _ file_path table_index row col text) s
  = Py.try_except
      (WordTools.set_table_cell_body L file_path table_index row col text)
      Py.any_exception
      (fun e => Py.ret ("Error setting table cell: " ++ exn_text e)) s.
Proof.
  intros Hav.
  unfold invoke, callee, WordTools.set_table_cell, WordTools.guarded.
  rewrite Hav. reflexivity.
Qed.

Lemma py_locate_in_range {A} (kind : string) (l : list A) (i : Z) :
  0 <= i < Z.of_nat (length l) ->
  exists x, l !! Z.to_nat i = Some x /\ py_locate kind l i = Return (Z.to_nat i, x).
Proof.
  intros Hi. unfold py_locate, py_index, py_position.
  destruct (Z.leb_spec 0 i); [|lia].
  destruct (Z.ltb_spec i (Z.of_nat (length l))); [|lia]. simpl.
  destruct (l !! Z.to_nat i) as [x|] eqn:E.
  - exists x. split; reflexivity.
  - apply lookup_ge_None in E. lia.
Qed.



(* ===================================================================== *)
(** ** set_table_cell changes one cell *)
(* ===================================================================== *)

Lemma cell_text_set_same (doc : document) (t r c : nat) (text : string) :
  is_Some (cell_text doc t r c) ->
  cell_text (WordTools.set_cell_text doc t r c text) t r c = Some text.
Proof.
  unfold cell_text, WordTools.set_cell_text. simpl.
  rewrite list_lookup_alter_eq.
  destruct (doc_tables doc !! t) as [tb|]; simpl; [|intros [x H]; discriminate H].
  rewrite list_lookup_alter_eq.
  destruct (tbl_rows tb !! r) as [cells|]; simpl; [|intros [x H]; discriminate H].
  intros [x H]. apply list_lookup_insert_eq. eapply lookup_lt_Some. exact H.
Qed.

Lemma cell_text_set_other (doc : document) (t r c : nat) (text : string)
      (t' r' c' : nat) :
  (t', r', c') <> (t, r, c) ->
  cell_text (WordTools.set_cell_text doc t r c text) t' r' c'
  = cell_text doc t' r' c'.
Proof.
  intros Hne. unfold cell_text, WordTools.set_cell_text. simpl.
  destruct (decide (t = t')) as [<-|Ht];
    [|now rewrite list_lookup_alter_ne by exact Ht].
  rewrite list_lookup_alter_eq.
  destruct (doc_tables doc !! t) as [tb|]; simpl; [|reflexivity].
  destruct (decide (r = r')) as [<-|Hr];
    [|now rewrite list_lookup_alter_ne by exact Hr].
  rewrite list_lookup_alter_eq.
  destruct (tbl_rows tb !! r) as [cells|]; simpl; [|reflexivity].
  apply list_lookup_insert_ne. intros <-. now apply Hne.
Qed.

(** X10. With python-docx there, the document open, indices from 0 that
    select a cell, and the save succeeding, [set_table_cell] returns the
    success message, and the document it saves differs from the one it
    opened in that cell only: the cell holds the new text, every other
    cell of every table holds what it held, and the paragraphs are the
    same. *)
Theorem set_table_cell_changes_one_cell
        (L : Libs) (file_path : string) (table_index row col : Z) (text : string)
        (doc : document) (tb : table) (cells : list string)
        (s : state (World L)) (w' : World L) :
  DOCX_AVAILABLE L = true ->
  docx_open L (world s) file_path = Return doc ->
  0 <= table_index -> 0 <= row -> 0 <= col ->
  let t := Z.to_nat table_index in
  let r := Z.to_nat row in
  let c := Z.to_nat col in
  doc_tables doc !! t = Some tb ->
  tbl_rows tb !! r = Some cells ->
  (c < length cells)%nat -> (c < tbl_columns tb)%nat ->
  let doc' := WordTools.set_cell_text doc t r c text in
  docx_save L doc' file_path (world s) = (Return tt, w') ->
  invoke L (Set_table_cell _ file_path table_index row col text) s
  = (Return ("Cell " ++ WordTools.pos_str row col
             ++ " updated successfully in table " ++ PyStr.of_Z table_index),
     State (self_attrs s) w')
  /\ cell_text doc' t r c = Some text
  /\ (forall t' r' c',
         (t', r', c') <> (t, r, c) ->
         cell_text doc' t' r' c' = cell_text doc t' r' c')
  /\ doc_paragraphs doc' = doc_paragraphs doc.
Proof.
  intros Hav Hopen Ht Hr Hc t r c Htb Hrow Hlen Hcols doc' Hsave.
  split; [|split; [|split]].
  - rewrite set_table_cell_runs_body by exact Hav.
    pose proof (lookup_lt_Some _ _ _ Htb) as Lt.
    pose proof (lookup_lt_Some _ _ _ Hrow) as Lr.
    destruct (py_locate_in_range "list" (doc_tables doc) table_index)
      as (tb' & Htb' & Hloc); [unfold t in Lt; lia|].
    fold t in Htb', Hloc. rewrite Htb in Htb'. injection Htb' as <-.
    destruct (py_locate_in_range "list" (tbl_rows tb) row)
      as (cells' & Hrow' & Hloc2); [unfold r in Lr; lia|].
    fold r in Hrow', Hloc2. rewrite Hrow in Hrow'. injection Hrow' as <-.
    destruct (py_locate_in_range "tuple" cells col)
      as (x & Hx & Hloc3); [unfold c in Hlen; lia|].
    fold c in Hloc3.
    assert (B1 : (Z.of_nat (length (doc_tables doc)) <=? table_index) = false)
      by (apply Z.leb_gt; unfold t in Lt; lia).
    assert (B2 : (Z.of_nat (length (tbl_rows tb)) <=? row) = false)
      by (apply Z.leb_gt; unfold r in Lr; lia).
    assert (B3 : (Z.of_nat (tbl_columns tb) <=? col) = false)
      by (apply Z.leb_gt; unfold c in Hcols; lia).
    unfold Py.try_except, WordTools.set_table_cell_body, Py.bind, Py.ask,
      Py.call, Py.act, Py.ret.
    rewrite Hopen, B1, Hloc, B2, B3, Hloc2, Hloc3. cbn [orb world].
    cbv beta iota. fold doc'. rewrite Hsave. reflexivity.
  - apply cell_text_set_same. unfold cell_text. rewrite Htb, Hrow.
    apply lookup_lt_is_Some. exact Hlen.
  - intros t' r' c' Hne. now apply cell_text_set_other.
  - reflexivity.
Qed.

(** Witness of [set_table_cell_changes_one_cell]: cell (1, 0) of a table of
    two rows and two columns. *)
Lemma set_table_cell_changes_one_cell_witness :
  let doc := Document [("Title", "Normal")] [Table [["a"; "b"]; ["c"; "d"]] 2] in
  let doc' := Document [("Title", "Normal")] [Table [["a"; "b"]; ["x"; "d"]] 2] in
  let w : Demo.fs := {[ "/d" := Demo.Dir; "/d/r.docx" := Demo.Docx doc ]} in
  DOCX_AVAILABLE Demo.libs = true
  /\ docx_open Demo.libs w "/d/r.docx" = Return doc
  /\ docx_save Demo.libs doc' "/d/r.docx" w
     = (Return tt, <["/d/r.docx" := Demo.Docx doc']> w)
  /\ invoke Demo.libs (Set_table_cell _ "/d/r.docx" 0 1 0 "x") (Demo.start w)
     = (Return "Cell (1, 0) updated successfully in table 0",
        Demo.start (<["/d/r.docx" := Demo.Docx doc']> w)).
Proof.
  intros doc doc' w.
  split; [reflexivity|]. split; [reflexivity|]. split; [reflexivity|].
  refine (proj1 (set_table_cell_changes_one_cell Demo.libs "/d/r.docx" 0 1 0 "x"
                   doc (Table [["a"; "b"]; ["c"; "d"]] 2) ["c"; "d"]
                   (Demo.start w) _ eq_refl eq_refl _ _ _ eq_refl eq_refl _ _ _));
    [lia | lia | lia | simpl; lia | simpl; lia | reflexivity].
Defined.

(* ===================================================================== *)
(** ** Names that are looked up before anything is written *)
(* ===================================================================== *)

(** X11. With pandas there and the file read, [get_column_stats] answers
    a column that the frame does not have with the message naming it, and
    [select_csv_columns] answers a request in which some columns are not
    in the frame with the message listing exactly those, in the order
    they were asked for; in both cases the world is as it was, so no
    output file is written. *)
Theorem csv_missing_columns_are_reported
        (L : Libs) (file_path column columns output_path : string)
        (df : DataFrame L) (s : state (World L)) :
  PANDAS_AVAILABLE L = true ->
  pd_read_csv L (world s) file_path = Return df ->
  (column ∉ df_columns L df ->
   invoke L (Get_column_stats _ file_path column) s
   = (Return ("Error: Column '" ++ column ++ "' not found in CSV"), s))
  /\ (let missing :=
        filter (fun c => negb (bool_decide (c ∈ df_columns L df)))
               (split_commas columns) in
      missing <> [] ->
      invoke L (Select_csv_columns _ file_path columns output_path) s
      = (Return ("Error: Columns not found: " ++ PyStr.join ", " missing), s)).
Proof.
  intros Hav Hread. split.
  - intros Hcol.
    assert (Hhas : CSVTools.has_column L df column = false)
      by (unfold CSVTools.has_column; now apply bool_decide_eq_false).
    unfold invoke, callee, CSVTools.get_column_stats, CSVTools.guarded,
      CSVTools.read.
    rewrite Hav. simpl negb. cbv iota.
    unfold run, Py.try_except, Py.bind, Py.ask, Py.ret.
    rewrite Hread, Hhas. reflexivity.
  - intros missing Hmissing.
    unfold invoke, callee, CSVTools.select_csv_columns, CSVTools.guarded,
      CSVTools.read.
    rewrite Hav. simpl negb. cbv iota.
    unfold run, Py.try_except, Py.bind at 1, Py.ask.
    rewrite Hread. unfold CSVTools.has_column. fold missing.
    destruct missing as [|m rest]; [contradiction|]. reflexivity.
Qed.

(** Witness of [csv_missing_columns_are_reported]. *)
Lemma csv_missing_columns_are_reported_witness :
  let w : Demo.fs := {[ "t.csv" := Demo.Csv ["name"; "age"] [["ann"; "31"]] ]} in
  PANDAS_AVAILABLE Demo.libs = true
  /\ pd_read_csv Demo.libs w "t.csv" = Return (["name"; "age"], [["ann"; "31"]])
  /\ invoke Demo.libs (Select_csv_columns _ "t.csv" "city, name ,zip" "o.csv")
            (Demo.start w)
     = (Return "Error: Columns not found: city, zip", Demo.start w).
Proof.
  intros w. split; [reflexivity|]. split; [reflexivity|].
  apply (proj2 (csv_missing_columns_are_reported Demo.libs "t.csv" "x"
                  "city, name ,zip" "o.csv" (["name"; "age"], [["ann"; "31"]])
                  (Demo.start w) eq_refl eq_refl)).
  vm_compute. discriminate.
Defined.

Section SheetLookup.
Context (L : Libs) (path : string) (wb : workbook (pyfloat L))
        (s : state (World L)).
Hypothesis available : OPENPYXL_AVAILABLE L = true.
Hypothesis loaded :
  forall read_only data_only,
    xl_load_workbook L path read_only data_only (world s) = Return wb.





End SheetLookup.



(* ===================================================================== *)
(** ** The order of the calls in download_file and write_rows *)
(* ===================================================================== *)

(** X14. With requests there, [download_file] opens the output file only
    after the response has passed [raise_for_status]: when the request
    raises, or the status check raises, the function returns the message
    of its handler and the world is the one the request left, the output
    path not opened.  Once the file is open, a failure while the content
    is read leaves it opened: the world is the one after [open] and the
    reading. *)
Theorem download_file_opens_after_status_check
        (L : Libs) (url output_path : string) (s : state (World L)) :
  REQUESTS_AVAILABLE L = true ->
  let message (e : exn) := "Error downloading file: " ++ exn_text e in
  (forall e w1,
      requests_get L url None 30 true (world s) = (Raise e, w1) ->
      invoke L (Download_file _ url output_path) s
      = (Return (message e), State (self_attrs s) w1))
  /\ (forall response w1 e,
         requests_get L url None 30 true (world s) = (Return response, w1) ->
         resp_raise_for_status L response = Raise e ->
         invoke L (Download_file _ url output_path) s
         = (Return (message e), State (self_attrs s) w1))
  /\ (forall response w1 w2 e w3,
         requests_get L url None 30 true (world s) = (Return response, w1) ->
         resp_raise_for_status L response = Return tt ->
         open_wb L output_path w1 = (Return tt, w2) ->
         resp_iter_content L response 8192 w2 = (Raise e, w3) ->
         invoke L (Download_file _ url output_path) s
         = (Return (message e), State (self_attrs s) w3)).
Proof.
  intros Hav message.
  unfold invoke, callee, WebTools.download_file, WebTools.needs_requests.
  rewrite Hav. simpl negb. cbv iota.
  unfold run, Py.try_except, WebTools.get_checked, Py.bind, Py.act, Py.call,
    Py.ret.
  split; [|split].
  - intros e w1 Hget. rewrite Hget. reflexivity.
  - intros response w1 e Hget Hstatus. rewrite Hget, Hstatus. reflexivity.
  - intros response w1 w2 e w3 Hget Hstatus Hopen Hiter.
    rewrite Hget, Hstatus. cbn [world]. rewrite Hopen. cbn [world].
    rewrite Hiter. reflexivity.
Qed.

(** Witness of [download_file_opens_after_status_check]: no network in
    the in-memory instance, and no file appears. *)
Lemma download_file_opens_after_status_check_witness :
  REQUESTS_AVAILABLE Demo.libs = true
  /\ requests_get Demo.libs "http://example.org/f" None 30 true ∅
     = (Raise (Exn OtherError "Connection refused"), ∅)
  /\ invoke Demo.libs (Download_file _ "http://example.org/f" "out.bin") (Demo.start ∅)
     = (Return "Error downloading file: Connection refused", Demo.start ∅).
Proof.
  split; [reflexivity|]. split; [reflexivity|].
  exact (proj1 (download_file_opens_after_status_check Demo.libs
                  "http://example.org/f" "out.bin" (Demo.start ∅) eq_refl)
               (Exn OtherError "Connection refused") ∅ eq_refl).
Defined.



(* ===================================================================== *)
(** ** Comma-separated arguments *)
(* ===================================================================== *)

Lemma split_char_length (sep : ascii) (s : string) :
  length (PyStr.split_char sep s) = S (occurrences sep s).
Proof.
  induction s as [|c r IH]; [reflexivity|]. simpl.
  destruct (Ascii.eqb c sep); simpl.
  - now rewrite IH.
  - pose proof (split_char_nonempty sep r) as Hne.
    destruct (PyStr.split_char sep r) as [|h t]; [contradiction|].
    simpl in IH |- *. exact IH.
Qed.

Lemma split_commas_length (s : string) :
  length (split_commas s) = S (occurrences "," s).
Proof. unfold split_commas. rewrite length_map. apply split_char_length. Qed.

Lemma for_each_fold {W A B} (f : B -> A -> outcome B) (l : list A) (acc : B)
      (s : state W) :
  Py.for_each l acc (fun b x => Py.call (f b x)) s = (fold_calls f l acc, s).
Proof.
  revert acc. induction l as [|x rest IH]; intros acc; simpl; [reflexivity|].
  unfold Py.bind, Py.call at 1. destruct (f acc x) as [b|e]; [apply IH|reflexivity].
Qed.




(* ===================================================================== *)
(** ** More on read_file and write_cell *)
(* ===================================================================== *)




Lemma get_value_set_other {F} (wb : workbook F) (i : nat) (rc : Z * Z)
      (v : value F) (i' : nat) (rc' : Z * Z) :
  (i', rc') <> (i, rc) ->
  Xl.get_value (Xl.set_value wb i rc v) i' rc' = Xl.get_value wb i' rc'.
Proof.
  intros Hne. unfold Xl.get_value, Xl.sheet_at, Xl.set_value. simpl.
  destruct (decide (i = i')) as [<-|Hi];
    [|now rewrite list_lookup_alter_ne by exact Hi].
  rewrite list_lookup_alter_eq.
  destruct (worksheets wb !! i) as [ws|]; simpl; [|reflexivity].
  rewrite lookup_insert_ne; [reflexivity|]. intros <-. now apply Hne.
Qed.

Lemma sheet_title_set_value {F} (wb : workbook F) (i k : nat) (rc : Z * Z)
      (v : value F) :
  title (Xl.sheet_at (Xl.set_value wb i rc v) k) = title (Xl.sheet_at wb k).
Proof.
  unfold Xl.sheet_at, Xl.set_value. simpl.
  destruct (decide (i = k)) as [->|Hne].
  - rewrite list_lookup_alter_eq.
    destruct (worksheets wb !! k); reflexivity.
  - rewrite list_lookup_alter_ne by congruence. reflexivity.
Qed.

(** X18. [write_cell] on a workbook that exists, for the active sheet or
    a sheet the workbook has, when the cell reference and the value are
    accepted and the save succeeds: the workbook that is saved is the one
    that was loaded with the converted value at the addressed cell; it
    has the same sheets, and every other cell of every sheet holds what
    it held. *)
Theorem write_cell_changes_one_cell
        (L : Libs) (path cell text : string) (sheet_name : option string)
        (wb : workbook (pyfloat L)) (i : nat) (rc : Z * Z)
        (s sa : state (World L)) (w' : World L) :
  OPENPYXL_AVAILABLE L = true ->
  ExcelTools.make_parent L path s = (Return tt, sa) ->
  os_path_exists L (world sa) path = true ->
  xl_load_workbook L path false false (world sa) = Return wb ->
  (if truthy sheet_name
   then Xl.find_title (default EmptyString sheet_name) (worksheets wb) = Some i
   else Xl.active wb = Some i) ->
  xl_coordinate L cell = Return rc ->
  let v := converted L text in
  xl_check_value L v = Return tt ->
  let wb2 := Xl.set_value wb i rc v in
  xl_save L wb2 path (world sa) = (Return tt, w') ->
  invoke L (Write_cell _ path cell text sheet_name) s
  = (Return (Json.dumps
               (JObj [("status", JStr "ok");
                      ("path", JStr (os_path_abspath L w' path));
                      ("sheet", JStr (title (Xl.sheet_at wb i)));
                      ("cell", JStr cell);
                      ("value", JStr (ExcelTools.str_of_value L v))])),
     State (self_attrs sa) w')
  /\ Xl.sheetnames wb2 = Xl.sheetnames wb
  /\ Xl.get_value wb2 i rc = v
  /\ (forall i' rc',
         (i', rc') <> (i, rc) ->
         Xl.get_value wb2 i' rc' = Xl.get_value wb i' rc').
Proof.
  intros Hav Hparent Hexists Hload Hsheet Hrc v Hcheck wb2 Hsave.
  assert (Hsome : is_Some (worksheets wb !! i)).
  { destruct (truthy sheet_name).
    - destruct (find_title_lookup _ _ _ Hsheet) as (x & Hx & _). now exists x.
    - unfold Xl.active in Hsheet.
      destruct (worksheets wb !! active_index wb) as [x|] eqn:E; [|discriminate].
      injection Hsheet as <-. now exists x. }
  split; [|split; [|split]].
  - apply write_cell_runs_body; [exact Hav|].
    unfold ExcelTools.write_cell_body.
    unfold Py.bind at 1. rewrite Hparent.
    unfold Py.bind at 1. unfold ExcelTools.load_or_new.
    rewrite Hexists. unfold Py.ask at 1. rewrite Hload.
    assert (Hsel : ExcelTools.sheet_for_writing L wb sheet_name sa
                   = (Return (wb, Some i), sa)).
    { unfold ExcelTools.sheet_for_writing. destruct (truthy sheet_name).
      - assert (Hin : Xl.has_sheet wb (default EmptyString sheet_name) = true).
        { unfold Xl.has_sheet. apply bool_decide_eq_true.
          eapply find_title_elem. exact Hsheet. }
        rewrite Hin. simpl negb. cbv iota.
        unfold Py.bind, Py.call, Py.ret, Xl.getitem. rewrite Hsheet. reflexivity.
      - unfold Py.ret. rewrite Hsheet. reflexivity. }
    unfold Py.bind at 1. rewrite Hsel.
    unfold Py.bind at 1. rewrite to_number_converted. fold v.
    unfold Py.bind at 1. unfold Py.call at 1.
    unfold ExcelTools.setitem, Xl.deref. rewrite Hrc, Hcheck. fold wb2.
    unfold Py.bind at 1. unfold Py.act at 1. rewrite Hsave.
    unfold Py.bind, ExcelTools.abspath, Py.ask, Py.call, Py.ret, Xl.title_of.
    simpl world. unfold wb2. rewrite sheet_title_set_value. reflexivity.
  - apply sheetnames_set_value.
  - now apply get_set_value.
  - intros i' rc' Hne. now apply get_value_set_other.
Qed.

(** Witness of [write_cell_changes_one_cell]: B1 is written, A1 keeps its
    value. *)
Lemma write_cell_changes_one_cell_witness :
  let wb : workbook string :=
    Workbook [Worksheet "Sheet" {[ (1, 1) := VStr "keep" ]}] 0 in
  let wb2 : workbook string :=
    Workbook [Worksheet "Sheet" (<[ (1, 2) := VInt 7 ]> {[ (1, 1) := VStr "keep" ]})] 0 in
  let w : Demo.fs := {[ "b.xlsx" := Demo.Book wb ]} in
  OPENPYXL_AVAILABLE Demo.libs = true
  /\ ExcelTools.make_parent Demo.libs "b.xlsx" (Demo.start w) = (Return tt, Demo.start w)
  /\ os_path_exists Demo.libs w "b.xlsx" = true
  /\ xl_coordinate Demo.libs "B1" = Return (1, 2)
  /\ xl_save Demo.libs wb2 "b.xlsx" w = (Return tt, <["b.xlsx" := Demo.Book wb2]> w)
  /\ fst (invoke Demo.libs (Write_cell _ "b.xlsx" "B1" "7" None) (Demo.start w))
     = Return (Json.dumps
                 (JObj [("status", JStr "ok"); ("path", JStr "/work/b.xlsx");
                        ("sheet", JStr "Sheet"); ("cell", JStr "B1");
                        ("value", JStr "7")]))
  /\ Xl.get_value wb2 0 (1, 1) = VStr "keep".
Proof.
  intros wb wb2 w.
  pose proof (write_cell_changes_one_cell Demo.libs "b.xlsx" "B1" "7" None
                wb 0%nat (1, 2) (Demo.start w) (Demo.start w)
                (<["b.xlsx" := Demo.Book wb2]> w)
                eq_refl eq_refl eq_refl eq_refl eq_refl eq_refl eq_refl eq_refl)
    as (Hcall & _ & _ & Hother).
  split; [reflexivity|]. split; [reflexivity|]. split; [reflexivity|].
  split; [reflexivity|]. split; [reflexivity|]. split.
  - rewrite Hcall. reflexivity.
  - change (Xl.get_value
              (Xl.set_value wb 0%nat (1, 2) (converted Demo.libs "7"))
              0%nat (1, 1) = VStr "keep").
    rewrite Hother by discriminate. reflexivity.
Defined.

(* ===================================================================== *)
(** ** delete_sheet *)
(* ===================================================================== *)

Lemma remove_first_title {F} (name : string) (l : list (worksheet F)) :
  name ∈ map title l ->
  exists i before after,
    Xl.find_title name l = Some i
    /\ map title l = (before ++ name :: after)%list
    /\ (name ∉ before)
    /\ map title (delete i l) = (before ++ after)%list.
Proof.
  induction l as [|ws rest IH]; intros Hin.
  - apply list_elem_of_In in Hin. destruct Hin.
  - simpl. destruct (String.eqb_spec (title ws) name) as [E|Hne].
    + exists 0%nat, [], (map title rest). rewrite E.
      repeat split. intros H. apply list_elem_of_In in H. destruct H.
    + apply list_elem_of_In in Hin. simpl in Hin.
      destruct Hin as [Hin|Hin]; [congruence|].
      apply list_elem_of_In in Hin.
      destruct (IH Hin) as (i & b & a & Hf & Hm & Hnb & Hd).
      exists (S i), (title ws :: b), a. rewrite Hf. simpl. repeat split.
      * now rewrite Hm.
      * intros H. apply list_elem_of_In in H. destruct H as [H|H];
          [congruence|]. apply Hnb. now apply list_elem_of_In.
      * now rewrite Hd.
Qed.

(** X19. With openpyxl there and the workbook loaded, [delete_sheet] of a
    name that is among the sheet names removes the first sheet of that
    name and hands the workbook to [save].  When the save succeeds the
    result reports the other names, in their order, as
    "remaining_sheets"; when the save raises, the result is the error
    object with the text of the exception.  The function itself does not
    ask whether a sheet is left: for the only sheet of a workbook the
    outcome is the one of the save. *)
Theorem delete_sheet_removes_first_named
        (L : Libs) (path name : string) (wb : workbook (pyfloat L))
        (s : state (World L)) :
  OPENPYXL_AVAILABLE L = true ->
  xl_load_workbook L path false false (world s) = Return wb ->
  name ∈ Xl.sheetnames wb ->
  exists before after,
    Xl.sheetnames wb = (before ++ name :: after)%list
    /\ (name ∉ before)
    /\ Xl.sheetnames (Xl.remove wb name) = (before ++ after)%list
    /\ (forall w',
           xl_save L (Xl.remove wb name) path (world s) = (Return tt, w') ->
           invoke L (Delete_sheet _ path name) s
           = (Return (Json.dumps
                        (JObj [("status", JStr "ok");
                               ("path", JStr (os_path_abspath L w' path));
                               ("deleted_sheet", JStr name);
                               ("remaining_sheets",
                                JArr (map JStr (before ++ after)%list))])),
              State (self_attrs s) w'))
    /\ (forall e w',
           xl_save L (Xl.remove wb name) path (world s) = (Raise e, w') ->
           invoke L (Delete_sheet _ path name) s
           = (Return (Json.dumps
                        (JObj [("error", JStr (exn_text e));
                               ("path", JStr path)])),
              State (self_attrs s) w')).
Proof.
  intros Hav Hload Hin.
  destruct (remove_first_title name (worksheets wb) Hin)
    as (i & before & after & Hf & Hm & Hnb & Hd).
  assert (Hnames : Xl.sheetnames (Xl.remove wb name) = (before ++ after)%list).
  { unfold Xl.remove. rewrite Hf. exact Hd. }
  exists before, after. split; [exact Hm|]. split; [exact Hnb|].
  split; [exact Hnames|].
  assert (Hcall : invoke L (Delete_sheet _ path name) s
                  = Py.try_except
                      (let* _ := Py.act (xl_save L (Xl.remove wb name) path) in
                       let* p := ExcelTools.abspath L path in
                       Py.ret (Json.dumps
                                 (JObj [("status", JStr "ok"); ("path", JStr p);
                                        ("deleted_sheet", JStr name);
                                        ("remaining_sheets",
                                         ExcelTools.names_json
                                           (Xl.sheetnames (Xl.remove wb name)))])))
                      Py.any_exception
                      (fun e => Py.ret (ExcelTools.error_json e path)) s).
  { unfold invoke, callee, ExcelTools.delete_sheet, ExcelTools.guarded,
      ExcelTools._check_openpyxl.
    rewrite Hav. simpl negb. cbv iota.
    unfold run, Py.try_except. unfold Py.bind at 1. unfold Py.ask at 1.
    rewrite Hload.
    unfold Xl.has_sheet. rewrite bool_decide_eq_true_2 by exact Hin.
    reflexivity. }
  rewrite Hcall. split.
  - intros w' Hsave.
    unfold Py.try_except, Py.bind, Py.act, ExcelTools.abspath, Py.ask, Py.ret,
      ExcelTools.names_json.
    rewrite Hsave, Hnames. reflexivity.
  - intros e w' Hsave.
    unfold Py.try_except, Py.bind, Py.act, Py.ret, ExcelTools.error_json.
    rewrite Hsave. reflexivity.
Qed.

(** Witness of [delete_sheet_removes_first_named]: the first of two
    sheets is deleted. *)
Lemma delete_sheet_removes_first_named_witness :
  let wb : workbook string := Workbook [Worksheet "Sheet" ∅; Worksheet "Data" ∅] 0 in
  let w : Demo.fs := {[ "b.xlsx" := Demo.Book wb ]} in
  let w' : Demo.fs := <["b.xlsx" := Demo.Book (Workbook [Worksheet "Data" ∅] 0)]> w in
  OPENPYXL_AVAILABLE Demo.libs = true
  /\ xl_load_workbook Demo.libs "b.xlsx" false false w = Return wb
  /\ ("Sheet" ∈ Xl.sheetnames wb)
  /\ xl_save Demo.libs (Xl.remove wb "Sheet") "b.xlsx" w = (Return tt, w')
  /\ invoke Demo.libs (Delete_sheet _ "b.xlsx" "Sheet") (Demo.start w)
     = (Return (Json.dumps
                  (JObj [("status", JStr "ok"); ("path", JStr "/work/b.xlsx");
                         ("deleted_sheet", JStr "Sheet");
                         ("remaining_sheets", JArr [JStr "Data"])])),
        Demo.start w').
Proof.
  intros wb w w'.
  assert (Hin : "Sheet" ∈ Xl.sheetnames wb) by (apply list_elem_of_In; now left).
  assert (Hsave : xl_save Demo.libs (Xl.remove wb "Sheet") "b.xlsx" w
                  = (Return tt, w')) by reflexivity.
  split; [reflexivity|]. split; [reflexivity|]. split; [exact Hin|].
  split; [exact Hsave|].
  destruct (delete_sheet_removes_first_named Demo.libs "b.xlsx" "Sheet" wb
              (Demo.start w) eq_refl eq_refl Hin)
    as (before & after & Hm & Hnb & Hnames & Hok & _).
  rewrite (Hok w' Hsave).
  change (Xl.sheetnames (Xl.remove wb "Sheet")) with ["Data"] in Hnames.
  rewrite <- Hnames. reflexivity.
Defined.

(* ===================================================================== *)
(** ** Slides *)
(* ===================================================================== *)



(** X21. [add_content_slide] splits [content] at every comma and adds
    one bullet to the body of the new slide for each piece, stripped, in
    order: one bullet more than there are commas, and one, empty, bullet
    for the empty string.  With python-pptx there, the presentation open
    and the slide made, titled and its body cleared, the presentation
    that is saved is the one those [add_bullet] calls give, one after the
    other, and when that save succeeds the message reports their
    number. *)
Theorem add_content_slide_counts_bullets
        (L : Libs) (file_path title content : string)
        (prs prs1 prs2 prs3 prs4 : Presentation L) (layout : Layout L)
        (slide : SlideRef L) (s : state (World L)) (w' : World L) :
  PPTX_AVAILABLE L = true ->
  pptx_open L (world s) file_path = Return prs ->
  pptx_slide_layout L prs 1 = Return layout ->
  pptx_add_slide L prs layout = Return (prs1, slide) ->
  pptx_set_title_text L prs1 slide title = Return prs2 ->
  pptx_clear_text_frame L prs2 slide 1 = Return prs3 ->
  fold_calls (fun p bullet => pptx_add_bullet L p slide 1 bullet)
             (split_commas content) prs3 = Return prs4 ->
  pptx_save L prs4 file_path (world s) = (Return tt, w') ->
  invoke L (Add_content_slide _ file_path title content) s
  = (Return ("Content slide with "
             ++ PyStr.of_Z (Z.of_nat (S (occurrences "," content)))
             ++ " bullets added successfully"),
     State (self_attrs s) w')
  /\ length (split_commas content) = S (occurrences "," content).
Proof.
  intros Hav Hopen Hlayout Hadd Htitle Hclear Hbullets Hsave.
  split; [|apply split_commas_length].
  unfold invoke, callee, PowerPointTools.add_content_slide,
    PowerPointTools.guarded.
  rewrite Hav. simpl negb. cbv iota.
  unfold run, Py.try_except. unfold Py.bind at 1. unfold Py.ask at 1.
  rewrite Hopen.
  unfold Py.bind at 1. unfold Py.call at 1. rewrite Hlayout.
  unfold Py.bind at 1. unfold Py.call at 1. rewrite Hadd.
  unfold Py.bind at 1. unfold Py.call at 1. rewrite Htitle.
  unfold Py.bind at 1. unfold Py.call at 1. rewrite Hclear.
  unfold Py.bind at 1. rewrite for_each_fold, Hbullets.
  unfold Py.bind, Py.act, Py.ret. rewrite Hsave. simpl.
  now rewrite split_commas_length.
Qed.

(** Witness of [add_content_slide_counts_bullets]: two commas, three
    bullets under the title of the new slide. *)
Lemma add_content_slide_counts_bullets_witness :
  let L := with_deck [] in
  PPTX_AVAILABLE L = true
  /\ pptx_open L ∅ "d.pptx" = Return []
  /\ fold_calls (fun p bullet => pptx_add_bullet L p 0%nat 1 bullet)
                (split_commas "a, b,c") [["Plan"]]
     = Return [["Plan"; "a"; "b"; "c"]]
  /\ invoke L (Add_content_slide _ "d.pptx" "Plan" "a, b,c") (Demo.start ∅)
     = (Return "Content slide with 3 bullets added successfully", Demo.start ∅).
Proof.
  intros L. split; [reflexivity|]. split; [reflexivity|].
  split; [reflexivity|].
  exact (proj1 (add_content_slide_counts_bullets L "d.pptx" "Plan" "a, b,c"
                  [] [[]] [["Plan"]] [["Plan"]] [["Plan"; "a"; "b"; "c"]] 1 0%nat
                  (Demo.start ∅) ∅
                  eq_refl eq_refl eq_refl eq_refl eq_refl eq_refl eq_refl eq_refl)).
Defined.

(* ===================================================================== *)
(** ** The row limit of read_sheet *)
(* ===================================================================== *)

Lemma to_json_rows_length (L : Libs) (rows : list (list (value (pyfloat L))))
      (jrows : list json) :
  ExcelTools.to_json_rows L rows = Return jrows -> length jrows = length rows.
Proof.
  revert jrows. induction rows as [|r rest IH]; intros jrows H; simpl in H.
  - injection H as <-. reflexivity.
  - destruct (ExcelTools.to_json_list L r); [|discriminate].
    destruct (ExcelTools.to_json_rows L rest) as [js|]; [|discriminate].
    injection H as <-. simpl. f_equal. now apply IH.
Qed.

(** X22. [read_sheet] without a cell range, on a workbook that loads, for
    the active sheet or a sheet the workbook has, with values the encoder
    takes: "row_count" is [max_rows] when the sheet has at least that
    many rows and the number of rows of the sheet otherwise, and 0 for a
    [max_rows] that is zero or negative; "data" has that many rows. *)
Theorem read_sheet_row_limit
        (L : Libs) (path : string) (sheet_name cell_range : option string)
        (max_rows : Z) (wb : workbook (pyfloat L)) (i : nat)
        (jrows : list json) (s : state (World L)) :
  OPENPYXL_AVAILABLE L = true ->
  xl_load_workbook L path true true (world s) = Return wb ->
  (if truthy sheet_name
   then Xl.find_title (default EmptyString sheet_name) (worksheets wb) = Some i
   else Xl.active wb = Some i) ->
  truthy cell_range = false ->
  let rows := xl_iter_rows L (Xl.sheet_at wb i) in
  ExcelTools.to_json_rows L
    (map (map (Xl.get_value wb i)) (take (Z.to_nat max_rows) rows))
  = Return jrows ->
  let row_count := Z.min (Z.max 0 max_rows) (Z.of_nat (length rows)) in
  invoke L (Read_sheet _ path sheet_name cell_range max_rows) s
  = (Return (Json.dumps
               (JObj [("status", JStr "ok");
                      ("path", JStr (os_path_abspath L (world s) path));
                      ("sheet", JStr (title (Xl.sheet_at wb i)));
                      ("row_count", JInt row_count);
                      ("data", JArr jrows)])),
     s)
  /\ Z.of_nat (length jrows) = row_count.
Proof.
  intros Hav Hload Hsheet Hrange rows Hjson row_count.
  assert (Hlen : Z.of_nat
                   (length (map (map (Xl.get_value wb i))
                                (take (Z.to_nat max_rows) rows)))
                 = row_count).
  { rewrite length_map, length_take. unfold row_count. lia. }
  split.
  - unfold invoke, callee, ExcelTools.read_sheet, ExcelTools.guarded,
      ExcelTools._check_openpyxl.
    rewrite Hav. simpl negb. cbv iota.
    unfold run, Py.try_except. unfold Py.bind at 1. unfold Py.ask at 1.
    rewrite Hload.
    unfold Py.bind at 1. rewrite (existing_sheet_found L wb sheet_name i s Hsheet).
    rewrite Hrange.
    unfold Py.bind, Py.call, Py.ret, ExcelTools.abspath, Py.ask, Xl.deref,
      Xl.title_of.
    fold rows. rewrite Hjson, Hlen. destruct s; reflexivity.
  - rewrite (to_json_rows_length L _ _ Hjson). exact Hlen.
Qed.

(** Witness of [read_sheet_row_limit]: a negative limit reads no row. *)
Lemma read_sheet_row_limit_witness :
  let wb : workbook string :=
    Workbook [Worksheet "Sheet" {[ (1, 1) := VStr "a" ]}] 0 in
  let w : Demo.fs := {[ "b.xlsx" := Demo.Book wb ]} in
  OPENPYXL_AVAILABLE Demo.libs = true
  /\ xl_load_workbook Demo.libs "b.xlsx" true true w = Return wb
  /\ Xl.active wb = Some 0%nat
  /\ invoke Demo.libs (Read_sheet _ "b.xlsx" None None (-3)) (Demo.start w)
     = (Return (Json.dumps
                  (JObj [("status", JStr "ok"); ("path", JStr "/work/b.xlsx");
                         ("sheet", JStr "Sheet"); ("row_count", JInt 0);
                         ("data", JArr [])])),
        Demo.start w).
Proof.
  intros wb w. split; [reflexivity|]. split; [reflexivity|].
  split; [reflexivity|].
  exact (proj1 (read_sheet_row_limit Demo.libs "b.xlsx" None None (-3) wb 0%nat
                  [] (Demo.start w) eq_refl eq_refl eq_refl eq_refl eq_refl)).
Defined.

(** X23. With a cell range given, [read_sheet] does not look at
    [max_rows]: on a workbook that loads, for the active sheet or a sheet
    the workbook has, when the range is accepted and the encoder takes
    the values, the result holds every row of the range, "row_count" is
    the number of rows of the range, and both are the same for every
    [max_rows], also one below that number. *)
Theorem read_sheet_range_ignores_max_rows
        (L : Libs) (path : string) (sheet_name cell_range : option string)
        (max_rows : Z) (wb : workbook (pyfloat L)) (i : nat)
        (rows : list (list (Z * Z))) (jrows : list json)
        (s : state (World L)) :
  OPENPYXL_AVAILABLE L = true ->
  xl_load_workbook L path true true (world s) = Return wb ->
  (if truthy sheet_name
   then Xl.find_title (default EmptyString sheet_name) (worksheets wb) = Some i
   else Xl.active wb = Some i) ->
  truthy cell_range = true ->
  xl_range L (Xl.sheet_at wb i) (default EmptyString cell_range) = Return rows ->
  ExcelTools.to_json_rows L (map (map (Xl.get_value wb i)) rows) = Return jrows ->
  invoke L (Read_sheet _ path sheet_name cell_range max_rows) s
  = (Return (Json.dumps
               (JObj [("status", JStr "ok");
                      ("path", JStr (os_path_abspath L (world s) path));
                      ("sheet", JStr (title (Xl.sheet_at wb i)));
                      ("row_count", JInt (Z.of_nat (length rows)));
                      ("data", JArr jrows)])),
     s)
  /\ length jrows = length rows.
Proof.
  intros Hav Hload Hsheet Hrange Hrows Hjson.
  assert (Hlen : length (map (map (Xl.get_value wb i)) rows) = length rows)
    by apply length_map.
  split.
  - unfold invoke, callee, ExcelTools.read_sheet, ExcelTools.guarded,
      ExcelTools._check_openpyxl.
    rewrite Hav. simpl negb. cbv iota.
    unfold run, Py.try_except. unfold Py.bind at 1. unfold Py.ask at 1.
    rewrite Hload.
    unfold Py.bind at 1. rewrite (existing_sheet_found L wb sheet_name i s Hsheet).
    rewrite Hrange.
    unfold Py.bind, Py.call, Py.ret, ExcelTools.abspath, Py.ask, Xl.deref,
      Xl.title_of.
    rewrite Hrows, Hjson, Hlen. destruct s; reflexivity.
  - rewrite (to_json_rows_length L _ _ Hjson). exact Hlen.
Qed.

(** Witness of [read_sheet_range_ignores_max_rows]: a range of three rows
    read with a limit of one row. *)
Lemma read_sheet_range_ignores_max_rows_witness :
  let wb : workbook string :=
    Workbook [Worksheet "Sheet" {[ (1, 1) := VStr "a"; (2, 1) := VInt 2;
                                   (3, 1) := VStr "c" ]}] 0 in
  let w : Demo.fs := {[ "b.xlsx" := Demo.Book wb ]} in
  OPENPYXL_AVAILABLE Demo.libs = true
  /\ xl_load_workbook Demo.libs "b.xlsx" true true w = Return wb
  /\ truthy (Some "A1:A3") = true
  /\ xl_range Demo.libs (Xl.sheet_at wb 0) "A1:A3"
     = Return [[(1, 1)]; [(2, 1)]; [(3, 1)]]
  /\ invoke Demo.libs (Read_sheet _ "b.xlsx" None (Some "A1:A3") 1) (Demo.start w)
     = (Return (Json.dumps
                  (JObj [("status", JStr "ok"); ("path", JStr "/work/b.xlsx");
                         ("sheet", JStr "Sheet"); ("row_count", JInt 3);
                         ("data", JArr [JArr [JStr "a"]; JArr [JInt 2];
                                        JArr [JStr "c"]])])),
        Demo.start w).
Proof.
  intros wb w.
  assert (Hload : xl_load_workbook Demo.libs "b.xlsx" true true w = Return wb)
    by (vm_compute; reflexivity).
  split; [reflexivity|]. split; [exact Hload|]. split; [reflexivity|].
  split; [reflexivity|].
  exact (proj1 (read_sheet_range_ignores_max_rows Demo.libs "b.xlsx" None
                  (Some "A1:A3") 1 wb 0%nat [[(1, 1)]; [(2, 1)]; [(3, 1)]]
                  [JArr [JStr "a"]; JArr [JInt 2]; JArr [JStr "c"]]
                  (Demo.start w) eq_refl Hload eq_refl eq_refl eq_refl eq_refl)).
Defined.

(* ===================================================================== *)
(** ** The guards for a missing library *)
(* ===================================================================== *)

(** X24. When the library a function wraps is not installed (for the web
    functions that parse HTML: requests or beautifulsoup4), the function
    returns the message of its class before its [try]: the error object
    of [_check_openpyxl] for the Excel functions, "Error: <library> is
    not installed" for the others, reportlab for [create_pdf] and PyPDF2
    for the other PDF functions, and "Error: requests and beautifulsoup4
    are required" for the functions that parse HTML.  Nothing is called,
    and the state is as it was. *)
Theorem missing_library_is_reported
        (L : Libs) (c : tool_call (pyfloat L)) (s : state (World L)) :
  missing L c = true ->
  callee L c = Early (not_installed c)
  /\ invoke L c s = (Return (not_installed c), s).
Proof.
  intros Hm.
  assert (E : callee L c = Early (not_installed c)).
  { destruct c; simpl in Hm; try discriminate Hm; unfold callee, not_installed;
      repeat lazymatch goal with
             | |- Early _ = Early _ => reflexivity
             | |- ExcelTools.guarded _ _ = _ =>
                 unfold ExcelTools.guarded, ExcelTools._check_openpyxl;
                 rewrite Hm; reflexivity
             | |- (if _ then _ else _) = _ => rewrite Hm
             | |- ?f = _ => let h := head_of f in unfold h
             end. }
  split; [exact E|]. unfold invoke. now rewrite E.
Qed.

(** Witness of [missing_library_is_reported]: bs4 is missing in the
    in-memory instance. *)
Lemma missing_library_is_reported_witness :
  missing Demo.libs (Extract_links _ "http://example.org") = true
  /\ invoke Demo.libs (Extract_links _ "http://example.org") (Demo.start ∅)
     = (Return "Error: requests and beautifulsoup4 are required", Demo.start ∅).
Proof.
  split; [reflexivity|].
  exact (proj2 (missing_library_is_reported Demo.libs
                  (Extract_links _ "http://example.org") (Demo.start ∅) eq_refl)).
Defined.
